(** * Branch dependency analysis: domain model, cache, repository, service

    A shallow embedding of [backend/analysis/domain_models.py],
    [backend/analysis/repositories.py] and [backend/analysis/services.py],
    followed by the properties of the query layer.

    Conventions of the embedding.
    - A Python [str] is a [string]; its characters are read as the code
      points 0..255, so that [lower] and [strip] are Python's on that range.
    - A Python [int] is a [Z]; [len] is a [nat]; a [float] is a primitive
      binary64 float.
    - A [dict] is an association list in insertion order, the order Python
      iterates it in.
    - Timestamps ([time.time()], [st_mtime], [datetime.now().timestamp()])
      are integers (clock ticks): the code only compares and subtracts
      them.  The clock is a sequence of readings, one taken per call.
    - A field of a dataclass has the type of its annotation where the code
      relies on it: the paths and the context are strings ([__post_init__]
      calls [strip] on them), the type is a member of the enumeration, the
      files, the dependencies and the folders are tuples.  The other
      fields ([line], [details], [error], the values of the metadata, the
      entries of the folder tuples) hold whatever value they were given:
      the code compares [line] and two values of the metadata with zero
      and passes the rest on, and the dataclasses do not check their
      annotations.
    - [json.load] and the file system are taken by what they give: the
      path is absent, a directory, or a file that cannot be read, is no
      JSON, or holds a JSON value.
    - Log messages are dropped; exception messages keep their fixed prefix. *)

From Stdlib Require Import ZArith List String Ascii Bool Arith Lia.
From Stdlib Require Import Permutation Sorted DecimalString DecimalZ.
From Stdlib Require Import Floats.PrimFloat.
Import ListNotations.

Local Open Scope string_scope.
Local Open Scope list_scope.

(* ------------------------------------------------------------------ *)
(** ** Python strings *)

Module PyStr.

(** [str.isspace] on the code points below 256. *)
Definition isspace (c : ascii) : bool :=
  let n := nat_of_ascii c in
  (((9 <=? n) && (n <=? 13)) || ((28 <=? n) && (n <=? 32))
   || (n =? 133) || (n =? 160))%nat.

Fixpoint lstrip (s : string) : string :=
  match s with
  | EmptyString => EmptyString
  | String c s' => if isspace c then lstrip s' else s
  end.

Fixpoint rstrip (s : string) : string :=
  match s with
  | EmptyString => EmptyString
  | String c s' =>
      match rstrip s' with
      | EmptyString => if isspace c then EmptyString else String c EmptyString
      | r => String c r
      end
  end.

(** [s.strip()] *)
Definition strip (s : string) : string := rstrip (lstrip s).

(** [c.lower()] on the code points below 256: A-Z and the upper-case
    letters of Latin-1 (0xC0-0xDE without the multiplication sign). *)
Definition lower_char (c : ascii) : ascii :=
  let n := nat_of_ascii c in
  if (((65 <=? n) && (n <=? 90))
      || ((192 <=? n) && (n <=? 222) && negb (n =? 215)))%nat
  then ascii_of_nat (n + 32) else c.

(** [s.lower()] *)
Fixpoint lower (s : string) : string :=
  match s with
  | EmptyString => EmptyString
  | String c s' => String (lower_char c) (lower s')
  end.

(** [s.startswith(p)] *)
Fixpoint startswith (p s : string) : bool :=
  match p, s with
  | EmptyString, _ => true
  | String _ _, EmptyString => false
  | String a p', String b s' => Ascii.eqb a b && startswith p' s'
  end.

(** [sub in s] *)
Fixpoint contains (sub s : string) : bool :=
  startswith sub s
  || match s with
     | EmptyString => false
     | String _ s' => contains sub s'
     end.

(** [not s.strip()]: the emptiness test of the [__post_init__] checks. *)
Definition blank (s : string) : bool :=
  match strip s with EmptyString => true | _ => false end.

End PyStr.

(* ------------------------------------------------------------------ *)
(** ** Dynamic values, dictionaries, exceptions *)

(** The values [json.load] produces and [to_dict] builds. *)
#[warnings="-register-all"]
Inductive pyval : Type :=
| PNone
| PBool (b : bool)
| PInt (z : Z)
| PFloat (f : float)
| PStr (s : string)
| PList (l : list pyval)
| PDict (d : list (string * pyval)).

Module PyDict.
Section Dict.
Context {K V : Type} (eqb : K -> K -> bool).

(** [d.get(k)] *)
Fixpoint get (k : K) (d : list (K * V)) : option V :=
  match d with
  | [] => None
  | (k', v) :: d' => if eqb k k' then Some v else get k d'
  end.

(** [k in d] *)
Definition mem (k : K) (d : list (K * V)) : bool :=
  match get k d with Some _ => true | None => false end.

(** [d[k] = v]: an existing key keeps its place, a new one goes last. *)
Fixpoint set (k : K) (v : V) (d : list (K * V)) : list (K * V) :=
  match d with
  | [] => [(k, v)]
  | (k', v') :: d' =>
      if eqb k k' then (k', v) :: d' else (k', v') :: set k v d'
  end.

(** What [del d[k]] leaves of [d]. *)
Fixpoint remove (k : K) (d : list (K * V)) : list (K * V) :=
  match d with
  | [] => []
  | (k', v') :: d' =>
      if eqb k k' then d' else (k', v') :: remove k d'
  end.

(** [d.keys()] *)
Definition keys (d : list (K * V)) : list K := map fst d.
End Dict.
End PyDict.

(** Dictionaries with [str] keys. *)
Abbreviation sget := (PyDict.get String.eqb).
Abbreviation smem := (PyDict.mem String.eqb).
Abbreviation sset := (PyDict.set String.eqb).
Abbreviation sremove := (PyDict.remove String.eqb).

(** The exceptions the analysis layer raises or meets.  [RepositoryError]
    and [AnalysisError] carry the exception they were raised [from]. *)
Inductive exn : Type :=
| ValueError (msg : string)
| KeyError (key : string)
| TypeError (msg : string)
| AttributeError (msg : string)
| JSONDecodeError
| IOError
| RepositoryError (msg : string) (cause : exn)
| AnalysisError (msg : string) (cause : exn).

(** [isinstance(e, ValueError)]: [json.JSONDecodeError] derives from it. *)
Definition is_ValueError (e : exn) : bool :=
  match e with
  | ValueError _ | JSONDecodeError => true
  | _ => false
  end.

Inductive outcome (A : Type) : Type :=
| Ok (a : A)
| Raise (e : exn).
Arguments Ok {A} a.
Arguments Raise {A} e.

Definition obind {A B} (o : outcome A) (k : A -> outcome B) : outcome B :=
  match o with
  | Ok a => k a
  | Raise e => Raise e
  end.

Declare Scope outcome_scope.
Delimit Scope outcome_scope with outcome.
Notation "'let?' x ':=' o 'in' k" := (obind o (fun x => k))
  (at level 10, x name, o at level 100, k at level 200) : outcome_scope.

(** [tuple(f(x) for x in l)] where [f] may raise: the first failure wins. *)
Fixpoint omap {A B} (f : A -> outcome B) (l : list A) : outcome (list B) :=
  match l with
  | [] => Ok []
  | x :: l' =>
      match f x with
      | Raise e => Raise e
      | Ok y =>
          match omap f l' with
          | Raise e => Raise e
          | Ok ys => Ok (y :: ys)
          end
      end
  end.

(** [data[k]] on a value: [KeyError] on a dictionary without the key,
    [TypeError] on a value that is no dictionary. *)
Definition subscript (data : pyval) (k : string) : outcome pyval :=
  match data with
  | PDict d =>
      match sget k d with
      | Some v => Ok v
      | None => Raise (KeyError k)
      end
  | _ => Raise (TypeError "not subscriptable by a string")
  end.

(** [data.get(k)] on a value, [None] standing for the absent key:
    [AttributeError] on a value that is no dictionary. *)
Definition dot_get (data : pyval) (k : string) : outcome (option pyval) :=
  match data with
  | PDict d => Ok (sget k d)
  | _ => Raise (AttributeError "get")
  end.

(** [v < 0]: numbers are compared, [bool] being an [int]; any other value
    raises [TypeError]. *)
Definition lt_zero (v : pyval) : outcome bool :=
  match v with
  | PBool _ => Ok false
  | PInt z => Ok (z <? 0)%Z
  | PFloat f => Ok (PrimFloat.ltb f 0%float)
  | _ => Raise (TypeError "'<' not supported")
  end.

(** [for x in v]: the items a value yields when iterated. *)
Fixpoint chars (s : string) : list pyval :=
  match s with
  | EmptyString => []
  | String c s' => PStr (String c EmptyString) :: chars s'
  end.

Definition iterate (v : pyval) : outcome (list pyval) :=
  match v with
  | PList l => Ok l
  | PDict d => Ok (map (fun kv => PStr (fst kv)) d)
  | PStr s => Ok (chars s)
  | _ => Raise (TypeError "object is not iterable")
  end.

(** [x if x is present else default], for [data.get(k, default)]. *)
Definition or_default {A} (o : option A) (default : A) : A :=
  match o with Some a => a | None => default end.

(* ------------------------------------------------------------------ *)
(** ** Domain model ([domain_models.py]) *)

Inductive DependencyType : Type :=
| INSTANTIATION
| STATIC_CALL
| TYPE_HINT
| USE_STATEMENT
| INSTANCEOF
| CLASS_CONSTANT
| CLASS_REFERENCE.

Module DepType.

(** [dt.value] *)
Definition value (t : DependencyType) : string :=
  match t with
  | INSTANTIATION => "instantiation"
  | STATIC_CALL => "static_call"
  | TYPE_HINT => "type_hint"
  | USE_STATEMENT => "use_statement"
  | INSTANCEOF => "instanceof"
  | CLASS_CONSTANT => "class_constant"
  | CLASS_REFERENCE => "class_reference"
  end.

(** [for dt in DependencyType]: the members in definition order. *)
Definition members : list DependencyType :=
  [INSTANTIATION; STATIC_CALL; TYPE_HINT; USE_STATEMENT; INSTANCEOF;
   CLASS_CONSTANT; CLASS_REFERENCE].

(** [a == b] on members. *)
Definition eqb (a b : DependencyType) : bool :=
  match a, b with
  | INSTANTIATION, INSTANTIATION
  | STATIC_CALL, STATIC_CALL
  | TYPE_HINT, TYPE_HINT
  | USE_STATEMENT, USE_STATEMENT
  | INSTANCEOF, INSTANCEOF
  | CLASS_CONSTANT, CLASS_CONSTANT
  | CLASS_REFERENCE, CLASS_REFERENCE => true
  | _, _ => false
  end.

(** The member whose value is [s], if any. *)
Definition lookup (s : string) : option DependencyType :=
  find (fun t => String.eqb (value t) s) members.

(** [DependencyType(v)]: the member with that value, else [ValueError]. *)
Definition of_value (v : pyval) : outcome DependencyType :=
  match v with
  | PStr s =>
      match lookup s with
      | Some t => Ok t
      | None => Raise (ValueError "not a valid DependencyType")
      end
  | _ => Raise (ValueError "not a valid DependencyType")
  end.

End DepType.

Module Dependency.

Record t : Type := mk {
  type : DependencyType;
  line : pyval;
  context : string;
  details : pyval
}.

(** [__post_init__] *)
Definition post_init (d : t) : outcome t :=
  (let? negative := lt_zero (line d) in
   if negative then
     Raise (ValueError "Line number must be non-negative")
   else if PyStr.blank (context d) then
     Raise (ValueError "Context cannot be empty")
   else Ok d)%outcome.

Definition valid (d : t) : bool :=
  match lt_zero (line d) with
  | Ok negative => negb negative && negb (PyStr.blank (context d))
  | Raise _ => false
  end.

Definition to_dict (d : t) : pyval :=
  PDict [("type", PStr (DepType.value (type d)));
         ("line", line d);
         ("context", PStr (context d));
         ("details", details d)].

(** [cls(type=..., line=..., context=..., details=...)] on the values
    read from the document: the checks of [__post_init__], in its order;
    a context that is no string has no [strip]. *)
Definition construct (ty : DependencyType) (ln cx dt : pyval) : outcome t :=
  match cx with
  | PStr s => post_init (mk ty ln s dt)
  | _ =>
      (let? negative := lt_zero ln in
       if negative then
         Raise (ValueError "Line number must be non-negative")
       else Raise (AttributeError "strip"))%outcome
  end.

Definition from_dict (data : pyval) : outcome t :=
  (let? tyv := subscript data "type" in
   let? ty := DepType.of_value tyv in
   let? ln := subscript data "line" in
   let? cx := subscript data "context" in
   let? dt := dot_get data "details" in
   construct ty ln cx (or_default dt (PDict [])))%outcome.

End Dependency.

Module FileAnalysis.

Record t : Type := mk {
  file_path : string;
  relative_path : string;
  dependencies : list Dependency.t;
  error : pyval
}.

(** [__post_init__] *)
Definition post_init (f : t) : outcome t :=
  if PyStr.blank (file_path f) then
    Raise (ValueError "File path cannot be empty")
  else if PyStr.blank (relative_path f) then
    Raise (ValueError "Relative path cannot be empty")
  else Ok f.

Definition valid (f : t) : bool :=
  negb (PyStr.blank (file_path f))
  && negb (PyStr.blank (relative_path f))
  && forallb Dependency.valid (dependencies f).

Definition total_dependencies (f : t) : nat :=
  List.length (dependencies f).

Definition has_dependencies (f : t) : bool := (0 <? total_dependencies f)%nat.

(** [{dep.type for dep in self.dependencies}], as a membership test. *)
Definition dependency_types (f : t) (ty : DependencyType) : bool :=
  existsb (fun dep => DepType.eqb (Dependency.type dep) ty) (dependencies f).

Definition get_dependencies_by_type (f : t) (dep_type : DependencyType)
  : list Dependency.t :=
  filter (fun dep => DepType.eqb (Dependency.type dep) dep_type)
         (dependencies f).

Definition to_dict (f : t) : pyval :=
  PDict [("file_path", PStr (file_path f));
         ("relative_path", PStr (relative_path f));
         ("dependencies", PList (map Dependency.to_dict (dependencies f)));
         ("total_dependencies", PInt (Z.of_nat (total_dependencies f)));
         ("error", error f)].

(** [cls(file_path=..., relative_path=..., dependencies=..., error=...)]
    on the values read from the document: the checks of [__post_init__],
    in its order; a path that is no string has no [strip]. *)
Definition construct (fp rp : pyval) (deps : list Dependency.t)
           (er : pyval) : outcome t :=
  match fp with
  | PStr fp =>
      match rp with
      | PStr rp => post_init (mk fp rp deps er)
      | _ =>
          if PyStr.blank fp then Raise (ValueError "File path cannot be empty")
          else Raise (AttributeError "strip")
      end
  | _ => Raise (AttributeError "strip")
  end.

Definition from_dict (data : pyval) : outcome t :=
  (let? dv := dot_get data "dependencies" in
   let? items := iterate (or_default dv (PList [])) in
   let? deps := omap Dependency.from_dict items in
   let? fp := subscript data "file_path" in
   let? rp := dot_get data "relative_path" in
   let? er := dot_get data "error" in
   construct fp (or_default rp fp) deps (or_default er PNone))%outcome.

End FileAnalysis.

Module AnalysisMetadata.

Record t : Type := mk {
  timestamp : pyval;
  analysis_time_seconds : pyval;
  base_path : pyval;
  analyzed_folders : list pyval;
  excluded_folders : list pyval;
  total_files_analyzed : pyval
}.

(** [__post_init__] *)
Definition post_init (m : t) : outcome t :=
  (let? negative := lt_zero (analysis_time_seconds m) in
   if negative then
     Raise (ValueError "Analysis time cannot be negative")
   else
     let? negative := lt_zero (total_files_analyzed m) in
     if negative then
       Raise (ValueError "Total files analyzed cannot be negative")
     else Ok m)%outcome.

Definition valid (m : t) : bool :=
  match lt_zero (analysis_time_seconds m), lt_zero (total_files_analyzed m) with
  | Ok negative_time, Ok negative_total =>
      negb negative_time && negb negative_total
  | _, _ => false
  end.

Definition to_dict (m : t) : pyval :=
  PDict [("timestamp", timestamp m);
         ("analysis_time_seconds", analysis_time_seconds m);
         ("base_path", base_path m);
         ("analyzed_folders", PList (analyzed_folders m));
         ("excluded_folders", PList (excluded_folders m));
         ("total_files_analyzed", total_files_analyzed m)].

(** The values are passed to the constructor as the document gives them,
    the folders as the tuples of what iterating them yields. *)
Definition from_dict (data : pyval) : outcome t :=
  (let? ts := dot_get data "timestamp" in
   let? atime := dot_get data "analysis_time_seconds" in
   let? bp := dot_get data "base_path" in
   let? af := dot_get data "analyzed_folders" in
   let? af := iterate (or_default af (PList [])) in
   let? ef := dot_get data "excluded_folders" in
   let? ef := iterate (or_default ef (PList [])) in
   let? tf := dot_get data "total_files_analyzed" in
   post_init (mk (or_default ts (PStr "")) (or_default atime (PFloat 0%float))
                 (or_default bp (PStr "")) af ef
                 (or_default tf (PInt 0))))%outcome.

End AnalysisMetadata.

(** [sorted(l, key=key, reverse=True)]: descending by key, elements of
    equal key in the order they have in [l]. *)
Fixpoint insert_desc {A} (key : A -> nat) (x : A) (l : list A) : list A :=
  match l with
  | [] => [x]
  | y :: l' =>
      if (key x <? key y)%nat then y :: insert_desc key x l'
      else x :: y :: l'
  end.

Definition sorted_reverse {A} (key : A -> nat) (l : list A) : list A :=
  fold_right (insert_desc key) [] l.

Module AnalysisResult.

Record t : Type := mk {
  files : list FileAnalysis.t;
  metadata : AnalysisMetadata.t
}.

Definition valid (r : t) : bool :=
  forallb FileAnalysis.valid (files r) && AnalysisMetadata.valid (metadata r).

Definition total_files (r : t) : nat := List.length (files r).

Definition files_with_dependencies (r : t) : list FileAnalysis.t :=
  filter FileAnalysis.has_dependencies (files r).

(** [sum(f.total_dependencies for f in self.files)] *)
Definition total_dependencies (r : t) : nat :=
  fold_left (fun acc f => (acc + FileAnalysis.total_dependencies f)%nat)
            (files r) 0%nat.

(** One round of the inner loop:
    [distribution[dep_type] = distribution.get(dep_type, 0) + 1]. *)
Definition count_dependency (distribution : list (DependencyType * nat))
           (dependency : Dependency.t) : list (DependencyType * nat) :=
  let dep_type := Dependency.type dependency in
  PyDict.set DepType.eqb dep_type
    (or_default (PyDict.get DepType.eqb dep_type distribution) 0 + 1)%nat
    distribution.

Definition dependency_type_distribution (r : t)
  : list (DependencyType * nat) :=
  fold_left
    (fun distribution file_analysis =>
       fold_left count_dependency
                 (FileAnalysis.dependencies file_analysis) distribution)
    (files r) [].

Definition get_hotspots (r : t) (limit : Z) : outcome (list FileAnalysis.t) :=
  if (limit <=? 0)%Z then Raise (ValueError "Limit must be positive")
  else
    let sorted_files :=
      sorted_reverse FileAnalysis.total_dependencies
                     (files_with_dependencies r) in
    Ok (firstn (Z.to_nat limit) sorted_files).

Definition get_files_by_dependency_type (r : t) (dep_type : DependencyType)
  : list FileAnalysis.t :=
  filter (fun f => FileAnalysis.dependency_types f dep_type) (files r).

(** One round of the loop of [search_files]. *)
Definition search_step (query_lower : string)
           (matching_files : list FileAnalysis.t)
           (file_analysis : FileAnalysis.t) : list FileAnalysis.t :=
  let path_match :=
    PyStr.contains query_lower
      (PyStr.lower (FileAnalysis.relative_path file_analysis)) in
  let context_match :=
    existsb (fun dep =>
               PyStr.contains query_lower
                 (PyStr.lower (Dependency.context dep)))
            (FileAnalysis.dependencies file_analysis) in
  if path_match || context_match
  then matching_files ++ [file_analysis]
  else matching_files.

Definition search_files (r : t) (query : string) : list FileAnalysis.t :=
  if (String.length (PyStr.strip query) <? 2)%nat then []
  else
    let query_lower := PyStr.lower query in
    fold_left (search_step query_lower) (files_with_dependencies r) [].

Definition to_dict (r : t) : pyval :=
  PDict [("files", PList (map FileAnalysis.to_dict (files r)));
         ("analysis_metadata", AnalysisMetadata.to_dict (metadata r))].

Definition from_dict (data : pyval) : outcome t :=
  (let? fv := dot_get data "files" in
   let? items := iterate (or_default fv (PList [])) in
   let? files := omap FileAnalysis.from_dict items in
   let? mv := dot_get data "analysis_metadata" in
   let? metadata := AnalysisMetadata.from_dict (or_default mv (PDict [])) in
   Ok (mk files metadata))%outcome.

End AnalysisResult.

Module SummaryStatistics.

Record t : Type := mk {
  total_files : nat;
  files_with_dependencies : nat;
  total_dependencies : nat;
  dependency_type_counts : list (string * nat);
  analysis_metadata : pyval
}.

(** [{dep_type.value: count for dep_type, count in ....items()}] *)
Definition type_counts (distribution : list (DependencyType * nat))
  : list (string * nat) :=
  fold_left (fun acc item => sset (DepType.value (fst item)) (snd item) acc)
            distribution [].

Definition from_analysis_result (result : AnalysisResult.t) : t :=
  mk (AnalysisResult.total_files result)
     (List.length (AnalysisResult.files_with_dependencies result))
     (AnalysisResult.total_dependencies result)
     (type_counts (AnalysisResult.dependency_type_distribution result))
     (AnalysisMetadata.to_dict (AnalysisResult.metadata result)).

End SummaryStatistics.

(* ------------------------------------------------------------------ *)
(** ** The in-memory cache ([repositories.py], [InMemoryCacheService]) *)

(** [min(l, key=key)]: the first element whose key is least. *)
Fixpoint py_min_from {A} (key : A -> Z) (best : A) (l : list A) : A :=
  match l with
  | [] => best
  | x :: l' => py_min_from key (if (key x <? key best)%Z then x else best) l'
  end.

Definition py_min {A} (key : A -> Z) (l : list A) : option A :=
  match l with
  | [] => None
  | x :: l' => Some (py_min_from key x l')
  end.

Module InMemoryCacheService.
Section WithValue.
Context {V : Type}.

(** The two dictionaries of the object and its bound.  An operation
    that stamps an access takes the reading of
    [datetime.now().timestamp()] as [now]. *)
Record t : Type := mk {
  cache : list (string * V);
  access_times : list (string * Z);
  max_size : Z
}.

(** [__init__] *)
Definition new (max_size : Z) : t := mk [] [] max_size.

Definition get (key : string) (now : Z) (c : t) : option V * t :=
  if smem key (cache c) then
    (sget key (cache c),
     mk (cache c) (sset key now (access_times c)) (max_size c))
  else (None, c).

(** [del self.access_times[key]] raises [KeyError] on a missing key,
    after [del self.cache[key]] has been done. *)
Definition delete (key : string) (c : t) : outcome unit * t :=
  if smem key (cache c) then
    let c1 := mk (sremove key (cache c)) (access_times c) (max_size c) in
    if smem key (access_times c1) then
      (Ok tt, mk (cache c1) (sremove key (access_times c1)) (max_size c1))
    else (Raise (KeyError key), c1)
  else (Ok tt, c).

(** [min(self.access_times.keys(), key=lambda k: self.access_times[k])] *)
Definition lru_key (times : list (string * Z)) : option string :=
  py_min (fun k => or_default (sget k times) 0%Z) (PyDict.keys times).

Definition _evict_lru (c : t) : outcome unit * t :=
  match lru_key (access_times c) with
  | None => (Ok tt, c)
  | Some k => delete k c
  end.

Definition set (key : string) (value : V) (now : Z) (c : t)
  : outcome unit * t :=
  let (o, c1) :=
    if (Z.of_nat (List.length (cache c)) >=? max_size c)%Z
       && negb (smem key (cache c))
    then _evict_lru c
    else (Ok tt, c) in
  match o with
  | Raise e => (Raise e, c1)
  | Ok _ =>
      (Ok tt,
       mk (sset key value (cache c1)) (sset key now (access_times c1))
          (max_size c1))
  end.

Definition clear (c : t) : t := mk [] [] (max_size c).

Definition exists_ (key : string) (c : t) : bool := smem key (cache c).

(** The operations a client can call, with the clock reading each one
    is given. *)
Inductive op : Type :=
| Get (key : string) (now : Z)
| Set_ (key : string) (value : V) (now : Z)
| Delete (key : string)
| Clear.

Definition step (c : t) (o : op) : outcome unit * t :=
  match o with
  | Get k now => (Ok tt, snd (get k now c))
  | Set_ k v now => set k v now c
  | Delete k => delete k c
  | Clear => (Ok tt, clear c)
  end.

(** A sequence of calls; a call that raises stops the run. *)
Fixpoint run (ops : list op) (c : t) : outcome unit * t :=
  match ops with
  | [] => (Ok tt, c)
  | o :: ops' =>
      match step c o with
      | (Ok _, c') => run ops' c'
      | (Raise e, c') => (Raise e, c')
      end
  end.

End WithValue.
Arguments t V : clear implicits.
Arguments op V : clear implicits.
End InMemoryCacheService.

(* ------------------------------------------------------------------ *)
(** ** Objects, collaborators and the world they live in *)

(** The objects the cache holds and the cached operations return. *)
Inductive payload : Type :=
| OfResult (r : AnalysisResult.t)
| OfStatistics (s : SummaryStatistics.t)
| OfFiles (l : list FileAnalysis.t)
| OfDependencies (l : list pyval).

(** The two implementations of [CacheService]. *)
Inductive CacheService : Type :=
| InMemory (c : InMemoryCacheService.t payload)
| NullCacheService.

(** The [ValidationService] interface. *)
Record ValidationService : Type := {
  validate_search_query : string -> bool;
  validate_limit_parameter : Z -> bool;
  validate_dependency_type : string -> bool;
  validate_file_path : string -> bool
}.

Module StandardValidation.
Definition MIN_SEARCH_QUERY_LENGTH : nat := 0.
Definition MAX_SEARCH_QUERY_LENGTH : nat := 100.
Definition MIN_LIMIT : Z := 1.
Definition MAX_LIMIT : Z := 1000.
Definition VALID_DEPENDENCY_TYPES : list string :=
  map DepType.value DepType.members.
End StandardValidation.

Definition StandardValidationService : ValidationService := {|
  validate_search_query query :=
    let query_length := String.length (PyStr.strip query) in
    ((StandardValidation.MIN_SEARCH_QUERY_LENGTH <=? query_length)
     && (query_length <=? StandardValidation.MAX_SEARCH_QUERY_LENGTH))%nat;
  validate_limit_parameter limit :=
    ((StandardValidation.MIN_LIMIT <=? limit)
     && (limit <=? StandardValidation.MAX_LIMIT))%Z;
  validate_dependency_type dep_type :=
    existsb (String.eqb dep_type) StandardValidation.VALID_DEPENDENCY_TYPES;
  validate_file_path file_path :=
    let stripped_path := PyStr.strip file_path in
    ((0 <? String.length stripped_path)
     && (String.length stripped_path <? 1000))%nat
  |}.

(** What the path of the analysis document denotes on disk, and what
    reading it gives: [json.load] is taken by its result. *)
Inductive file_body : Type :=
| Unreadable
| InvalidJson
| JsonData (data : pyval).

Inductive fs_entry : Type :=
| NoSuchPath
| NotAFile
| RegularFile (st_mtime : Z) (body : file_body).

(** What the [MetricsCollector] is told. *)
Inductive metric : Type :=
| record_analysis_time (operation : string) (duration_seconds : Z)
| record_cache_hit (key : string)
| record_cache_miss (key : string)
| record_error (operation : string) (error_type : string).

(** The calls on collaborators an operation makes, in order. *)
Inductive event : Type :=
| CacheGet (ref : nat) (key : string)
| CacheSet (ref : nat) (key : string)
| CacheDelete (ref : nat) (key : string)
| CacheClear (ref : nat)
| RepositoryLoad
| RepositorySave
| RepositoryLastModified
| Metric (m : metric).

(** The state of a [JsonAnalysisDataRepository]: cache objects are held
    by reference, so that the repository and the service may share one. *)
Record RepositoryObject : Type := {
  repo_cache_service : option nat;
  _cache_key : string
}.

(** The state of a [BranchDependencyAnalysisService]. *)
Record ServiceObject : Type := {
  validation_service : ValidationService;
  cache_service : option nat;
  metrics_collector : bool;
  _analysis_result : option AnalysisResult.t;
  _last_loaded_time : option Z
}.

Record World : Type := {
  document : fs_entry;
  clock : nat -> Z;          (* the successive readings of the clock *)
  ticks : nat;               (* how many have been taken *)
  strftime : Z -> string;    (* '%Y-%m-%d %H:%M:%S' of a reading *)
  caches : nat -> CacheService;
  repository : RepositoryObject;
  service : ServiceObject
}.

Definition with_document (d : fs_entry) (w : World) : World :=
  {| document := d; clock := clock w; ticks := ticks w;
     strftime := strftime w; caches := caches w;
     repository := repository w; service := service w |}.

Definition with_ticks (n : nat) (w : World) : World :=
  {| document := document w; clock := clock w; ticks := n;
     strftime := strftime w; caches := caches w;
     repository := repository w; service := service w |}.

Definition with_cache (ref : nat) (c : CacheService) (w : World) : World :=
  {| document := document w; clock := clock w; ticks := ticks w;
     strftime := strftime w;
     caches := fun i => if (i =? ref)%nat then c else caches w i;
     repository := repository w; service := service w |}.

Definition with_service (s : ServiceObject) (w : World) : World :=
  {| document := document w; clock := clock w; ticks := ticks w;
     strftime := strftime w; caches := caches w;
     repository := repository w; service := s |}.

Definition with_loaded (r : option AnalysisResult.t) (t : option Z)
           (s : ServiceObject) : ServiceObject :=
  {| validation_service := validation_service s;
     cache_service := cache_service s;
     metrics_collector := metrics_collector s;
     _analysis_result := r;
     _last_loaded_time := t |}.

(** Computations: they read and change the world, return or raise, and
    leave the list of their calls on collaborators.  A raise keeps the
    changes made before it. *)
Definition M (A : Type) : Type := World -> outcome A * World * list event.

Definition ret {A} (a : A) : M A := fun w => (Ok a, w, []).

Definition raise {A} (e : exn) : M A := fun w => (Raise e, w, []).

Definition bind {A B} (m : M A) (k : A -> M B) : M B :=
  fun w =>
    match m w with
    | (Ok a, w1, ev1) =>
        match k a w1 with
        | (o, w2, ev2) => (o, w2, ev1 ++ ev2)
        end
    | (Raise e, w1, ev1) => (Raise e, w1, ev1)
    end.

(** [try: m except Exception as e: h e] *)
Definition try_except {A} (m : M A) (h : exn -> M A) : M A :=
  fun w =>
    match m w with
    | (Raise e, w1, ev1) =>
        match h e w1 with
        | (o, w2, ev2) => (o, w2, ev1 ++ ev2)
        end
    | r => r
    end.

Definition read {A} (f : World -> A) : M A := fun w => (Ok (f w), w, []).

Definition write (f : World -> World) : M unit := fun w => (Ok tt, f w, []).

Definition emit (e : event) : M unit := fun w => (Ok tt, w, [e]).

Definition of_outcome {A} (o : outcome A) : M A := fun w => (o, w, []).

Declare Scope world_scope.
Delimit Scope world_scope with world.
Notation "x <- m ;; k" := (bind m (fun x => k))
  (at level 61, m at next level, right associativity) : world_scope.
Notation "m ;; k" := (bind m (fun _ => k))
  (at level 61, right associativity) : world_scope.
Local Open Scope world_scope.

(** [time.time()], [datetime.now()]: the next reading of the clock. *)
Definition now : M Z :=
  fun w => (Ok (clock w (ticks w)), with_ticks (S (ticks w)) w, []).

(** [str(n)] *)
Definition str_of_int (z : Z) : string := NilZero.string_of_int (Z.to_int z).

(** [type(e).__name__] *)
Definition exn_name (e : exn) : string :=
  match e with
  | ValueError _ => "ValueError"
  | KeyError _ => "KeyError"
  | TypeError _ => "TypeError"
  | AttributeError _ => "AttributeError"
  | JSONDecodeError => "JSONDecodeError"
  | IOError => "OSError"
  | RepositoryError _ _ => "RepositoryError"
  | AnalysisError _ _ => "AnalysisError"
  end.

(** Calls on the cache object behind a reference. *)
Module Cache.

Definition get (ref : nat) (key : string) : M (option payload) :=
  emit (CacheGet ref key) ;;
  c <- read (fun w => caches w ref) ;;
  match c with
  | NullCacheService => ret None
  | InMemory c =>
      if InMemoryCacheService.exists_ key c then
        t <- now ;;
        let (v, c') := InMemoryCacheService.get key t c in
        write (with_cache ref (InMemory c')) ;;
        ret v
      else ret None
  end.

Definition set (ref : nat) (key : string) (value : payload) : M unit :=
  emit (CacheSet ref key) ;;
  c <- read (fun w => caches w ref) ;;
  match c with
  | NullCacheService => ret tt
  | InMemory c =>
      t <- now ;;
      let (o, c') := InMemoryCacheService.set key value t c in
      write (with_cache ref (InMemory c')) ;;
      of_outcome o
  end.

Definition delete (ref : nat) (key : string) : M unit :=
  emit (CacheDelete ref key) ;;
  c <- read (fun w => caches w ref) ;;
  match c with
  | NullCacheService => ret tt
  | InMemory c =>
      let (o, c') := InMemoryCacheService.delete key c in
      write (with_cache ref (InMemory c')) ;;
      of_outcome o
  end.

Definition clear (ref : nat) : M unit :=
  emit (CacheClear ref) ;;
  c <- read (fun w => caches w ref) ;;
  match c with
  | NullCacheService => ret tt
  | InMemory c => write (with_cache ref (InMemory (InMemoryCacheService.clear c)))
  end.

Definition exists_ (ref : nat) (key : string) : M bool :=
  c <- read (fun w => caches w ref) ;;
  match c with
  | NullCacheService => ret false
  | InMemory c => ret (InMemoryCacheService.exists_ key c)
  end.

End Cache.

(* ------------------------------------------------------------------ *)
(** ** The repository ([repositories.py], [JsonAnalysisDataRepository]) *)

Module JsonAnalysisDataRepository.

(** [__init__]: the cache key is made from the file's name. *)
Definition new (file_name : string) (cache_service : option nat)
  : RepositoryObject :=
  {| repo_cache_service := cache_service;
     _cache_key := ("analysis_result_" ++ file_name)%string |}.

Definition _create_empty_result : M AnalysisResult.t :=
  t <- now ;;
  fmt <- read strftime ;;
  empty_metadata <-
    of_outcome
      (AnalysisMetadata.post_init
         (AnalysisMetadata.mk (PStr (fmt t)) (PFloat 0%float) (PStr "")
                              [] [] (PInt 0))) ;;
  ret (AnalysisResult.mk [] empty_metadata).

(** [open(...)] then [json.load(f)] *)
Definition read_json : M pyval :=
  d <- read document ;;
  match d with
  | NoSuchPath | NotAFile | RegularFile _ Unreadable => raise IOError
  | RegularFile _ InvalidJson => raise JSONDecodeError
  | RegularFile _ (JsonData data) => ret data
  end.

(** [self.file_path.exists()] *)
Definition path_exists (d : fs_entry) : bool :=
  match d with NoSuchPath => false | _ => true end.

(** The [except] clauses of [load_analysis_result], in their order. *)
Definition load_handler {A} (e : exn) : M A :=
  match e with
  | JSONDecodeError =>
      raise (RepositoryError "Invalid JSON in analysis file" e)
  | KeyError _ | ValueError _ | TypeError _ =>
      raise (RepositoryError "Invalid analysis data format" e)
  | IOError => raise (RepositoryError "Cannot read analysis file" e)
  | _ => raise e
  end.

(** The object found in the cache, used as an [AnalysisResult]: an object
    of another class fails on its first attribute access. *)
Definition as_result (p : payload) : M AnalysisResult.t :=
  match p with
  | OfResult r => ret r
  | _ => raise (AttributeError "object is no AnalysisResult")
  end.

Definition load_from_file : M AnalysisResult.t :=
  d <- read document ;;
  if negb (path_exists d) then _create_empty_result
  else
    data <- read_json ;;
    result <- of_outcome (AnalysisResult.from_dict data) ;;
    self <- read repository ;;
    match repo_cache_service self with
    | Some ref => Cache.set ref (_cache_key self) (OfResult result)
    | None => ret tt
    end ;;
    ret result.

Definition load_analysis_result : M AnalysisResult.t :=
  emit RepositoryLoad ;;
  try_except
    (self <- read repository ;;
     match repo_cache_service self with
     | Some ref =>
         cached_result <- Cache.get ref (_cache_key self) ;;
         match cached_result with
         | Some p => as_result p
         | None => load_from_file
         end
     | None => load_from_file
     end)
    load_handler.

(** The [except] clauses of [save_analysis_result]. *)
Definition save_handler {A} (e : exn) : M A :=
  match e with
  | IOError => raise (RepositoryError "Cannot write analysis file" e)
  | TypeError _ | ValueError _ | JSONDecodeError =>
      raise (RepositoryError "Cannot serialize analysis result" e)
  | _ => raise e
  end.

(** Writing the document: the file gets the clock's reading as its
    modification time; a path that is a directory cannot be written. *)
Definition write_json (data : pyval) : M unit :=
  d <- read document ;;
  match d with
  | NotAFile => raise IOError
  | _ =>
      t <- now ;;
      write (with_document (RegularFile t (JsonData data)))
  end.

Definition save_analysis_result (result : AnalysisResult.t) : M unit :=
  emit RepositorySave ;;
  try_except
    (let data := AnalysisResult.to_dict result in
     write_json data ;;
     self <- read repository ;;
     match repo_cache_service self with
     | Some ref => Cache.set ref (_cache_key self) (OfResult result)
     | None => ret tt
     end)
    save_handler.

Definition exists_ : M bool :=
  d <- read document ;;
  ret match d with RegularFile _ _ => true | _ => false end.

Definition get_last_modified : M (option Z) :=
  emit RepositoryLastModified ;;
  d <- read document ;;
  ret match d with RegularFile st_mtime _ => Some st_mtime | _ => None end.

Definition invalidate_cache : M unit :=
  self <- read repository ;;
  match repo_cache_service self with
  | Some ref => Cache.delete ref (_cache_key self)
  | None => ret tt
  end.

End JsonAnalysisDataRepository.

Module Repository := JsonAnalysisDataRepository.

(* ------------------------------------------------------------------ *)
(** ** The service ([services.py], [BranchDependencyAnalysisService]) *)

Module BranchDependencyAnalysisService.

(** [__init__] *)
Definition new (validation : ValidationService) (cache : option nat)
           (metrics : bool) : ServiceObject :=
  {| validation_service := validation;
     cache_service := cache;
     metrics_collector := metrics;
     _analysis_result := None;
     _last_loaded_time := None |}.

(** [if self.metrics_collector: self.metrics_collector.m(...)] *)
Definition metrics (m : metric) : M unit :=
  self <- read service ;;
  if metrics_collector self then emit (Metric m) else ret tt.

(** [duration = time.time() - start_time] and its recording. *)
Definition record_time (operation : string) (start_time : Z) : M unit :=
  self <- read service ;;
  if metrics_collector self then
    t <- now ;;
    emit (Metric (record_analysis_time operation (t - start_time)%Z))
  else ret tt.

Definition _should_reload_data : M bool :=
  self <- read service ;;
  match _last_loaded_time self with
  | None => ret true
  | Some loaded =>
      last_modified <- Repository.get_last_modified ;;
      match last_modified with
      | None => ret false
      | Some modified => ret (loaded <? modified)%Z
      end
  end.

(** The reload branch of [_get_analysis_result]. *)
Definition reload : M AnalysisResult.t :=
  result <- Repository.load_analysis_result ;;
  write (fun w =>
           with_service
             (with_loaded (Some result) (_last_loaded_time (service w))
                          (service w)) w) ;;
  t <- now ;;
  write (fun w =>
           with_service
             (with_loaded (_analysis_result (service w)) (Some t)
                          (service w)) w) ;;
  ret result.

Definition _get_analysis_result : M AnalysisResult.t :=
  self <- read service ;;
  match _analysis_result self with
  | None => reload
  | Some held =>
      should_reload <- _should_reload_data ;;
      if should_reload then reload else ret held
  end.

(** The lookup at the head of a cached operation: the cached object on a
    hit, with the hit or miss recorded. *)
Definition cache_lookup (cache_key : string) : M (option payload) :=
  self <- read service ;;
  match cache_service self with
  | None => ret None
  | Some ref =>
      cached <- Cache.get ref cache_key ;;
      match cached with
      | Some p => metrics (record_cache_hit cache_key) ;; ret (Some p)
      | None => metrics (record_cache_miss cache_key) ;; ret None
      end
  end.

(** [if self.cache_service: self.cache_service.set(cache_key, value)] *)
Definition cache_store (cache_key : string) (value : payload) : M unit :=
  self <- read service ;;
  match cache_service self with
  | None => ret tt
  | Some ref => Cache.set ref cache_key value
  end.

(** [except Exception as e]: record, wrap, raise [from e]. *)
Definition wrap {A} (operation message : string) (e : exn) : M A :=
  metrics (record_error operation (exn_name e)) ;;
  raise (AnalysisError message e).

(** [except ValueError as e: raise e], then [except Exception]. *)
Definition reraise_or_wrap {A} (operation message : string) (e : exn) : M A :=
  if is_ValueError e then raise e else wrap operation message e.

Definition get_summary_statistics : M payload :=
  start_time <- now ;;
  try_except
    (let cache_key := "summary_statistics" in
     cached_stats <- cache_lookup cache_key ;;
     match cached_stats with
     | Some p => ret p
     | None =>
         analysis_result <- _get_analysis_result ;;
         let summary_stats :=
           SummaryStatistics.from_analysis_result analysis_result in
         cache_store cache_key (OfStatistics summary_stats) ;;
         record_time "get_summary_statistics" start_time ;;
         ret (OfStatistics summary_stats)
     end)
    (wrap "get_summary_statistics" "Failed to get summary statistics").

(** [if not valid: raise ValueError(message)] *)
Definition require (valid : bool) (message : string) : M unit :=
  if negb valid then raise (ValueError message) else ret tt.

(** The [try] block of [find_dependency_hotspots]. *)
Definition find_dependency_hotspots_body (limit start_time : Z) : M payload :=
  self <- read service ;;
  require (validate_limit_parameter (validation_service self) limit)
          "Invalid limit parameter" ;;
  let cache_key := ("hotspots_" ++ str_of_int limit)%string in
  cached_hotspots <- cache_lookup cache_key ;;
  match cached_hotspots with
  | Some p => ret p
  | None =>
      analysis_result <- _get_analysis_result ;;
      hotspots <-
        of_outcome (AnalysisResult.get_hotspots analysis_result limit) ;;
      cache_store cache_key (OfFiles hotspots) ;;
      record_time "find_dependency_hotspots" start_time ;;
      ret (OfFiles hotspots)
  end.

Definition find_dependency_hotspots (limit : Z) : M payload :=
  start_time <- now ;;
  try_except
    (find_dependency_hotspots_body limit start_time)
    (reraise_or_wrap "find_dependency_hotspots"
                     "Failed to find dependency hotspots").

(** [dep_dict = dependency.to_dict(); dep_dict['file'] = relative_path] *)
Definition annotate (file_analysis : FileAnalysis.t)
             (dependency : Dependency.t) : pyval :=
  match Dependency.to_dict dependency with
  | PDict d =>
      PDict (sset "file" (PStr (FileAnalysis.relative_path file_analysis)) d)
  | v => v
  end.

(** The two nested loops of [get_dependencies_by_type]. *)
Definition collect (analysis_result : AnalysisResult.t)
             (dep_type : DependencyType) : list pyval :=
  fold_left
    (fun dependencies file_analysis =>
       let file_deps :=
         FileAnalysis.get_dependencies_by_type file_analysis dep_type in
       fold_left
         (fun dependencies dependency =>
            dependencies ++ [annotate file_analysis dependency])
         file_deps dependencies)
    (AnalysisResult.files analysis_result) [].

(** The [try] block of [get_dependencies_by_type]. *)
Definition get_dependencies_by_type_body (dep_type : DependencyType)
             (start_time : Z) : M payload :=
  self <- read service ;;
  require (validate_dependency_type (validation_service self)
                                    (DepType.value dep_type))
          "Invalid dependency type" ;;
  let cache_key :=
    ("dependencies_by_type_" ++ DepType.value dep_type)%string in
  cached_deps <- cache_lookup cache_key ;;
  match cached_deps with
  | Some p => ret p
  | None =>
      analysis_result <- _get_analysis_result ;;
      let dependencies := collect analysis_result dep_type in
      cache_store cache_key (OfDependencies dependencies) ;;
      record_time "get_dependencies_by_type" start_time ;;
      ret (OfDependencies dependencies)
  end.

Definition get_dependencies_by_type (dep_type : DependencyType) : M payload :=
  start_time <- now ;;
  try_except
    (get_dependencies_by_type_body dep_type start_time)
    (reraise_or_wrap "get_dependencies_by_type"
                     "Failed to get dependencies by type").

(** The [try] block of [search_dependencies]. *)
Definition search_dependencies_body (query : string) (start_time : Z)
    : M (list FileAnalysis.t) :=
  self <- read service ;;
  require (validate_search_query (validation_service self) query)
          "Invalid search query" ;;
  analysis_result <- _get_analysis_result ;;
  let search_results := AnalysisResult.search_files analysis_result query in
  record_time "search_dependencies" start_time ;;
  ret search_results.

Definition search_dependencies (query : string) : M (list FileAnalysis.t) :=
  start_time <- now ;;
  try_except
    (search_dependencies_body query start_time)
    (reraise_or_wrap "search_dependencies" "Failed to search dependencies").

(** The [try] block of [get_file_analysis]: the first file whose relative
    or absolute path is the one asked for. *)
Definition get_file_analysis_body (file_path : string) (start_time : Z)
    : M (option FileAnalysis.t) :=
  self <- read service ;;
  require (validate_file_path (validation_service self) file_path)
          "Invalid file path" ;;
  analysis_result <- _get_analysis_result ;;
  match
    find (fun file_analysis =>
            String.eqb (FileAnalysis.relative_path file_analysis) file_path
            || String.eqb (FileAnalysis.file_path file_analysis) file_path)
         (AnalysisResult.files analysis_result)
  with
  | Some file_analysis =>
      record_time "get_file_analysis" start_time ;;
      ret (Some file_analysis)
  | None => ret None
  end.

Definition get_file_analysis (file_path : string)
    : M (option FileAnalysis.t) :=
  start_time <- now ;;
  try_except
    (get_file_analysis_body file_path start_time)
    (reraise_or_wrap "get_file_analysis" "Failed to get file analysis").

Definition refresh_analysis : M unit :=
  try_except
    (write (fun w => with_service (with_loaded None None (service w)) w) ;;
     self <- read service ;;
     match cache_service self with
     | Some ref => Cache.clear ref
     | None => ret tt
     end ;;
     _get_analysis_result ;;
     ret tt)
    (wrap "refresh_analysis" "Failed to refresh analysis").

End BranchDependencyAnalysisService.

Module Service := BranchDependencyAnalysisService.

(* ------------------------------------------------------------------ *)
(** ** The metrics collector ([services.py], [SimpleMetricsCollector])

    The recording methods; [get_metrics_summary], whose averages and
    rates are floating-point quotients, is not part of the embedding.
    Durations are differences of clock readings, as the service computes
    them. *)

Module SimpleMetricsCollector.

Record t : Type := mk {
  operation_times : list (string * list Z);
  cache_hits : list (string * nat);
  cache_misses : list (string * nat);
  errors : list (string * list (string * nat))
}.

(** [__init__] *)
Definition new : t := mk [] [] [] [].

Definition record_analysis_time (operation : string) (duration_seconds : Z)
           (self : t) : t :=
  let operation_times :=
    if negb (smem operation (operation_times self))
    then sset operation [] (operation_times self)
    else operation_times self in
  mk (sset operation
           (or_default (sget operation operation_times) []
            ++ [duration_seconds])
           operation_times)
     (cache_hits self) (cache_misses self) (errors self).

Definition record_cache_hit (key : string) (self : t) : t :=
  mk (operation_times self)
     (sset key (or_default (sget key (cache_hits self)) 0 + 1)%nat
           (cache_hits self))
     (cache_misses self) (errors self).

Definition record_cache_miss (key : string) (self : t) : t :=
  mk (operation_times self) (cache_hits self)
     (sset key (or_default (sget key (cache_misses self)) 0 + 1)%nat
           (cache_misses self))
     (errors self).

Definition record_error (operation error_type : string) (self : t) : t :=
  let errors :=
    if negb (smem operation (errors self))
    then sset operation [] (errors self)
    else errors self in
  let of_operation := or_default (sget operation errors) [] in
  mk (operation_times self) (cache_hits self) (cache_misses self)
     (sset operation
           (sset error_type
                 (or_default (sget error_type of_operation) 0 + 1)%nat
                 of_operation)
           errors).

End SimpleMetricsCollector.

(* ------------------------------------------------------------------ *)
(** ** Validation of the API's inputs ([api/validators/input_validators.py])

    The validators of string parameters.  [validate_limit_parameter] and
    [validate_page_parameter] convert their argument with [int(...)],
    whose parsing of strings is not part of the embedding. *)

(** [sorted(l)] on strings: ascending by code points. *)
Fixpoint insert_sorted (s : string) (l : list string) : list string :=
  match l with
  | [] => [s]
  | x :: l' => if String.leb s x then s :: l else x :: insert_sorted s l'
  end.

Definition sorted_strings (l : list string) : list string :=
  fold_right insert_sorted [] l.

Module InputValidator.

Definition MIN_SEARCH_QUERY_LENGTH : nat := 0.
Definition MAX_SEARCH_QUERY_LENGTH : nat := 100.
Definition VALID_DEPENDENCY_TYPES : list string :=
  map DepType.value DepType.members.

(** One character of the class [[a-zA-Z0-9_/\-\.\\]]. *)
Definition path_char (c : ascii) : bool :=
  let n := nat_of_ascii c in
  (((97 <=? n) && (n <=? 122)) || ((65 <=? n) && (n <=? 90))
   || ((48 <=? n) && (n <=? 57))
   || (n =? 95) || (n =? 47) || (n =? 45) || (n =? 46) || (n =? 92))%nat.

(** [[a-zA-Z0-9_/\-\.\\]+] matched against the whole of [s]. *)
Fixpoint path_chars (s : string) : bool :=
  match s with
  | EmptyString => false
  | String c EmptyString => path_char c
  | String c s' => path_char c && path_chars s'
  end.

(** [s] without a final newline, if it has one. *)
Fixpoint without_final_newline (s : string) : option string :=
  match s with
  | EmptyString => None
  | String c EmptyString =>
      if (nat_of_ascii c =? 10)%nat then Some EmptyString else None
  | String c s' =>
      match without_final_newline s' with
      | Some r => Some (String c r)
      | None => None
      end
  end.

(** [FILE_PATH_PATTERN.match(s)], as a truth value: [$] matches at the end
    of the string and before a newline that ends it. *)
Definition FILE_PATH_PATTERN_match (s : string) : bool :=
  path_chars s
  || match without_final_newline s with
     | Some r => path_chars r
     | None => false
     end.

(** [{'is_valid': False, 'error': error}] *)
Definition rejected (error : string) : pyval :=
  PDict [("is_valid", PBool false); ("error", PStr error)].

(** [{'is_valid': True}] *)
Definition accepted : pyval := PDict [("is_valid", PBool true)].

Definition validate_search_query (query : pyval) : pyval :=
  match query with
  | PNone => rejected "Search query is required"
  | PStr query =>
      let query_length := String.length (PyStr.strip query) in
      if (query_length <? MIN_SEARCH_QUERY_LENGTH)%nat then
        rejected ("Search query too short (minimum: "
                  ++ str_of_int (Z.of_nat MIN_SEARCH_QUERY_LENGTH) ++ ")")
      else if (MAX_SEARCH_QUERY_LENGTH <? query_length)%nat then
        rejected ("Search query too long (maximum: "
                  ++ str_of_int (Z.of_nat MAX_SEARCH_QUERY_LENGTH) ++ ")")
      else accepted
  | _ => rejected "Search query must be a string"
  end.

Definition validate_dependency_type (dep_type : pyval) : pyval :=
  match dep_type with
  | PNone => rejected "Dependency type is required"
  | PStr dep_type =>
      if negb (existsb (String.eqb dep_type) VALID_DEPENDENCY_TYPES) then
        let valid_types :=
          String.concat ", " (sorted_strings VALID_DEPENDENCY_TYPES) in
        rejected ("Invalid dependency type. Valid types: " ++ valid_types)
      else accepted
  | _ => rejected "Dependency type must be a string"
  end.

Definition validate_file_path (file_path : pyval) : pyval :=
  match file_path with
  | PNone => rejected "File path is required"
  | PStr file_path =>
      let file_path_stripped := PyStr.strip file_path in
      match file_path_stripped with
      | EmptyString => rejected "File path cannot be empty"
      | _ =>
          if (1000 <? String.length file_path_stripped)%nat then
            rejected "File path too long (maximum: 1000 characters)"
          else if negb (FILE_PATH_PATTERN_match file_path_stripped) then
            rejected "File path contains invalid characters"
          else accepted
      end
  | _ => rejected "File path must be a string"
  end.

End InputValidator.

(** [bool(v)]: the truth value of a value. *)
Definition truthy (v : pyval) : bool :=
  match v with
  | PNone => false
  | PBool b => b
  | PInt z => negb (z =? 0)%Z
  | PFloat f => negb (PrimFloat.eqb f 0%float)
  | PStr s => negb (String.eqb s "")
  | PList l => match l with [] => false | _ => true end
  | PDict d => match d with [] => false | _ => true end
  end.

(** The validation of whole requests, for the endpoints whose parameters
    are strings.  [request.args] is the dictionary of the query string. *)
Module RequestValidator.

(** The answer for a whole request, from the validation of its one
    parameter: the parameter's error with the field's name, or the
    parameter to hand on. *)
Definition answer (validation : pyval) (field name value : string)
  : outcome pyval :=
  (let? is_valid := subscript validation "is_valid" in
   if negb (truthy is_valid) then
     let? error := subscript validation "error" in
     Ok (PDict [("is_valid", PBool false); ("error", error);
                ("field", PStr field)])
   else
     Ok (PDict [("is_valid", PBool true);
                ("params", PDict [(name, PStr value)])]))%outcome.

Definition validate_search_request (args : list (string * string))
  : outcome pyval :=
  let query := or_default (sget "q" args) "" in
  let query_validation := InputValidator.validate_search_query (PStr query) in
  answer query_validation "q" "query" (PyStr.strip query).

Definition validate_dependencies_by_type_request (dep_type : string)
  : outcome pyval :=
  let type_validation :=
    InputValidator.validate_dependency_type (PStr dep_type) in
  answer type_validation "dep_type" "dependency_type" dep_type.

Definition validate_file_details_request (file_path : string)
  : outcome pyval :=
  let path_validation := InputValidator.validate_file_path (PStr file_path) in
  answer path_validation "file_path" "file_path" (PyStr.strip file_path).

End RequestValidator.

(* ------------------------------------------------------------------ *)
(** ** Vocabulary of the properties *)

Local Open Scope nat_scope.

(** What a computation returned, the world it left, the calls it made. *)
Definition result_of {A} (x : outcome A * World * list event) : outcome A :=
  fst (fst x).

Definition world_of {A} (x : outcome A * World * list event) : World :=
  snd (fst x).

Definition events_of {A} (x : outcome A * World * list event) : list event :=
  snd x.

(** The world after one reading of the clock. *)
Definition tick (w : World) : World := with_ticks (S (ticks w)) w.

(** The analysis result an operation started in [w] works on: what
    [_get_analysis_result] gives once the operation has taken its start
    time. *)
Definition current_result (w : World) : outcome AnalysisResult.t :=
  result_of (Service._get_analysis_result (tick w)).

(** The service has no cache, or its cache holds nothing under [key]. *)
Definition uncached (key : string) (w : World) : bool :=
  match cache_service (service w) with
  | None => true
  | Some ref =>
      match caches w ref with
      | NullCacheService => true
      | InMemory c => negb (InMemoryCacheService.exists_ key c)
      end
  end.

(** The same for the repository and its own key. *)
Definition repository_uncached (w : World) : bool :=
  match repo_cache_service (repository w) with
  | None => true
  | Some ref =>
      match caches w ref with
      | NullCacheService => true
      | InMemory c =>
          negb (InMemoryCacheService.exists_ (_cache_key (repository w)) c)
      end
  end.

(** [sub] occurs in [s]. *)
Definition Substring (sub s : string) : Prop :=
  exists pre post, s = (pre ++ sub ++ post)%string.

(** [query] occurs in [s] when case is ignored. *)
Definition MatchesIgnoringCase (query s : string) : Prop :=
  Substring (PyStr.lower query) (PyStr.lower s).

(** The query matches the file's relative path or the context of one of
    its dependencies. *)
Definition FileMatches (query : string) (f : FileAnalysis.t) : Prop :=
  MatchesIgnoringCase query (FileAnalysis.relative_path f)
  \/ exists dep, In dep (FileAnalysis.dependencies f)
                 /\ MatchesIgnoringCase query (Dependency.context dep).

Definition trimmed_length (query : string) : nat :=
  String.length (PyStr.strip query).

(** The search as first described: every matching file is returned. *)
Definition returns_every_match (r : AnalysisResult.t) (query : string) : Prop :=
  exists keep : FileAnalysis.t -> bool,
    (forall f, keep f = true <-> FileMatches query f)
    /\ AnalysisResult.search_files r query
       = filter keep (AnalysisResult.files r).

(** A file without dependencies whose path contains the query. *)
Definition lonely_file : FileAnalysis.t :=
  FileAnalysis.mk "/srv/app/src/ab.php" "src/ab.php" [] PNone.

Definition lonely_result : AnalysisResult.t :=
  AnalysisResult.mk
    [lonely_file]
    (AnalysisMetadata.mk (PStr "2024-01-01 00:00:00") (PFloat 0%float)
                         (PStr "/srv/app") [] [] (PInt 1)).

(** The test one round of the search loop makes. *)
Definition search_match (query_lower : string) (f : FileAnalysis.t) : bool :=
  PyStr.contains query_lower (PyStr.lower (FileAnalysis.relative_path f))
  || existsb (fun dep =>
                PyStr.contains query_lower
                               (PyStr.lower (Dependency.context dep)))
             (FileAnalysis.dependencies f).

(** Descending by key: every element's key is at most that of each
    element before it. *)
Definition Descending {A} (key : A -> nat) (l : list A) : Prop :=
  StronglySorted (fun a b => key b <= key a) l.

(** The elements of [l] whose key is [n], in the order they have in [l]. *)
Definition with_key {A} (key : A -> nat) (n : nat) (l : list A) : list A :=
  filter (fun x => (key x =? n)%nat) l.

(** [limit] lies in the range the standard validation accepts. *)
Definition limit_in_range (limit : Z) : Prop := (1 <= limit <= 1000)%Z.

(** The key under which the hotspots for [limit] are cached. *)
Definition hotspots_key (limit : Z) : string :=
  ("hotspots_" ++ str_of_int limit)%string.

(** *** The cache *)

(** The first occurrence of [k] taken out of a list of keys. *)
Fixpoint remove_first (k : string) (l : list string) : list string :=
  match l with
  | [] => []
  | k' :: l' => if String.eqb k k' then l' else k' :: remove_first k l'
  end.

Section CacheVocabulary.
Context {V : Type}.

(** The two dictionaries of the cache hold the same keys, in the same
    order. *)
Definition keys_agree (c : InMemoryCacheService.t V) : Prop :=
  PyDict.keys (InMemoryCacheService.cache c)
  = PyDict.keys (InMemoryCacheService.access_times c).

(** No key is held twice. *)
Definition keys_distinct (c : InMemoryCacheService.t V) : Prop :=
  NoDup (PyDict.keys (InMemoryCacheService.cache c)).

(** The number of entries is at most [max_size]. *)
Definition within_bound (c : InMemoryCacheService.t V) : Prop :=
  (Z.of_nat (List.length (InMemoryCacheService.cache c))
   <= InMemoryCacheService.max_size c)%Z.

(** The key an operation accesses and the clock reading it is given. *)
Definition access (o : InMemoryCacheService.op V) : option (string * Z) :=
  match o with
  | InMemoryCacheService.Get k t => Some (k, t)
  | InMemoryCacheService.Set_ k _ t => Some (k, t)
  | _ => None
  end.

(** The clock readings of a sequence of operations, in order. *)
Definition stamps (history : list (InMemoryCacheService.op V)) : list Z :=
  flat_map (fun o => match access o with Some (_, t) => [t] | None => [] end)
           history.


(** The state [delete] leaves when the key is held. *)
Definition without (k : string) (c : InMemoryCacheService.t V)
  : InMemoryCacheService.t V :=
  InMemoryCacheService.mk
    (sremove k (InMemoryCacheService.cache c))
    (sremove k (InMemoryCacheService.access_times c))
    (InMemoryCacheService.max_size c).

(** The state [_evict_lru] leaves. *)
Definition evicted (c : InMemoryCacheService.t V) : InMemoryCacheService.t V :=
  match InMemoryCacheService.lru_key (InMemoryCacheService.access_times c) with
  | None => c
  | Some k => without k c
  end.

(** [set] has to make room: the cache is full and the key is new. *)
Definition must_evict (key : string) (c : InMemoryCacheService.t V) : bool :=
  (Z.of_nat (List.length (InMemoryCacheService.cache c))
   >=? InMemoryCacheService.max_size c)%Z
  && negb (smem key (InMemoryCacheService.cache c)).

(** The state [set] leaves. *)
Definition after_set (key : string) (value : V) (now : Z)
           (c : InMemoryCacheService.t V) : InMemoryCacheService.t V :=
  let c1 := if must_evict key c then evicted c else c in
  InMemoryCacheService.mk
    (sset key value (InMemoryCacheService.cache c1))
    (sset key now (InMemoryCacheService.access_times c1))
    (InMemoryCacheService.max_size c1).


End CacheVocabulary.

(** Every in-memory cache of the world is in a state its operations
    leave it in. *)
Definition caches_ok (w : World) : Prop :=
  forall ref c, caches w ref = InMemory c -> keys_agree c.

(** A computation leaves the caches of the world in order. *)
Definition preserves {A} (m : M A) : Prop :=
  forall w, caches_ok w -> caches_ok (world_of (m w)).

(** The dependencies of type [t] of the result, each with the file that
    owns it: files in their order, and within a file the dependencies in
    the order they were found. *)
Definition dependencies_of_type (r : AnalysisResult.t) (t : DependencyType)
  : list (FileAnalysis.t * Dependency.t) :=
  flat_map
    (fun f =>
       map (pair f)
           (filter (fun dep => DepType.eqb (Dependency.type dep) t)
                   (FileAnalysis.dependencies f)))
    (AnalysisResult.files r).

(** A dependency as [get_dependencies_by_type] reports it: its four
    fields and the relative path of its file. *)
Definition annotated (fd : FileAnalysis.t * Dependency.t) : pyval :=
  PDict [("type", PStr (DepType.value (Dependency.type (snd fd))));
         ("line", Dependency.line (snd fd));
         ("context", PStr (Dependency.context (snd fd)));
         ("details", Dependency.details (snd fd));
         ("file", PStr (FileAnalysis.relative_path (fst fd)))].

(** The key under which the dependencies of a type are cached. *)
Definition dependencies_key (t : DependencyType) : string :=
  ("dependencies_by_type_" ++ DepType.value t)%string.

(** How many dependencies of type [t] the result has, over all files. *)
Definition occurrences (r : AnalysisResult.t) (t : DependencyType) : nat :=
  List.length (dependencies_of_type r t).

(** The file has at least one dependency. *)
Definition nonempty (f : FileAnalysis.t) : bool :=
  match FileAnalysis.dependencies f with [] => false | _ :: _ => true end.

(** How many dependencies of a list have type [t]. *)
Definition count_type (t : DependencyType) (deps : list Dependency.t) : nat :=
  List.length (filter (fun dep => DepType.eqb (Dependency.type dep) t) deps).

(** *** The repository *)

(** Metadata whose every field but the timestamp is zero or empty. *)
Definition zero_valued (m : AnalysisMetadata.t) : Prop :=
  AnalysisMetadata.analysis_time_seconds m = PFloat 0%float
  /\ AnalysisMetadata.base_path m = PStr ""
  /\ AnalysisMetadata.analyzed_folders m = []
  /\ AnalysisMetadata.excluded_folders m = []
  /\ AnalysisMetadata.total_files_analyzed m = PInt 0.

(** Loading as first described: decided by the document alone. *)
Definition load_follows_document (w : World) : Prop :=
  (document w = NoSuchPath ->
   exists r,
     result_of (Repository.load_analysis_result w) = Ok r
     /\ AnalysisResult.files r = []
     /\ zero_valued (AnalysisResult.metadata r))
  /\ (forall st_mtime,
        document w = RegularFile st_mtime InvalidJson ->
        exists msg cause,
          result_of (Repository.load_analysis_result w)
          = Raise (RepositoryError msg cause)).

(** *** The service *)

(** Resolving the current result calls [load_analysis_result]. *)
Definition reloads (w : World) : Prop :=
  In RepositoryLoad (events_of (Service._get_analysis_result w)).

(** What [get_last_modified] reports in [w]. *)
Definition last_modified (w : World) : option Z :=
  match result_of (Repository.get_last_modified w) with
  | Ok reported => reported
  | Raise _ => None
  end.

(** The error policy of an operation whose [try] block is [body]: what the
    block returns is returned; a [ValueError] it raises is raised as it
    is; any other exception is raised as an [AnalysisError] from it. *)
Definition follows_error_policy {A} (message : string) (body : Z -> M A)
           (operation : M A) (w : World) : Prop :=
  match result_of (body (clock w (ticks w)) (tick w)) with
  | Ok a => result_of (operation w) = Ok a
  | Raise e =>
      result_of (operation w)
      = Raise (if is_ValueError e then e else AnalysisError message e)
  end.

(** The computation raises no [ValueError]. *)
Definition never_value_error {A} (m : M A) : Prop :=
  forall w e, result_of (m w) = Raise e -> is_ValueError e = false.

(** The whole policy of a validated operation in [w], for an input whose
    validation gave [valid]: rejected, it raises the [ValueError] at once,
    having made no call and changed nothing but the clock; its [try] block
    is subject to the error policy; accepted, whatever the block raises is
    no [ValueError], hence is wrapped. *)
Definition validated_operation {A} (valid : bool) (rejection message : string)
           (body : Z -> M A) (operation : M A) (w : World) : Prop :=
  (valid = false -> operation w = (Raise (ValueError rejection), tick w, []))
  /\ follows_error_policy message body operation w
  /\ (valid = true ->
      forall e,
        result_of (body (clock w (ticks w)) (tick w)) = Raise e ->
        is_ValueError e = false
        /\ result_of (operation w) = Raise (AnalysisError message e)).

(** The object the service's cache holds under [key], if any. *)
Definition cached_under (key : string) (w : World) : option payload :=
  match cache_service (service w) with
  | None => None
  | Some ref =>
      match caches w ref with
      | NullCacheService => None
      | InMemory c => sget key (InMemoryCacheService.cache c)
      end
  end.

(** *** A small analysis, for the examples *)

Definition new_branch : Dependency.t :=
  Dependency.mk INSTANTIATION (PInt 12) "$branch = new Branch();"
                (PDict [("class_name", PStr "Branch")]).

Definition branch_find : Dependency.t :=
  Dependency.mk STATIC_CALL (PInt 7) "return Branch::find($id);"
                (PDict [("class_name", PStr "Branch")]).

Definition file_a : FileAnalysis.t :=
  FileAnalysis.mk "/srv/app/src/A.php" "src/A.php"
                  [new_branch; new_branch; new_branch; new_branch; new_branch]
                  PNone.

Definition file_b : FileAnalysis.t :=
  FileAnalysis.mk "/srv/app/src/B.php" "src/B.php" [branch_find; branch_find]
                  PNone.

Definition file_c : FileAnalysis.t :=
  FileAnalysis.mk "/srv/app/src/C.php" "src/C.php" [] PNone.

Definition three_files : AnalysisResult.t :=
  AnalysisResult.mk
    [file_a; file_b; file_c]
    (AnalysisMetadata.mk (PStr "2024-01-01 00:00:00") (PFloat 1.5%float)
                         (PStr "/srv/app") [PStr "src"] [PStr "vendor"]
                         (PInt 3)).

(** A service and a repository sharing one empty cache of capacity 16,
    nothing loaded yet, the document being [d]. *)
Definition fresh_world (d : fs_entry) : World :=
  {| document := d;
     clock := fun n => (100 + Z.of_nat n)%Z;
     ticks := 0;
     strftime := fun _ => "2024-01-01 00:00:00";
     caches := fun _ => InMemory (InMemoryCacheService.new 16);
     repository := Repository.new "branch_dependencies.json" (Some 0);
     service := Service.new StandardValidationService (Some 0) true |}.

(** The document holds the three files. *)
Definition three_files_world : World :=
  fresh_world (RegularFile 50 (JsonData (AnalysisResult.to_dict three_files))).

(** The repository has saved a result, which its cache keeps; the document
    has then become [d] (deleted, or overwritten by another program). *)
Definition stale_world (d : fs_entry) : World :=
  with_document
    d
    (world_of (Repository.save_analysis_result lonely_result
                                               (fresh_world NoSuchPath))).

(** The service holds the three files, loaded at [loaded]; the document
    is [d]. *)
Definition loaded_world (loaded : Z) (d : fs_entry) : World :=
  with_service
    (with_loaded (Some three_files) (Some loaded) (service (fresh_world d)))
    (fresh_world d).

(** A cache of capacity 2 whose three accesses were given one and the
    same clock reading. *)
Definition tied_keys : InMemoryCacheService.t nat :=
  snd (InMemoryCacheService.run
         [InMemoryCacheService.Set_ "a" 1 10%Z;
          InMemoryCacheService.Set_ "b" 2 10%Z;
          InMemoryCacheService.Get "a" 10%Z]
         (InMemoryCacheService.new 2)).

(** A cache of capacity 2 after [set a], [set b], [get a]. *)
Definition two_keys_history : list (InMemoryCacheService.op nat) :=
  [InMemoryCacheService.Set_ "a" 1 10%Z;
   InMemoryCacheService.Set_ "b" 2 20%Z;
   InMemoryCacheService.Get "a" 30%Z].

Definition two_keys : InMemoryCacheService.t nat :=
  InMemoryCacheService.mk [("a", 1); ("b", 2)] [("a", 30%Z); ("b", 20%Z)] 2.

(** *** The cached operations and the resolution, as first described *)

(** The hotspots for [limit] are the first [limit] files of the ranking
    of the current analysis result. *)
Definition ranks_current_result (limit : Z) (w : World) : Prop :=
  forall r : AnalysisResult.t,
    current_result w = Ok r ->
    exists hotspots ranked : list FileAnalysis.t,
      result_of (Service.find_dependency_hotspots limit w)
      = Ok (OfFiles hotspots)
      /\ hotspots = firstn (Z.to_nat limit) ranked
      /\ Permutation ranked (AnalysisResult.files_with_dependencies r)
      /\ Descending FileAnalysis.total_dependencies ranked
      /\ (forall n, 0 < n ->
            with_key FileAnalysis.total_dependencies n ranked
            = with_key FileAnalysis.total_dependencies n
                       (AnalysisResult.files r))
      /\ (Z.of_nat (List.length hotspots) <= limit)%Z
      /\ Forall (fun f => FileAnalysis.has_dependencies f = true) hotspots
      /\ Descending FileAnalysis.total_dependencies hotspots.

(** The dependencies reported for [t] are those of the current analysis
    result. *)
Definition collects_current_result (t : DependencyType) (w : World) : Prop :=
  forall r : AnalysisResult.t,
    current_result w = Ok r ->
    result_of (Service.get_dependencies_by_type t w)
    = Ok (OfDependencies (map annotated (dependencies_of_type r t))).

(** The statistics reported are those of the current analysis result. *)
Definition aggregates_current_result (w : World) : Prop :=
  forall r : AnalysisResult.t,
    current_result w = Ok r ->
    result_of (Service.get_summary_statistics w)
    = Ok (OfStatistics (SummaryStatistics.from_analysis_result r)).

(** The query, started in [w], calls [load_analysis_result] as the
    staleness rule says: always when no result or no load time is held;
    with both held, exactly when the repository reports a modification
    time later than the load time, hence not when it reports none. *)
Definition resolves_before_answering {A} (query : M A) (w : World) : Prop :=
  (_analysis_result (service w) = None
   \/ _last_loaded_time (service w) = None ->
   In RepositoryLoad (events_of (query w)))
  /\ (forall held loaded,
        _analysis_result (service w) = Some held ->
        _last_loaded_time (service w) = Some loaded ->
        (In RepositoryLoad (events_of (query w))
         <-> exists modified,
               last_modified w = Some modified /\ (loaded < modified)%Z)
        /\ (last_modified w = None ->
            ~ In RepositoryLoad (events_of (query w)))).

(** The query makes no call on the repository. *)
Definition spares_repository {A} (query : M A) (w : World) : Prop :=
  ~ In RepositoryLoad (events_of (query w))
  /\ ~ In RepositoryLastModified (events_of (query w)).

(** The files B and C alone. *)
Definition two_files : AnalysisResult.t :=
  AnalysisResult.mk
    [file_b; file_c]
    (AnalysisMetadata.mk (PStr "2024-02-02 00:00:00") (PFloat 0.5%float)
                         (PStr "/srv/app") [PStr "src"] [PStr "vendor"]
                         (PInt 2)).

(** The operation has answered on the three files, and the repository has
    then saved the two files: the document is newer than the result the
    service holds. *)
Definition overwritten_after {A} (operation : M A) : World :=
  world_of (Repository.save_analysis_result
              two_files (world_of (operation three_files_world))).

(* ------------------------------------------------------------------ *)
(** ** Vocabulary of the further properties *)

(** The path asked for is the file's relative or its absolute path: the
    test [get_file_analysis] makes on each file. *)
Definition has_path (file_path : string) (f : FileAnalysis.t) : bool :=
  String.eqb (FileAnalysis.relative_path f) file_path
  || String.eqb (FileAnalysis.file_path f) file_path.

(** The sum of the counts of a dictionary. *)
Definition sum_of_counts {K} (d : list (K * nat)) : nat :=
  list_sum (map snd d).

(** The metadata [from_dict] builds from a document without any. *)
Definition default_metadata : AnalysisMetadata.t :=
  AnalysisMetadata.mk (PStr "") (PFloat 0%float) (PStr "") [] [] (PInt 0).

(** A document that leaves out every optional key. *)
Definition sparse_document : pyval :=
  PDict
    [("files",
      PList
        [PDict
           [("file_path", PStr "/srv/app/src/A.php");
            ("total_dependencies", PInt 40);
            ("dependencies",
             PList
               [PDict [("type", PStr "instanceof");
                       ("line", PInt 3);
                       ("context", PStr "if ($x instanceof Branch) {")]])]])].

Definition sparse_result : AnalysisResult.t :=
  AnalysisResult.mk
    [FileAnalysis.mk "/srv/app/src/A.php" "/srv/app/src/A.php"
       [Dependency.mk INSTANCEOF (PInt 3) "if ($x instanceof Branch) {"
                      (PDict [])]
       PNone]
    default_metadata.

(** A document whose values are of other types than the dataclasses
    announce, where the code does not mind: a line that is [True], an
    error that is a number, a whole number of seconds, a string for the
    analysed folders, a fractional number of files. *)
Definition loose_document : pyval :=
  PDict
    [("files",
      PList
        [PDict
           [("file_path", PStr "/srv/app/src/A.php");
            ("error", PInt 5);
            ("dependencies",
             PList
               [PDict [("type", PStr "instanceof");
                       ("line", PBool true);
                       ("context", PStr "if ($x instanceof Branch) {")]])]]);
     ("analysis_metadata",
      PDict [("timestamp", PInt 1700000000);
             ("analysis_time_seconds", PInt 2);
             ("analyzed_folders", PStr "ab");
             ("total_files_analyzed", PFloat 3.5%float)])].

Definition loose_result : AnalysisResult.t :=
  AnalysisResult.mk
    [FileAnalysis.mk "/srv/app/src/A.php" "/srv/app/src/A.php"
       [Dependency.mk INSTANCEOF (PBool true) "if ($x instanceof Branch) {"
                      (PDict [])]
       (PInt 5)]
    (AnalysisMetadata.mk (PInt 1700000000) (PInt 2) (PStr "")
                         [PStr "a"; PStr "b"] [] (PFloat 3.5%float)).

(** The states of a cache built with capacity [bound] below one: the two
    dictionaries hold the same keys, and there is at most one entry. *)
Definition at_most_one {V} (bound : Z) (c : InMemoryCacheService.t V) : Prop :=
  keys_agree c
  /\ List.length (InMemoryCacheService.cache c) <= 1
  /\ InMemoryCacheService.max_size c = bound
  /\ (bound <= 0)%Z.

(** *** The repository and its cache *)

(** The world [set(key, value)] leaves when called on the cache behind
    [ref], the cache being in order: the null cache ignores the call, the
    in-memory cache reads the clock and stores the value. *)
Definition after_cache_set (ref : nat) (key : string) (value : payload)
           (w : World) : World :=
  match caches w ref with
  | NullCacheService => w
  | InMemory c =>
      with_cache ref
                 (InMemory (after_set key value (clock w (ticks w)) c))
                 (tick w)
  end.

(** No in-memory cache of the world holds a key twice. *)
Definition caches_distinct (w : World) : Prop :=
  forall ref c, caches w ref = InMemory c -> keys_distinct c.


(** The exceptions reading a document into the domain model can raise. *)
Definition document_error (e : exn) : bool :=
  match e with
  | ValueError _ | KeyError _ | TypeError _ | AttributeError _ => true
  | _ => false
  end.


(** *** What the operations of the service leave behind *)

(** The worlds [load_analysis_result] can leave: it changes nothing, or
    reads the clock, or reads its copy from its cache, or stores a copy
    there. *)
Inductive repository_touched (w : World) : World -> Prop :=
| untouched : repository_touched w w
| clock_read : repository_touched w (tick w)
| copy_read (ref : nat) (c : InMemoryCacheService.t payload) :
    repo_cache_service (repository w) = Some ref ->
    caches w ref = InMemory c ->
    repository_touched
      w
      (with_cache ref
         (InMemory (snd (InMemoryCacheService.get
                           (_cache_key (repository w))
                           (clock w (ticks w)) c)))
         (tick w))
| copy_stored (ref : nat) (c : InMemoryCacheService.t payload)
              (value : payload) :
    repo_cache_service (repository w) = Some ref ->
    caches w ref = InMemory c ->
    repository_touched
      w
      (with_cache ref
         (InMemory (snd (InMemoryCacheService.set
                           (_cache_key (repository w)) value
                           (clock w (ticks w)) c)))
         (tick w)).

(** The worlds [_get_analysis_result] can leave: the repository was asked
    for the modification time only, or a result was loaded and is now
    held, or loading failed. *)
Inductive resolved (w : World) : World -> Prop :=
| result_held : resolved w w
| result_loaded (w2 : World) (r : AnalysisResult.t) (t : Z) :
    repository_touched w w2 ->
    resolved w (with_service
                  (with_loaded (Some r) (Some t) (service w2)) (tick w2))
| load_failed (w2 : World) :
    repository_touched w w2 -> resolved w w2.

(** What [_get_analysis_result] never changes: the validation, the
    references to the caches, the repository, the kind of each cache, and
    the absence of an entry under a key that is not the repository's. *)
Definition same_setup (w w' : World) : Prop :=
  validation_service (service w') = validation_service (service w)
  /\ cache_service (service w') = cache_service (service w)
  /\ metrics_collector (service w') = metrics_collector (service w)
  /\ repository w' = repository w
  /\ document w' = document w
  /\ (forall ref c, caches w ref = InMemory c ->
        exists c', caches w' ref = InMemory c')
  /\ (forall ref, caches w ref = NullCacheService ->
        caches w' ref = NullCacheService)
  /\ (forall key,
        key <> _cache_key (repository w) ->
        cached_under key w = None -> cached_under key w' = None).

(** The world [refresh_analysis] reloads in: the service holds nothing
    and its cache is empty. *)
Definition forgotten (w : World) : World :=
  let w0 := with_service (with_loaded None None (service w)) w in
  match cache_service (service w) with
  | None => w0
  | Some ref =>
      match caches w ref with
      | NullCacheService => w0
      | InMemory c =>
          with_cache ref (InMemory (InMemoryCacheService.clear c)) w0
      end
  end.

(** The service's cache holds no answer of an operation: nothing but,
    possibly, the repository's copy of the result. *)
Definition answers_dropped (w : World) : Prop :=
  forall key, key <> _cache_key (repository w) -> cached_under key w = None.

(** *** The metrics collector *)

(** The call on the collector that a recorded metric stands for. *)
Definition tell (self : SimpleMetricsCollector.t) (m : metric)
  : SimpleMetricsCollector.t :=
  match m with
  | record_analysis_time operation duration_seconds =>
      SimpleMetricsCollector.record_analysis_time
        operation duration_seconds self
  | record_cache_hit key => SimpleMetricsCollector.record_cache_hit key self
  | record_cache_miss key => SimpleMetricsCollector.record_cache_miss key self
  | record_error operation error_type =>
      SimpleMetricsCollector.record_error operation error_type self
  end.

(** The collector after a sequence of calls. *)
Definition told (calls : list metric) (self : SimpleMetricsCollector.t)
  : SimpleMetricsCollector.t :=
  fold_left tell calls self.

(** How many of the calls record a hit, a miss, for [key]. *)
Definition hits_of (key : string) (calls : list metric) : nat :=
  List.length
    (filter (fun m => match m with
                      | record_cache_hit k => String.eqb k key
                      | _ => false
                      end) calls).

Definition misses_of (key : string) (calls : list metric) : nat :=
  List.length
    (filter (fun m => match m with
                      | record_cache_miss k => String.eqb k key
                      | _ => false
                      end) calls).

(** How many of the calls record an error of the type for the operation. *)
Definition errors_of (operation error_type : string) (calls : list metric)
  : nat :=
  List.length
    (filter (fun m => match m with
                      | record_error o t =>
                          String.eqb o operation && String.eqb t error_type
                      | _ => false
                      end) calls).

(** The durations recorded for the operation, in the order of the calls. *)
Definition durations_of (operation : string) (calls : list metric) : list Z :=
  flat_map (fun m => match m with
                     | record_analysis_time o d =>
                         if String.eqb o operation then [d] else []
                     | _ => []
                     end) calls.

(** A count as a counting dictionary holds it: no entry for zero. *)
Definition counted (n : nat) : option nat :=
  if n =? 0 then None else Some n.

(** *** The API's validators *)

(** [validation['is_valid']] of a validator's answer. *)
Definition is_valid (validation : pyval) : bool :=
  match validation with
  | PDict d =>
      match sget "is_valid" d with
      | Some (PBool b) => b
      | _ => false
      end
  | _ => false
  end.

(** A path of a thousand characters. *)
Definition path_of_1000 : string :=
  string_of_list_ascii (repeat "a"%char 1000).

(** A count of a counting dictionary after [n] more recordings. *)
Definition tally (before : option nat) (n : nat) : option nat :=
  match before with
  | Some m => Some (m + n)
  | None => counted n
  end.

(** *** Calls an operation does not make *)

(** The calls are reads of a cache and recordings of metrics only: no
    call on the repository, nothing stored. *)
Definition only_cache_reads (calls : list event) : Prop :=
  Forall (fun e => match e with
                   | CacheGet _ _ | Metric _ => True
                   | _ => False
                   end) calls.

(* ------------------------------------------------------------------ *)
(** ** Strings *)

Lemma startswith_app (p rest : string) :
  PyStr.startswith p (p ++ rest) = true.
Proof.
  induction p as [|a p IH]; simpl.
  - reflexivity.
  - now rewrite Ascii.eqb_refl, IH.
Qed.

Lemma startswith_inv (p s : string) :
  PyStr.startswith p s = true -> exists rest, s = (p ++ rest)%string.
Proof.
  revert s; induction p as [|a p IH]; intros s H.
  - now exists s.
  - destruct s as [|b s]; simpl in H; [discriminate|].
    apply andb_true_iff in H as [Hab Hps].
    apply Ascii.eqb_eq in Hab; subst b.
    destruct (IH _ Hps) as [rest ->].
    now exists rest.
Qed.

Lemma contains_iff (sub s : string) :
  PyStr.contains sub s = true <-> Substring sub s.
Proof.
  split.
  - induction s as [|c s IH]; simpl; intros H.
    + rewrite orb_false_r in H.
      destruct (startswith_inv _ _ H) as [rest Hr].
      exists EmptyString, rest; exact Hr.
    + apply orb_true_iff in H as [H|H].
      * destruct (startswith_inv _ _ H) as [rest Hr].
        exists EmptyString, rest; exact Hr.
      * destruct (IH H) as (pre & post & ->).
        now exists (String c pre), post.
  - intros (pre & post & ->).
    induction pre as [|c pre IH].
    + simpl. destruct (sub ++ post)%string eqn:E; simpl;
        rewrite <- E, startswith_app; reflexivity.
    + simpl. rewrite IH. apply orb_true_r.
Qed.

(* ------------------------------------------------------------------ *)
(** ** Search *)

Lemma search_match_iff (query : string) (f : FileAnalysis.t) :
  search_match (PyStr.lower query) f = true <-> FileMatches query f.
Proof.
  unfold search_match, FileMatches, MatchesIgnoringCase.
  rewrite orb_true_iff, existsb_exists, contains_iff.
  split; intros [H|(dep & Hin & H)]; auto; right; exists dep; split; auto;
    now apply contains_iff.
Qed.

Lemma search_loop (query_lower : string) (l acc : list FileAnalysis.t) :
  fold_left (AnalysisResult.search_step query_lower) l acc
  = acc ++ filter (search_match query_lower) l.
Proof.
  revert acc; induction l as [|f l IH]; intros acc; simpl.
  - now rewrite app_nil_r.
  - rewrite IH. unfold AnalysisResult.search_step. fold (search_match query_lower f).
    destruct (search_match query_lower f); [|reflexivity].
    now rewrite <- app_assoc.
Qed.

Lemma filter_filter {A} (p q : A -> bool) (l : list A) :
  filter q (filter p l) = filter (fun x => p x && q x) l.
Proof.
  induction l as [|x l IH]; simpl; [reflexivity|].
  destruct (p x); simpl; [destruct (q x)|]; now rewrite IH.
Qed.

Lemma search_files_long (r : AnalysisResult.t) (query : string) :
  2 <= trimmed_length query ->
  AnalysisResult.search_files r query
  = filter (fun f => FileAnalysis.has_dependencies f
                     && search_match (PyStr.lower query) f)
           (AnalysisResult.files r).
Proof.
  intros H. unfold AnalysisResult.search_files.
  fold (trimmed_length query).
  destruct (Nat.ltb_spec (trimmed_length query) 2) as [Hlt|_]; [lia|].
  rewrite search_loop. simpl.
  apply filter_filter.
Qed.

Lemma search_files_short (r : AnalysisResult.t) (query : string) :
  trimmed_length query < 2 -> AnalysisResult.search_files r query = [].
Proof.
  intros H. unfold AnalysisResult.search_files.
  fold (trimmed_length query).
  now destruct (Nat.ltb_spec (trimmed_length query) 2) as [_|Hge]; [|lia].
Qed.

(** Running a computation: its definitions unfolded, the world's record
    projections computed, the resolution of the current result kept
    folded. *)
Ltac run_monad :=
  unfold bind, try_except, read, write, now, ret, raise, emit, of_outcome.

Ltac run_service :=
  unfold Service.require, Service.record_time, Service.cache_lookup,
    Service.cache_store, Service.metrics, Service.reraise_or_wrap,
    Service.wrap, Cache.get, Cache.set;
  run_monad;
  cbn -[Service._get_analysis_result InMemoryCacheService.set
        InMemoryCacheService.get InMemoryCacheService.exists_
        AnalysisResult.get_hotspots
        AnalysisResult.search_files Service.collect
        SummaryStatistics.from_analysis_result str_of_int String.append].

Lemma search_dependencies_current (w : World) (query : string)
      (r : AnalysisResult.t) :
  validate_search_query (validation_service (service w)) query = true ->
  current_result w = Ok r ->
  result_of (Service.search_dependencies query w)
  = Ok (AnalysisResult.search_files r query).
Proof.
  intros Hv Hr.
  unfold current_result, tick in Hr.
  destruct (Service._get_analysis_result (with_ticks (S (ticks w)) w))
    as [[o w1] ev1] eqn:E.
  unfold result_of in Hr; simpl in Hr; subst o.
  unfold Service.search_dependencies, Service.search_dependencies_body.
  run_service. rewrite Hv. run_service. rewrite E.
  destruct (metrics_collector (service w1)); reflexivity.
Qed.

Lemma standard_search_query_valid (query : string) :
  validate_search_query StandardValidationService query = true
  <-> trimmed_length query <= 100.
Proof.
  unfold trimmed_length; simpl.
  unfold StandardValidation.MAX_SEARCH_QUERY_LENGTH.
  now rewrite Nat.leb_le.
Qed.

(** C1, as first stated, fails: a file without dependencies is never
    returned, although its relative path contains the query. *)
Lemma search_skips_files_without_dependencies :
  2 <= trimmed_length "ab" <= 100 /\ ~ returns_every_match lonely_result "ab".
Proof.
  split; [vm_compute; lia|].
  intros (keep & Hkeep & Heq).
  assert (Hm : keep lonely_file = true).
  { apply Hkeep. left. exists "src/", ".php". reflexivity. }
  cbn in Heq. rewrite Hm in Heq. discriminate.
Qed.

(** C1, amended.  A query whose trimmed length is at least 2 returns
    exactly the files that have at least one dependency and for which the
    query, case ignored, occurs in the relative path or in the context of a
    dependency, in the order of the file sequence; a shorter query returns
    the empty sequence; [search_dependencies], for a query it accepts
    (trimmed length at most 100), returns what [search_files] gives on the
    current analysis result. *)
Theorem search_returns_matching_files_with_dependencies
        (r : AnalysisResult.t) (query : string) :
  (2 <= trimmed_length query ->
   exists keep : FileAnalysis.t -> bool,
     (forall f, keep f = true
                <-> FileAnalysis.has_dependencies f = true
                    /\ FileMatches query f)
     /\ AnalysisResult.search_files r query
        = filter keep (AnalysisResult.files r))
  /\ (trimmed_length query < 2 -> AnalysisResult.search_files r query = [])
  /\ (forall w : World,
        validation_service (service w) = StandardValidationService ->
        trimmed_length query <= 100 ->
        current_result w = Ok r ->
        result_of (Service.search_dependencies query w)
        = Ok (AnalysisResult.search_files r query)).
Proof.
  split; [|split].
  - intros Hlen.
    exists (fun f => FileAnalysis.has_dependencies f
                     && search_match (PyStr.lower query) f).
    split; [|now apply search_files_long].
    intros f. now rewrite andb_true_iff, search_match_iff.
  - apply search_files_short.
  - intros w Hstd Hlen Hcur.
    apply search_dependencies_current; [|exact Hcur].
    rewrite Hstd. now apply standard_search_query_valid.
Qed.

(* ------------------------------------------------------------------ *)
(** ** Hotspots *)

Section Sorting.
Context {A : Type} (key : A -> nat).

Lemma insert_desc_perm (x : A) (l : list A) :
  Permutation (insert_desc key x l) (x :: l).
Proof.
  induction l as [|y l IH]; simpl; [reflexivity|].
  destruct (key x <? key y); [|reflexivity].
  rewrite IH. apply perm_swap.
Qed.

Lemma sorted_reverse_perm (l : list A) : Permutation (sorted_reverse key l) l.
Proof.
  induction l as [|x l IH]; simpl; [reflexivity|].
  fold (sorted_reverse key l).
  now rewrite insert_desc_perm, IH.
Qed.

Lemma insert_desc_descending (x : A) (l : list A) :
  Descending key l -> Descending key (insert_desc key x l).
Proof.
  unfold Descending.
  induction l as [|y l IH]; simpl; intros H.
  - constructor; constructor.
  - inversion H as [|? ? Hl Hy]; subst.
    destruct (Nat.ltb_spec (key x) (key y)) as [Hlt|Hge].
    + constructor; [now apply IH|].
      rewrite Forall_forall in *. intros z Hz.
      apply (Permutation_in _ (insert_desc_perm x l)) in Hz.
      destruct Hz as [<-|Hz]; [lia|now apply Hy].
    + constructor; [exact H|].
      constructor; [exact Hge|].
      rewrite Forall_forall in *. intros z Hz.
      specialize (Hy z Hz). lia.
Qed.

Lemma sorted_reverse_descending (l : list A) :
  Descending key (sorted_reverse key l).
Proof.
  induction l as [|x l IH]; simpl.
  - constructor.
  - now apply insert_desc_descending.
Qed.

Lemma insert_desc_with_key (n : nat) (x : A) (l : list A) :
  with_key key n (insert_desc key x l) = with_key key n (x :: l).
Proof.
  unfold with_key.
  induction l as [|y l IH]; simpl; [reflexivity|].
  destruct (Nat.ltb_spec (key x) (key y)) as [Hlt|Hge]; [|reflexivity].
  simpl. rewrite IH. simpl.
  destruct (Nat.eqb_spec (key y) n) as [Hy|Hy]; [|reflexivity].
  destruct (Nat.eqb_spec (key x) n) as [Hx|Hx]; [lia|reflexivity].
Qed.

(** The sort is stable. *)
Lemma sorted_reverse_stable (n : nat) (l : list A) :
  with_key key n (sorted_reverse key l) = with_key key n l.
Proof.
  induction l as [|x l IH]; simpl; [reflexivity|].
  fold (sorted_reverse key l).
  rewrite insert_desc_with_key. unfold with_key in *. simpl.
  now rewrite IH.
Qed.

End Sorting.

Lemma with_key_filter {A} (key : A -> nat) (p : A -> bool) (n : nat)
      (l : list A) :
  (forall x, In x l -> key x = n -> p x = true) ->
  with_key key n (filter p l) = with_key key n l.
Proof.
  unfold with_key. induction l as [|x l IH]; simpl; intros H; [reflexivity|].
  destruct (p x) eqn:Hp; simpl.
  - rewrite IH; auto.
  - destruct (Nat.eqb_spec (key x) n) as [Hk|_].
    + rewrite H in Hp; auto; discriminate.
    + apply IH; auto.
Qed.

(** What [get_hotspots] returns for a positive limit. *)
Lemma get_hotspots_spec (r : AnalysisResult.t) (limit : Z) :
  (0 < limit)%Z ->
  exists ranked,
    AnalysisResult.get_hotspots r limit = Ok (firstn (Z.to_nat limit) ranked)
    /\ Permutation ranked (AnalysisResult.files_with_dependencies r)
    /\ Descending FileAnalysis.total_dependencies ranked
    /\ forall n, 0 < n ->
         with_key FileAnalysis.total_dependencies n ranked
         = with_key FileAnalysis.total_dependencies n (AnalysisResult.files r).
Proof.
  intros Hpos.
  exists (sorted_reverse FileAnalysis.total_dependencies
                         (AnalysisResult.files_with_dependencies r)).
  unfold AnalysisResult.get_hotspots.
  destruct (Z.leb_spec limit 0) as [Hle|_]; [lia|].
  repeat split.
  - apply sorted_reverse_perm.
  - apply sorted_reverse_descending.
  - intros n Hn. rewrite sorted_reverse_stable.
    apply with_key_filter. intros f _ Hf.
    unfold FileAnalysis.has_dependencies. apply Nat.ltb_lt. lia.
Qed.

Lemma get_hotspots_nonpositive (r : AnalysisResult.t) (limit : Z) :
  (limit <= 0)%Z ->
  AnalysisResult.get_hotspots r limit
  = Raise (ValueError "Limit must be positive").
Proof.
  intros H. unfold AnalysisResult.get_hotspots.
  now destruct (Z.leb_spec limit 0) as [_|Hgt]; [|lia].
Qed.

Lemma standard_limit_valid (limit : Z) :
  validate_limit_parameter StandardValidationService limit = true
  <-> limit_in_range limit.
Proof.
  unfold limit_in_range; simpl.
  unfold StandardValidation.MIN_LIMIT, StandardValidation.MAX_LIMIT.
  rewrite andb_true_iff, !Z.leb_le. tauto.
Qed.

(* ------------------------------------------------------------------ *)
(** ** Dictionaries *)

Section DictFacts.
Context {V : Type}.
Implicit Types (d : list (string * V)) (k : string).

Lemma smem_keys k d : smem k d = existsb (String.eqb k) (PyDict.keys d).
Proof.
  unfold PyDict.mem, PyDict.keys.
  induction d as [|[k' v] d IH]; simpl; [reflexivity|].
  destruct (String.eqb k k'); [reflexivity|exact IH].
Qed.

Lemma smem_in k d : smem k d = true <-> In k (PyDict.keys d).
Proof.
  rewrite smem_keys, existsb_exists. split.
  - intros (x & Hx & He). apply String.eqb_eq in He. now subst.
  - intros H. exists k. split; [exact H|apply String.eqb_refl].
Qed.


Lemma keys_sset k (v : V) d :
  PyDict.keys (sset k v d)
  = if smem k d then PyDict.keys d else PyDict.keys d ++ [k].
Proof.
  unfold PyDict.mem, PyDict.keys.
  induction d as [|[k' v'] d IH]; simpl; [reflexivity|].
  destruct (String.eqb k k') eqn:E; simpl; [reflexivity|].
  rewrite IH. now destruct (PyDict.get String.eqb k d).
Qed.

Lemma keys_sremove k d :
  PyDict.keys (sremove k d) = remove_first k (PyDict.keys d).
Proof.
  unfold PyDict.keys.
  induction d as [|[k' v'] d IH]; simpl; [reflexivity|].
  destruct (String.eqb k k'); simpl; [reflexivity|now rewrite IH].
Qed.

Lemma sget_sset_eq k (v : V) d : sget k (sset k v d) = Some v.
Proof.
  induction d as [|[k' v'] d IH]; simpl.
  - now rewrite String.eqb_refl.
  - destruct (String.eqb k k') eqn:E; simpl; rewrite E; [reflexivity|exact IH].
Qed.

Lemma sget_sset_ne k k' (v : V) d :
  k <> k' -> sget k (sset k' v d) = sget k d.
Proof.
  intros Hne.
  induction d as [|[k0 v0] d IH]; simpl.
  - apply String.eqb_neq in Hne. now rewrite Hne.
  - destruct (String.eqb k' k0) eqn:E; simpl.
    + apply String.eqb_eq in E; subst k0.
      apply String.eqb_neq in Hne. now rewrite Hne.
    + destruct (String.eqb k k0); [reflexivity|exact IH].
Qed.

Lemma sget_sremove_ne k k' d :
  k <> k' -> sget k (sremove k' d) = sget k d.
Proof.
  intros Hne.
  induction d as [|[k0 v0] d IH]; simpl; [reflexivity|].
  destruct (String.eqb k' k0) eqn:E; simpl.
  - apply String.eqb_eq in E; subst k0.
    apply String.eqb_neq in Hne. now rewrite Hne.
  - destruct (String.eqb k k0); [reflexivity|exact IH].
Qed.

Lemma length_sset k (v : V) d :
  List.length (sset k v d)
  = if smem k d then List.length d else S (List.length d).
Proof.
  unfold PyDict.mem.
  induction d as [|[k' v'] d IH]; simpl; [reflexivity|].
  destruct (String.eqb k k'); simpl; [reflexivity|].
  rewrite IH. now destruct (PyDict.get String.eqb k d).
Qed.

Lemma length_sremove k d :
  smem k d = true -> S (List.length (sremove k d)) = List.length d.
Proof.
  unfold PyDict.mem.
  induction d as [|[k' v'] d IH]; simpl; [discriminate|].
  destruct (String.eqb k k'); simpl; [reflexivity|].
  intros H. now rewrite IH.
Qed.

End DictFacts.

Lemma mem_of_keys {V W} (k : string) (d : list (string * V))
      (d' : list (string * W)) :
  PyDict.keys d = PyDict.keys d' -> smem k d = smem k d'.
Proof. intros H. now rewrite !smem_keys, H. Qed.

Lemma remove_first_in (k k' : string) (l : list string) :
  In k (remove_first k' l) -> In k l.
Proof.
  induction l as [|x l IH]; simpl; [tauto|].
  destruct (String.eqb k' x); simpl; tauto.
Qed.

Lemma remove_first_in_ne (k k' : string) (l : list string) :
  k <> k' -> In k l -> In k (remove_first k' l).
Proof.
  intros Hne. induction l as [|x l IH]; simpl; [tauto|].
  destruct (String.eqb k' x) eqn:E; simpl.
  - apply String.eqb_eq in E. subst x. intros [H|H]; [congruence|exact H].
  - tauto.
Qed.

Lemma remove_first_nodup (k : string) (l : list string) :
  NoDup l -> NoDup (remove_first k l) /\ ~ In k (remove_first k l).
Proof.
  induction l as [|x l IH]; simpl; intros H.
  - split; [constructor|tauto].
  - inversion H as [|? ? Hx Hl]; subst.
    destruct (String.eqb k x) eqn:E.
    + apply String.eqb_eq in E. subst x. now split.
    + apply String.eqb_neq in E. destruct (IH Hl) as [Hn Hk]. split.
      * constructor; [|exact Hn]. intros Hin. apply Hx.
        now apply remove_first_in in Hin.
      * simpl. intros [Heq|Hin]; [congruence|tauto].
Qed.

(* ------------------------------------------------------------------ *)
(** ** The cache: its operations on a state whose keys agree *)

Lemma py_min_from_spec {A} (key : A -> Z) (l : list A) (best : A) :
  In (py_min_from key best l) (best :: l)
  /\ forall y, In y (best :: l) -> (key (py_min_from key best l) <= key y)%Z.
Proof.
  revert best; induction l as [|x l IH]; intros best; simpl.
  - split; [now left|]. intros y [->|[]]. lia.
  - destruct (IH (if (key x <? key best)%Z then x else best)) as [Hin Hmin].
    split.
    + destruct Hin as [Hin|Hin]; [|now right; right].
      rewrite <- Hin. destruct (key x <? key best)%Z; auto.
    + intros y Hy.
      assert (Hb : (key (py_min_from key
                           (if (key x <? key best)%Z then x else best) l)
                    <= key (if (key x <? key best)%Z then x else best))%Z)
        by (apply Hmin; now left).
      destruct Hy as [<-|[<-|Hy]].
      * destruct (Z.ltb_spec (key x) (key best)); lia.
      * destruct (Z.ltb_spec (key x) (key best)); lia.
      * apply Hmin. now right.
Qed.

Lemma py_min_spec {A} (key : A -> Z) (l : list A) (x : A) :
  py_min key l = Some x ->
  In x l /\ forall y, In y l -> (key x <= key y)%Z.
Proof.
  destruct l as [|b l]; simpl; [discriminate|].
  intros [= <-]. apply py_min_from_spec.
Qed.

Lemma py_min_none {A} (key : A -> Z) (l : list A) :
  py_min key l = None -> l = [].
Proof. now destruct l. Qed.

Section CacheFacts.
Context {V : Type}.
Implicit Types (c : InMemoryCacheService.t V) (k key : string).

Lemma lru_key_held c k :
  keys_agree c ->
  InMemoryCacheService.lru_key (InMemoryCacheService.access_times c) = Some k ->
  smem k (InMemoryCacheService.cache c) = true.
Proof.
  intros Ha Hk. apply py_min_spec in Hk as [Hin _].
  apply smem_in. now rewrite Ha.
Qed.

Lemma delete_agree c k :
  keys_agree c ->
  InMemoryCacheService.delete k c
  = (Ok tt, if smem k (InMemoryCacheService.cache c) then without k c else c).
Proof.
  intros Ha. unfold InMemoryCacheService.delete.
  destruct (smem k (InMemoryCacheService.cache c)) eqn:Hm; [|reflexivity].
  simpl. rewrite <- (mem_of_keys k _ _ Ha), Hm. reflexivity.
Qed.

Lemma evict_agree c :
  keys_agree c -> InMemoryCacheService._evict_lru c = (Ok tt, evicted c).
Proof.
  intros Ha. unfold InMemoryCacheService._evict_lru, evicted.
  destruct (InMemoryCacheService.lru_key _) as [k|] eqn:Hk; [|reflexivity].
  now rewrite delete_agree, (lru_key_held c k Ha Hk).
Qed.

Lemma set_agree c key (value : V) (now : Z) :
  keys_agree c ->
  InMemoryCacheService.set key value now c = (Ok tt, after_set key value now c).
Proof.
  intros Ha. unfold InMemoryCacheService.set, after_set.
  fold (must_evict key c).
  destruct (must_evict key c); [|reflexivity].
  now rewrite evict_agree.
Qed.

Lemma without_agree c k : keys_agree c -> keys_agree (without k c).
Proof.
  unfold keys_agree, without; simpl. intros Ha.
  now rewrite !keys_sremove, Ha.
Qed.

Lemma evicted_agree c : keys_agree c -> keys_agree (evicted c).
Proof.
  intros Ha. unfold evicted.
  destruct (InMemoryCacheService.lru_key _); [now apply without_agree|exact Ha].
Qed.

Lemma after_set_agree c key (value : V) (now : Z) :
  keys_agree c -> keys_agree (after_set key value now c).
Proof.
  intros Ha. unfold after_set.
  assert (Hc1 : keys_agree (if must_evict key c then evicted c else c))
    by (destruct (must_evict key c); [now apply evicted_agree|exact Ha]).
  unfold keys_agree in *; simpl.
  now rewrite !keys_sset, <- (mem_of_keys key _ _ Hc1), Hc1.
Qed.

Lemma get_agree c key (now : Z) :
  keys_agree c -> keys_agree (snd (InMemoryCacheService.get key now c)).
Proof.
  intros Ha. unfold InMemoryCacheService.get.
  destruct (smem key (InMemoryCacheService.cache c)) eqn:Hm; [|exact Ha].
  unfold keys_agree in *; simpl.
  now rewrite keys_sset, <- (mem_of_keys key _ _ Ha), Hm.
Qed.

Lemma clear_agree c : keys_agree (InMemoryCacheService.clear c).
Proof. reflexivity. Qed.

(** No operation raises on a state whose keys agree, and the keys of the
    state it leaves agree. *)
Lemma step_agree c (o : InMemoryCacheService.op V) :
  keys_agree c ->
  exists c', InMemoryCacheService.step c o = (Ok tt, c') /\ keys_agree c'.
Proof.
  intros Ha. destruct o as [k t|k v t|k|]; simpl.
  - eexists; split; [reflexivity|now apply get_agree].
  - rewrite set_agree by exact Ha.
    eexists; split; [reflexivity|now apply after_set_agree].
  - rewrite delete_agree by exact Ha.
    eexists; split; [reflexivity|].
    destruct (smem k _); [now apply without_agree|exact Ha].
  - eexists; split; [reflexivity|apply clear_agree].
Qed.

End CacheFacts.

Section CacheBound.
Context {V : Type}.
Implicit Types (c : InMemoryCacheService.t V) (k key : string).

Lemma length_without c k :
  smem k (InMemoryCacheService.cache c) = true ->
  S (List.length (InMemoryCacheService.cache (without k c)))
  = List.length (InMemoryCacheService.cache c).
Proof. intros H. simpl. now apply length_sremove. Qed.

Lemma smem_without c k key :
  smem key (InMemoryCacheService.cache (without k c)) = true ->
  smem key (InMemoryCacheService.cache c) = true.
Proof.
  simpl. rewrite !smem_in, keys_sremove. apply remove_first_in.
Qed.

Lemma evicted_nonempty c :
  keys_agree c ->
  InMemoryCacheService.cache c <> [] ->
  exists k,
    InMemoryCacheService.lru_key (InMemoryCacheService.access_times c) = Some k
    /\ smem k (InMemoryCacheService.cache c) = true
    /\ evicted c = without k c.
Proof.
  intros Ha Hne. unfold evicted.
  destruct (InMemoryCacheService.lru_key _) as [k|] eqn:Hk.
  - exists k. repeat split. now apply lru_key_held.
  - exfalso. apply py_min_none in Hk. unfold keys_agree in Ha.
    rewrite Hk in Ha. destruct (InMemoryCacheService.cache c); [auto|discriminate].
Qed.

Lemma after_set_bound c key (value : V) (now : Z) :
  (1 <= InMemoryCacheService.max_size c)%Z ->
  keys_agree c -> within_bound c -> within_bound (after_set key value now c).
Proof.
  intros Hmax Ha Hb. unfold within_bound, after_set in *.
  destruct (must_evict key c) eqn:Hev; simpl.
  - unfold must_evict in Hev. apply andb_true_iff in Hev as [Hfull Hnew].
    apply Z.geb_le in Hfull. apply negb_true_iff in Hnew.
    destruct (evicted_nonempty c Ha) as (k & _ & Hk & ->).
    { intros E. rewrite E in Hfull. simpl in Hfull. lia. }
    rewrite length_sset.
    destruct (smem key (InMemoryCacheService.cache (without k c))) eqn:Hm.
    + apply smem_without in Hm. congruence.
    + pose proof (length_without c k Hk) as Hlen. simpl in *. lia.
  - rewrite length_sset.
    destruct (smem key (InMemoryCacheService.cache c)) eqn:Hm; [exact Hb|].
    unfold must_evict in Hev. rewrite Hm, andb_true_r in Hev.
    destruct (Z.geb_spec (Z.of_nat (List.length (InMemoryCacheService.cache c)))
                         (InMemoryCacheService.max_size c)); [discriminate|].
    lia.
Qed.

Lemma after_set_max_size c key (value : V) (now : Z) :
  InMemoryCacheService.max_size (after_set key value now c)
  = InMemoryCacheService.max_size c.
Proof.
  unfold after_set, evicted.
  destruct (must_evict key c); [|reflexivity].
  now destruct (InMemoryCacheService.lru_key _).
Qed.

(** One operation keeps the bound, the agreement of the keys and the
    capacity, and does not raise. *)
Lemma step_invariant c (o : InMemoryCacheService.op V) :
  (1 <= InMemoryCacheService.max_size c)%Z ->
  keys_agree c -> within_bound c ->
  exists c',
    InMemoryCacheService.step c o = (Ok tt, c')
    /\ keys_agree c' /\ within_bound c'
    /\ InMemoryCacheService.max_size c' = InMemoryCacheService.max_size c.
Proof.
  intros Hmax Ha Hb. destruct o as [k t|k v t|k|]; simpl.
  - eexists; split; [reflexivity|]. split; [now apply get_agree|].
    unfold InMemoryCacheService.get.
    destruct (smem k (InMemoryCacheService.cache c)); simpl; auto.
  - rewrite set_agree by exact Ha.
    eexists; split; [reflexivity|].
    split; [now apply after_set_agree|].
    split; [now apply after_set_bound|apply after_set_max_size].
  - rewrite delete_agree by exact Ha.
    eexists; split; [reflexivity|].
    destruct (smem k (InMemoryCacheService.cache c)) eqn:Hm; [|auto].
    split; [now apply without_agree|]. split; [|reflexivity].
    pose proof (length_without c k Hm) as Hl. unfold within_bound in *.
    simpl in *. lia.
  - eexists; split; [reflexivity|].
    split; [apply clear_agree|]. split; [|reflexivity].
    unfold within_bound; simpl. lia.
Qed.

Lemma run_invariant (ops : list (InMemoryCacheService.op V)) c :
  (1 <= InMemoryCacheService.max_size c)%Z ->
  keys_agree c -> within_bound c ->
  exists c',
    InMemoryCacheService.run ops c = (Ok tt, c')
    /\ keys_agree c' /\ within_bound c'
    /\ InMemoryCacheService.max_size c' = InMemoryCacheService.max_size c.
Proof.
  revert c; induction ops as [|o ops IH]; intros c Hmax Ha Hb; simpl.
  - exists c. auto.
  - destruct (step_invariant c o Hmax Ha Hb) as (c1 & -> & Ha1 & Hb1 & Hm1).
    destruct (IH c1) as (c' & Hrun & Ha' & Hb' & Hm'); auto; [lia|].
    exists c'. rewrite Hrun. repeat split; auto. congruence.
Qed.

End CacheBound.

(** C10.  From a cache constructed with [max_size >= 1], every sequence of
    [get], [set], [delete] and [clear] runs without raising and leaves a
    cache that holds at most [max_size] entries and whose two dictionaries
    hold the same keys. *)
Theorem cache_size_and_keys_invariant
        (V : Type) (max_size : Z) (ops : list (InMemoryCacheService.op V)) :
  (1 <= max_size)%Z ->
  exists c : InMemoryCacheService.t V,
    InMemoryCacheService.run ops (InMemoryCacheService.new max_size)
    = (Ok tt, c)
    /\ (Z.of_nat (List.length (InMemoryCacheService.cache c)) <= max_size)%Z
    /\ (forall k, smem k (InMemoryCacheService.cache c)
                  = smem k (InMemoryCacheService.access_times c))
    /\ PyDict.keys (InMemoryCacheService.cache c)
       = PyDict.keys (InMemoryCacheService.access_times c).
Proof.
  intros Hmax.
  destruct (run_invariant ops (InMemoryCacheService.new max_size))
    as (c & Hrun & Ha & Hb & Hm); simpl; auto.
  - reflexivity.
  - unfold within_bound; simpl. lia.
  - exists c. split; [exact Hrun|]. unfold within_bound in Hb.
    simpl in Hm. rewrite Hm in Hb.
    repeat split; auto. intros k. now apply mem_of_keys.
Qed.

(* ------------------------------------------------------------------ *)
(** ** The cache: recency *)

Lemma smem_sset {V} (k key : string) (v : V) (d : list (string * V)) :
  smem k (sset key v d) = smem k d || String.eqb k key.
Proof.
  rewrite !smem_keys, keys_sset.
  destruct (smem key d) eqn:Hm.
  - destruct (String.eqb_spec k key) as [->|Hne]; [|now rewrite orb_false_r].
    rewrite smem_keys in Hm. now rewrite Hm.
  - rewrite existsb_app. simpl. now rewrite orb_false_r.
Qed.

Lemma existsb_remove_first (k victim : string) (l : list string) :
  NoDup l ->
  existsb (String.eqb k) (remove_first victim l)
  = existsb (String.eqb k) l && negb (String.eqb k victim).
Proof.
  induction l as [|x l IH]; simpl; intros Hnd; [reflexivity|].
  inversion Hnd as [|? ? Hx Hl]; subst.
  destruct (String.eqb_spec victim x) as [->|Hvx].
  - destruct (String.eqb_spec k x) as [->|Hkx]; simpl.
    + apply not_true_is_false. intros H.
      apply existsb_exists in H as (y & Hy & He).
      apply String.eqb_eq in He. now subst.
    + now rewrite andb_true_r.
  - simpl. rewrite IH by exact Hl.
    destruct (String.eqb_spec k x) as [->|Hkx]; simpl; [|reflexivity].
    destruct (String.eqb_spec x victim); [congruence|reflexivity].
Qed.

Lemma smem_sremove {V} (k victim : string) (d : list (string * V)) :
  NoDup (PyDict.keys d) ->
  smem k (sremove victim d) = smem k d && negb (String.eqb k victim).
Proof.
  intros Hnd. rewrite !smem_keys, keys_sremove.
  now apply existsb_remove_first.
Qed.


Lemma keys_sset_nodup {V} (k : string) (v : V) (d : list (string * V)) :
  NoDup (PyDict.keys d) -> NoDup (PyDict.keys (sset k v d)).
Proof.
  intros Hnd. rewrite keys_sset.
  destruct (smem k d) eqn:Hm; [exact Hnd|].
  apply NoDup_app; [exact Hnd|repeat constructor; auto|].
  intros x Hx [<-|[]]. apply smem_in in Hx. congruence.
Qed.

Section Recency.
Context {V : Type}.
Implicit Types (c : InMemoryCacheService.t V) (k key : string)
         (history : list (InMemoryCacheService.op V)).








Lemma without_distinct c k : keys_distinct c -> keys_distinct (without k c).
Proof.
  unfold keys_distinct; simpl. intros H. rewrite keys_sremove.
  now apply remove_first_nodup.
Qed.









End Recency.


(* ------------------------------------------------------------------ *)
(** ** Computations keep the caches in order *)

Lemma preserves_ret {A} (a : A) : preserves (ret a).
Proof. intros w H; exact H. Qed.

Lemma preserves_raise {A} (e : exn) : preserves (@raise A e).
Proof. intros w H; exact H. Qed.

Lemma preserves_read {A} (f : World -> A) : preserves (read f).
Proof. intros w H; exact H. Qed.

Lemma preserves_emit (e : event) : preserves (emit e).
Proof. intros w H; exact H. Qed.

Lemma preserves_of_outcome {A} (o : outcome A) : preserves (of_outcome o).
Proof. intros w H; exact H. Qed.

Lemma preserves_now : preserves now.
Proof. intros w H; exact H. Qed.

Lemma preserves_bind {A B} (m : M A) (k : A -> M B) :
  preserves m -> (forall a, preserves (k a)) -> preserves (bind m k).
Proof.
  intros Hm Hk w Hw. specialize (Hm w Hw). unfold bind, world_of in *.
  destruct (m w) as [[[a|e] w1] ev1]; simpl in *; [|exact Hm].
  specialize (Hk a w1 Hm). unfold world_of in Hk.
  now destruct (k a w1) as [[o w2] ev2].
Qed.

Lemma preserves_try {A} (m : M A) (h : exn -> M A) :
  preserves m -> (forall e, preserves (h e)) -> preserves (try_except m h).
Proof.
  intros Hm Hh w Hw. specialize (Hm w Hw). unfold try_except, world_of in *.
  destruct (m w) as [[[a|e] w1] ev1]; simpl in *; [exact Hm|].
  specialize (Hh e w1 Hm). unfold world_of in Hh.
  now destruct (h e w1) as [[o w2] ev2].
Qed.

Lemma preserves_with_service (f : World -> ServiceObject) :
  preserves (write (fun w => with_service (f w) w)).
Proof. intros w H; exact H. Qed.

Lemma preserves_with_document (d : fs_entry) :
  preserves (write (with_document d)).
Proof. intros w H; exact H. Qed.

Lemma preserves_with_cache (ref : nat) (c : InMemoryCacheService.t payload) :
  keys_agree c -> preserves (write (with_cache ref (InMemory c))).
Proof.
  intros Hc w Hw ref' c'. unfold world_of; simpl.
  destruct (ref' =? ref); [now intros [= <-]|apply Hw].
Qed.

Create HintDb preserves.
#[local] Hint Resolve preserves_ret preserves_raise preserves_read
  preserves_emit preserves_of_outcome preserves_now preserves_with_service
  preserves_with_document : preserves.

Ltac preserve :=
  repeat first
    [ solve [auto with preserves]
    | apply preserves_bind; [|intros ?]
    | apply preserves_try; [|intros ?] ].

Lemma cache_get_preserves (ref : nat) (key : string) :
  preserves (Cache.get ref key).
Proof.
  intros w Hw. unfold Cache.get, world_of, bind, emit, read; simpl.
  destruct (caches w ref) as [c|] eqn:Hc; [|exact Hw].
  destruct (InMemoryCacheService.exists_ key c) eqn:He; [|exact Hw].
  pose proof (get_agree c key (clock w (ticks w)) (Hw _ _ Hc)) as Hg.
  unfold now; simpl.
  destruct (InMemoryCacheService.get key (clock w (ticks w)) c) as [v c'].
  simpl in *. apply (preserves_with_cache ref c' Hg (tick w)). exact Hw.
Qed.

Lemma cache_set_preserves (ref : nat) (key : string) (value : payload) :
  preserves (Cache.set ref key value).
Proof.
  intros w Hw. unfold Cache.set, world_of, bind, emit, read; simpl.
  destruct (caches w ref) as [c|] eqn:Hc; [|exact Hw].
  unfold now; simpl.
  rewrite (set_agree c key value _ (Hw _ _ Hc)). simpl.
  apply (preserves_with_cache ref _ (after_set_agree c key value _ (Hw _ _ Hc))
                              (tick w)).
  exact Hw.
Qed.

(** On caches in order [set] does not raise. *)
Lemma cache_set_returns (ref : nat) (key : string) (value : payload)
      (w : World) :
  caches_ok w -> result_of (Cache.set ref key value w) = Ok tt.
Proof.
  intros Hw. unfold Cache.set, result_of, bind, emit, read, now; simpl.
  destruct (caches w ref) as [c|] eqn:Hc; [|reflexivity].
  now rewrite (set_agree c key value _ (Hw _ _ Hc)).
Qed.

#[local] Hint Resolve cache_get_preserves cache_set_preserves : preserves.

Ltac preserve_cases :=
  repeat first
    [ progress preserve
    | match goal with
      | |- preserves (match ?x with _ => _ end) => destruct x
      | |- preserves (if ?x then _ else _) => destruct x
      | |- preserves (let (_, _) := ?x in _) => destruct x
      end ].

Lemma load_analysis_result_preserves : preserves Repository.load_analysis_result.
Proof.
  unfold Repository.load_analysis_result, Repository.load_from_file,
    Repository._create_empty_result, Repository.read_json,
    Repository.load_handler, Repository.as_result.
  preserve_cases.
Qed.

#[local] Hint Resolve load_analysis_result_preserves : preserves.

Lemma get_analysis_result_preserves : preserves Service._get_analysis_result.
Proof.
  unfold Service._get_analysis_result, Service.reload,
    Service._should_reload_data, Repository.get_last_modified.
  preserve_cases.
Qed.

Lemma tick_ok (w : World) : caches_ok w -> caches_ok (tick w).
Proof. intros H; exact H. Qed.

(* ------------------------------------------------------------------ *)
(** ** The cached operations on a miss *)

Ltac split_world :=
  match goal with
  | |- context [match cache_service (service ?w) with _ => _ end] =>
      destruct (cache_service (service w)) eqn:?
  | |- context [match caches ?w ?r with _ => _ end] =>
      destruct (caches w r) eqn:?
  | |- context [if metrics_collector ?s then _ else _] =>
      destruct (metrics_collector s) eqn:?
  end.

(** The common course of a cached operation that finds nothing cached:
    resolve the current result, store what was computed, record the time. *)
Ltac compute_on_miss Hu Hok E after_resolving :=
  unfold uncached in Hu;
  run_service;
  repeat (split_world; run_service);
  try (apply negb_true_iff in Hu; rewrite Hu; run_service);
  repeat (split_world; run_service);
  rewrite ?E; run_service; after_resolving; run_service;
  repeat (split_world; run_service);
  try (erewrite set_agree by (eapply Hok; eauto); run_service);
  repeat (split_world; run_service);
  try reflexivity; try discriminate.

Lemma resolve_current (w : World) (r : AnalysisResult.t) :
  caches_ok w ->
  current_result w = Ok r ->
  exists w1 ev1,
    Service._get_analysis_result (with_ticks (S (ticks w)) w) = (Ok r, w1, ev1)
    /\ caches_ok w1.
Proof.
  intros Hok Hr. unfold current_result, tick in Hr.
  pose proof (get_analysis_result_preserves _ (tick_ok w Hok)) as Hp.
  unfold tick, world_of in Hp.
  destruct (Service._get_analysis_result (with_ticks (S (ticks w)) w))
    as [[o w1] ev1].
  unfold result_of in Hr; simpl in *; subst o. eauto.
Qed.

Lemma find_dependency_hotspots_current (w : World) (limit : Z)
      (r : AnalysisResult.t) (l : list FileAnalysis.t) :
  caches_ok w ->
  validate_limit_parameter (validation_service (service w)) limit = true ->
  uncached (hotspots_key limit) w = true ->
  current_result w = Ok r ->
  AnalysisResult.get_hotspots r limit = Ok l ->
  result_of (Service.find_dependency_hotspots limit w) = Ok (OfFiles l).
Proof.
  intros Hok Hv Hu Hr Hl.
  destruct (resolve_current w r Hok Hr) as (w1 & ev1 & E & Hok1).
  unfold Service.find_dependency_hotspots, Service.find_dependency_hotspots_body,
    hotspots_key in *.
  run_service. rewrite Hv. run_service.
  compute_on_miss Hu Hok1 E ltac:(rewrite ?Hl).
Qed.

(** The course of a cached operation that finds its result cached. *)
Ltac serve_from_cache Hc :=
  unfold cached_under in Hc;
  run_service;
  repeat (split_world; run_service);
  try discriminate;
  unfold InMemoryCacheService.exists_, InMemoryCacheService.get, PyDict.mem;
  rewrite ?Hc; run_service;
  repeat (split_world; run_service);
  try reflexivity.

Lemma find_dependency_hotspots_cached (w : World) (limit : Z) (p : payload) :
  validate_limit_parameter (validation_service (service w)) limit = true ->
  cached_under (hotspots_key limit) w = Some p ->
  result_of (Service.find_dependency_hotspots limit w) = Ok p.
Proof.
  intros Hv Hc.
  unfold Service.find_dependency_hotspots, Service.find_dependency_hotspots_body,
    hotspots_key in *.
  run_service. rewrite Hv. serve_from_cache Hc.
Qed.

Lemma find_dependency_hotspots_rejects (w : World) (limit : Z) :
  validate_limit_parameter (validation_service (service w)) limit = false ->
  Service.find_dependency_hotspots limit w
  = (Raise (ValueError "Invalid limit parameter"), tick w, []).
Proof.
  intros Hv.
  unfold Service.find_dependency_hotspots, Service.find_dependency_hotspots_body.
  run_service. rewrite Hv. reflexivity.
Qed.

Lemma in_firstn_of {A} (n : nat) (l : list A) (x : A) :
  In x (firstn n l) -> In x l.
Proof.
  revert n; induction l as [|y l IH]; intros [|n]; simpl; try tauto.
  intros [H|H]; [now left|right; now apply (IH n)].
Qed.

Lemma descending_firstn {A} (key : A -> nat) (n : nat) (l : list A) :
  Descending key l -> Descending key (firstn n l).
Proof.
  unfold Descending. revert n; induction l as [|x l IH]; intros n H.
  - now rewrite firstn_nil.
  - destruct n as [|n]; simpl; [constructor|].
    inversion H as [|? ? Hl Hx]; subst.
    constructor; [now apply IH|].
    rewrite Forall_forall in *. intros y Hy. apply Hx.
    now apply (in_firstn_of n l y).
Qed.

(** The caches of a world given in full are in order. *)
Ltac caches_by_computation :=
  let H := fresh in
  intros ?ref ?c H; vm_compute in H;
  match type of H with
  | context [match ?n with _ => _ end] => destruct n
  end;
  injection H as <-; reflexivity.

(** C2, as first stated, fails: hotspots that are cached for a limit are
    returned whatever the analysis result has become.  The hotspots for
    limit 1 were asked for on the three files, and the repository then
    saved the files B and C alone: the current result is that of the two
    files, and the answer for limit 1 is still file A. *)
Lemma cached_hotspots_outlive_the_result :
  limit_in_range 1
  /\ validation_service
       (service (overwritten_after (Service.find_dependency_hotspots 1)))
     = StandardValidationService
  /\ caches_ok (overwritten_after (Service.find_dependency_hotspots 1))
  /\ current_result (overwritten_after (Service.find_dependency_hotspots 1))
     = Ok two_files
  /\ result_of (Service.find_dependency_hotspots
                  1 (overwritten_after (Service.find_dependency_hotspots 1)))
     = Ok (OfFiles [file_a])
  /\ ~ ranks_current_result
         1 (overwritten_after (Service.find_dependency_hotspots 1)).
Proof.
  split; [unfold limit_in_range; lia|].
  split; [reflexivity|].
  split.
  { caches_by_computation. }
  split; [reflexivity|]. split; [reflexivity|].
  intros H.
  destruct (H two_files eq_refl) as (hotspots & ranked & Hres & Hfirst & Hperm & _).
  assert (Hranked : ranked = [file_b]).
  { apply Permutation_sym in Hperm.
    change (AnalysisResult.files_with_dependencies two_files)
      with [file_b] in Hperm.
    now apply Permutation_length_1_inv in Hperm. }
  subst ranked hotspots. discriminate Hres.
Qed.

(** C2, amended.  With the standard validation, [find_dependency_hotspots]
    fails with a [ValueError], having called neither cache nor repository,
    for every limit outside [1, 1000]; for a limit inside, when the
    service's cache holds nothing for it (no cache, or a miss), it returns
    the first [limit] files of the files with dependencies of the current
    analysis result, ranked by their number of dependencies, descending,
    files of equal number in their order in the file sequence: at most
    [limit] files, each with dependencies; when an answer is cached for
    the limit, it returns that answer as it is. *)
Theorem find_dependency_hotspots_ranks (w : World) (limit : Z) :
  validation_service (service w) = StandardValidationService ->
  caches_ok w ->
  (~ limit_in_range limit ->
   Service.find_dependency_hotspots limit w
   = (Raise (ValueError "Invalid limit parameter"), tick w, []))
  /\ (limit_in_range limit ->
      uncached (hotspots_key limit) w = true ->
      ranks_current_result limit w)
  /\ (limit_in_range limit ->
      forall p : payload,
        cached_under (hotspots_key limit) w = Some p ->
        result_of (Service.find_dependency_hotspots limit w) = Ok p).
Proof.
  intros Hstd Hok. split; [|split].
  3: { intros Hin p Hc. apply find_dependency_hotspots_cached; [|exact Hc].
       rewrite Hstd. now apply standard_limit_valid. }
  - intros Hout. apply find_dependency_hotspots_rejects.
    rewrite Hstd. apply not_true_is_false.
    now rewrite standard_limit_valid.
  - intros Hin Hu r Hr.
    destruct (get_hotspots_spec r limit) as (ranked & Hget & Hperm & Hdesc & Hst);
      [unfold limit_in_range in Hin; lia|].
    exists (firstn (Z.to_nat limit) ranked), ranked.
    split.
    { apply (find_dependency_hotspots_current w limit r); auto.
      rewrite Hstd. now apply standard_limit_valid. }
    repeat split; auto.
    + pose proof (firstn_le_length (Z.to_nat limit) ranked) as Hlen.
      unfold limit_in_range in Hin.
      rewrite length_firstn. lia.
    + apply Forall_forall. intros f Hf.
      apply in_firstn_of in Hf.
      apply (Permutation_in _ Hperm) in Hf.
      unfold AnalysisResult.files_with_dependencies in Hf.
      now apply filter_In in Hf.
    + now apply descending_firstn.
Qed.

(* ------------------------------------------------------------------ *)
(** ** Dependencies by type *)

Lemma deptype_eqb_eq (a b : DependencyType) : DepType.eqb a b = true <-> a = b.
Proof. destruct a, b; simpl; split; congruence. Qed.

Lemma annotate_annotated (f : FileAnalysis.t) (d : Dependency.t) :
  Service.annotate f d = annotated (f, d).
Proof. reflexivity. Qed.

Lemma collect_inner (f : FileAnalysis.t) (deps : list Dependency.t)
      (acc : list pyval) :
  fold_left (fun dependencies dependency =>
               dependencies ++ [Service.annotate f dependency]) deps acc
  = acc ++ map (fun d => annotated (f, d)) deps.
Proof.
  revert acc; induction deps as [|d deps IH]; intros acc; simpl.
  - now rewrite app_nil_r.
  - rewrite IH, <- app_assoc. reflexivity.
Qed.

Lemma collect_outer (t : DependencyType) (files : list FileAnalysis.t)
      (acc : list pyval) :
  fold_left
    (fun dependencies file_analysis =>
       fold_left
         (fun dependencies dependency =>
            dependencies ++ [Service.annotate file_analysis dependency])
         (FileAnalysis.get_dependencies_by_type file_analysis t) dependencies)
    files acc
  = acc ++ map annotated
               (flat_map
                  (fun f =>
                     map (pair f)
                         (filter (fun dep => DepType.eqb (Dependency.type dep) t)
                                 (FileAnalysis.dependencies f)))
                  files).
Proof.
  revert acc; induction files as [|f fs IH]; intros acc; simpl.
  - now rewrite app_nil_r.
  - rewrite IH, collect_inner, map_app, map_map, <- app_assoc. reflexivity.
Qed.

Lemma collect_spec (r : AnalysisResult.t) (t : DependencyType) :
  Service.collect r t = map annotated (dependencies_of_type r t).
Proof. apply (collect_outer t (AnalysisResult.files r) []). Qed.

Lemma in_dependencies_of_type (r : AnalysisResult.t) (t : DependencyType)
      (f : FileAnalysis.t) (d : Dependency.t) :
  In (f, d) (dependencies_of_type r t)
  <-> In f (AnalysisResult.files r)
      /\ In d (FileAnalysis.dependencies f)
      /\ Dependency.type d = t.
Proof.
  unfold dependencies_of_type. rewrite in_flat_map. split.
  - intros (f' & Hf & Hin). apply in_map_iff in Hin as (d' & [= <- <-] & Hd).
    apply filter_In in Hd as [Hd Ht]. now rewrite deptype_eqb_eq in Ht.
  - intros (Hf & Hd & Ht). exists f. split; [exact Hf|].
    apply in_map. apply filter_In. now rewrite deptype_eqb_eq.
Qed.

Lemma standard_dependency_type_valid (t : DependencyType) :
  validate_dependency_type StandardValidationService (DepType.value t) = true.
Proof. now destruct t. Qed.

Lemma get_dependencies_by_type_current (w : World) (t : DependencyType)
      (r : AnalysisResult.t) :
  caches_ok w ->
  validate_dependency_type (validation_service (service w)) (DepType.value t)
  = true ->
  uncached (dependencies_key t) w = true ->
  current_result w = Ok r ->
  result_of (Service.get_dependencies_by_type t w)
  = Ok (OfDependencies (Service.collect r t)).
Proof.
  intros Hok Hv Hu Hr.
  destruct (resolve_current w r Hok Hr) as (w1 & ev1 & E & Hok1).
  unfold Service.get_dependencies_by_type, Service.get_dependencies_by_type_body,
    dependencies_key in *.
  run_service. rewrite Hv. run_service.
  compute_on_miss Hu Hok1 E idtac.
Qed.

Lemma get_dependencies_by_type_cached (w : World) (t : DependencyType)
      (p : payload) :
  validate_dependency_type (validation_service (service w)) (DepType.value t)
  = true ->
  cached_under (dependencies_key t) w = Some p ->
  result_of (Service.get_dependencies_by_type t w) = Ok p.
Proof.
  intros Hv Hc.
  unfold Service.get_dependencies_by_type, Service.get_dependencies_by_type_body,
    dependencies_key in *.
  run_service. rewrite Hv. serve_from_cache Hc.
Qed.

(** C8, as first stated, fails: dependencies that are cached for a type
    are returned whatever the analysis result has become.  The
    instantiations were asked for on the three files, and the repository
    then saved the files B and C alone: the current result has no
    instantiation, and the five of file A are still reported. *)
Lemma cached_dependencies_outlive_the_result :
  validation_service
    (service (overwritten_after
                (Service.get_dependencies_by_type INSTANTIATION)))
  = StandardValidationService
  /\ caches_ok (overwritten_after
                  (Service.get_dependencies_by_type INSTANTIATION))
  /\ current_result (overwritten_after
                       (Service.get_dependencies_by_type INSTANTIATION))
     = Ok two_files
  /\ dependencies_of_type two_files INSTANTIATION = []
  /\ result_of (Service.get_dependencies_by_type
                  INSTANTIATION
                  (overwritten_after
                     (Service.get_dependencies_by_type INSTANTIATION)))
     = Ok (OfDependencies
             (map annotated (dependencies_of_type three_files INSTANTIATION)))
  /\ ~ collects_current_result
         INSTANTIATION
         (overwritten_after (Service.get_dependencies_by_type INSTANTIATION)).
Proof.
  split; [reflexivity|].
  split.
  { caches_by_computation. }
  split; [reflexivity|]. split; [reflexivity|]. split; [reflexivity|].
  intros H. specialize (H two_files eq_refl). discriminate H.
Qed.

(** C8, amended.  For every member [t] of the enumeration, what
    [get_dependencies_by_type t] computes from an analysis result is the
    sequence of its dependencies of type [t], each reported with its four
    fields and the relative path of its file, files in their order and
    dependencies in the order found: every dependency of type [t] of every
    file is there, and nothing else; with the standard validation, when
    the service's cache holds nothing for [t] (no cache, or a miss), this
    is what the operation returns on the current analysis result; when an
    answer is cached for [t], it returns that answer as it is. *)
Theorem get_dependencies_by_type_collects
        (r : AnalysisResult.t) (t : DependencyType) :
  Service.collect r t = map annotated (dependencies_of_type r t)
  /\ (forall f d,
        In (f, d) (dependencies_of_type r t)
        <-> In f (AnalysisResult.files r)
            /\ In d (FileAnalysis.dependencies f)
            /\ Dependency.type d = t)
  /\ (forall w : World,
        validation_service (service w) = StandardValidationService ->
        caches_ok w ->
        uncached (dependencies_key t) w = true ->
        collects_current_result t w)
  /\ (forall (w : World) (p : payload),
        validation_service (service w) = StandardValidationService ->
        cached_under (dependencies_key t) w = Some p ->
        result_of (Service.get_dependencies_by_type t w) = Ok p).
Proof.
  split; [apply collect_spec|].
  split; [apply in_dependencies_of_type|].
  split.
  - intros w Hstd Hok Hu r0 Hr. rewrite <- collect_spec.
    apply get_dependencies_by_type_current; auto.
    rewrite Hstd. apply standard_dependency_type_valid.
  - intros w p Hstd Hc. apply get_dependencies_by_type_cached; [|exact Hc].
    rewrite Hstd. apply standard_dependency_type_valid.
Qed.

(* ------------------------------------------------------------------ *)
(** ** Summary statistics *)

Section TypeDict.
Context {V : Type}.
Implicit Types (d : list (DependencyType * V)) (t : DependencyType).

Lemma tget_set_eq t (v : V) d :
  PyDict.get DepType.eqb t (PyDict.set DepType.eqb t v d) = Some v.
Proof.
  induction d as [|[t' v'] d IH]; simpl.
  - now destruct t.
  - destruct (DepType.eqb t t') eqn:E; simpl; rewrite E; [reflexivity|exact IH].
Qed.

Lemma tget_set_ne t t' (v : V) d :
  t <> t' ->
  PyDict.get DepType.eqb t (PyDict.set DepType.eqb t' v d)
  = PyDict.get DepType.eqb t d.
Proof.
  intros Hne.
  assert (Hf : DepType.eqb t t' = false)
    by (apply not_true_is_false; now rewrite deptype_eqb_eq).
  induction d as [|[t0 v0] d IH]; simpl.
  - now rewrite Hf.
  - destruct (DepType.eqb t' t0) eqn:E; simpl.
    + apply deptype_eqb_eq in E; subst t0. now rewrite Hf.
    + destruct (DepType.eqb t t0); [reflexivity|exact IH].
Qed.

Lemma tkeys_set t (v : V) d :
  PyDict.keys (PyDict.set DepType.eqb t v d)
  = if PyDict.mem DepType.eqb t d then PyDict.keys d else PyDict.keys d ++ [t].
Proof.
  unfold PyDict.mem, PyDict.keys.
  induction d as [|[t' v'] d IH]; simpl; [reflexivity|].
  destruct (DepType.eqb t t') eqn:E; simpl; [reflexivity|].
  rewrite IH. now destruct (PyDict.get DepType.eqb t d).
Qed.

Lemma tmem_in t d :
  PyDict.mem DepType.eqb t d = true <-> In t (PyDict.keys d).
Proof.
  unfold PyDict.mem, PyDict.keys.
  induction d as [|[t' v'] d IH]; simpl; [split; [discriminate|tauto]|].
  destruct (DepType.eqb t t') eqn:E.
  - apply deptype_eqb_eq in E. split; auto.
  - rewrite IH. split; [tauto|]. intros [H|H]; [|exact H].
    subst t'. destruct t; discriminate.
Qed.

Lemma tkeys_set_nodup t (v : V) d :
  NoDup (PyDict.keys d) -> NoDup (PyDict.keys (PyDict.set DepType.eqb t v d)).
Proof.
  intros Hnd. rewrite tkeys_set.
  destruct (PyDict.mem DepType.eqb t d) eqn:Hm; [exact Hnd|].
  apply NoDup_app; [exact Hnd|repeat constructor; auto|].
  intros x Hx [<-|[]]. apply tmem_in in Hx. congruence.
Qed.

End TypeDict.

Lemma count_loop (t : DependencyType) (deps : list Dependency.t)
      (dist : list (DependencyType * nat)) :
  PyDict.get DepType.eqb t (fold_left AnalysisResult.count_dependency deps dist)
  = match PyDict.get DepType.eqb t dist with
    | Some m => Some (m + count_type t deps)
    | None => if count_type t deps =? 0 then None else Some (count_type t deps)
    end.
Proof.
  revert dist; induction deps as [|d deps IH]; intros dist.
  - simpl. destruct (PyDict.get DepType.eqb t dist); [now rewrite Nat.add_0_r|].
    reflexivity.
  - simpl fold_left. rewrite IH. unfold AnalysisResult.count_dependency.
    unfold count_type. simpl filter.
    destruct (DepType.eqb (Dependency.type d) t) eqn:E.
    + apply deptype_eqb_eq in E. rewrite E, tget_set_eq. simpl List.length.
      fold (count_type t deps).
      destruct (PyDict.get DepType.eqb t dist) as [m|]; simpl; f_equal; lia.
    + rewrite tget_set_ne.
      * reflexivity.
      * intros ->. destruct (Dependency.type d); discriminate.
Qed.

Lemma count_loop_nodup (deps : list Dependency.t)
      (dist : list (DependencyType * nat)) :
  NoDup (PyDict.keys dist) ->
  NoDup (PyDict.keys (fold_left AnalysisResult.count_dependency deps dist)).
Proof.
  revert dist; induction deps as [|d deps IH]; intros dist Hnd; [exact Hnd|].
  simpl. apply IH. now apply tkeys_set_nodup.
Qed.

Lemma distribution_flat (files : list FileAnalysis.t)
      (dist : list (DependencyType * nat)) :
  fold_left
    (fun distribution file_analysis =>
       fold_left AnalysisResult.count_dependency
                 (FileAnalysis.dependencies file_analysis) distribution)
    files dist
  = fold_left AnalysisResult.count_dependency
              (flat_map FileAnalysis.dependencies files) dist.
Proof.
  revert dist; induction files as [|f fs IH]; intros dist; simpl;
    [reflexivity|].
  now rewrite IH, fold_left_app.
Qed.

Lemma count_type_flat (t : DependencyType) (r : AnalysisResult.t) :
  count_type t (flat_map FileAnalysis.dependencies (AnalysisResult.files r))
  = occurrences r t.
Proof.
  unfold count_type, occurrences, dependencies_of_type.
  induction (AnalysisResult.files r) as [|f fs IH]; simpl; [reflexivity|].
  now rewrite filter_app, !length_app, length_map, IH.
Qed.

Lemma distribution_spec (r : AnalysisResult.t) (t : DependencyType) :
  PyDict.get DepType.eqb t (AnalysisResult.dependency_type_distribution r)
  = if occurrences r t =? 0 then None else Some (occurrences r t).
Proof.
  unfold AnalysisResult.dependency_type_distribution.
  now rewrite distribution_flat, count_loop, count_type_flat.
Qed.

Lemma distribution_nodup (r : AnalysisResult.t) :
  NoDup (PyDict.keys (AnalysisResult.dependency_type_distribution r)).
Proof.
  unfold AnalysisResult.dependency_type_distribution.
  rewrite distribution_flat. apply count_loop_nodup. constructor.
Qed.

Lemma value_injective (a b : DependencyType) :
  DepType.value a = DepType.value b -> a = b.
Proof. destruct a, b; simpl; intros H; try reflexivity; discriminate. Qed.

Lemma type_counts_loop (t : DependencyType)
      (dist : list (DependencyType * nat)) (acc : list (string * nat)) :
  NoDup (PyDict.keys dist) ->
  sget (DepType.value t)
       (fold_left (fun acc item => sset (DepType.value (fst item)) (snd item) acc)
                  dist acc)
  = match PyDict.get DepType.eqb t dist with
    | Some n => Some n
    | None => sget (DepType.value t) acc
    end.
Proof.
  revert acc; induction dist as [|[k n] dist IH]; intros acc Hnd;
    [reflexivity|].
  inversion Hnd as [|? ? Hk Hrest]; subst. simpl.
  rewrite IH by exact Hrest.
  destruct (DepType.eqb t k) eqn:E.
  - apply deptype_eqb_eq in E; subst k.
    destruct (PyDict.get DepType.eqb t dist) eqn:Hg.
    + exfalso. apply Hk. apply tmem_in. unfold PyDict.mem. now rewrite Hg.
    + apply sget_sset_eq.
  - destruct (PyDict.get DepType.eqb t dist); [reflexivity|].
    apply sget_sset_ne. intros Hv. apply value_injective in Hv. subst k.
    destruct t; discriminate.
Qed.

Lemma type_counts_keys (key : string)
      (dist : list (DependencyType * nat)) (acc : list (string * nat)) :
  In key (PyDict.keys
            (fold_left
               (fun acc item => sset (DepType.value (fst item)) (snd item) acc)
               dist acc)) ->
  In key (PyDict.keys acc) \/ exists t, key = DepType.value t.
Proof.
  revert acc; induction dist as [|[k n] dist IH]; intros acc; simpl;
    [now left|].
  intros H. apply IH in H as [H|H]; [|now right].
  rewrite keys_sset in H.
  destruct (smem (DepType.value k) acc); [now left|].
  apply in_app_iff in H as [H|[<-|[]]]; [now left|right; now exists k].
Qed.

Lemma type_counts_nodup (dist : list (DependencyType * nat))
      (acc : list (string * nat)) :
  NoDup (PyDict.keys acc) ->
  NoDup (PyDict.keys
           (fold_left
              (fun acc item => sset (DepType.value (fst item)) (snd item) acc)
              dist acc)).
Proof.
  revert acc; induction dist as [|[k n] dist IH]; intros acc Hnd; [exact Hnd|].
  simpl. apply IH. now apply keys_sset_nodup.
Qed.

Lemma total_dependencies_sum (files : list FileAnalysis.t) (acc : nat) :
  fold_left (fun acc f => acc + FileAnalysis.total_dependencies f) files acc
  = acc + list_sum (map (fun f => List.length (FileAnalysis.dependencies f))
                        files).
Proof.
  revert acc; induction files as [|f fs IH]; intros acc; simpl; [lia|].
  rewrite IH. unfold FileAnalysis.total_dependencies. lia.
Qed.

Lemma has_dependencies_nonempty (f : FileAnalysis.t) :
  FileAnalysis.has_dependencies f = nonempty f.
Proof.
  unfold FileAnalysis.has_dependencies, FileAnalysis.total_dependencies, nonempty.
  now destruct (FileAnalysis.dependencies f).
Qed.

Lemma get_summary_statistics_current (w : World) (r : AnalysisResult.t) :
  caches_ok w ->
  uncached "summary_statistics" w = true ->
  current_result w = Ok r ->
  result_of (Service.get_summary_statistics w)
  = Ok (OfStatistics (SummaryStatistics.from_analysis_result r)).
Proof.
  intros Hok Hu Hr.
  destruct (resolve_current w r Hok Hr) as (w1 & ev1 & E & Hok1).
  unfold Service.get_summary_statistics.
  compute_on_miss Hu Hok1 E idtac.
Qed.

Lemma get_summary_statistics_cached (w : World) (p : payload) :
  cached_under "summary_statistics" w = Some p ->
  result_of (Service.get_summary_statistics w) = Ok p.
Proof.
  intros Hc. unfold Service.get_summary_statistics. serve_from_cache Hc.
Qed.

(** C9, as first stated, fails: statistics that are cached are returned
    whatever the analysis result has become.  The statistics were asked
    for on the three files, and the repository then saved the files B and
    C alone: the current result has two files, and three are still
    reported. *)
Lemma cached_statistics_outlive_the_result :
  caches_ok (overwritten_after Service.get_summary_statistics)
  /\ current_result (overwritten_after Service.get_summary_statistics)
     = Ok two_files
  /\ SummaryStatistics.total_files
       (SummaryStatistics.from_analysis_result two_files) = 2
  /\ (exists s,
        result_of (Service.get_summary_statistics
                     (overwritten_after Service.get_summary_statistics))
        = Ok (OfStatistics s)
        /\ SummaryStatistics.total_files s = 3)
  /\ ~ aggregates_current_result
         (overwritten_after Service.get_summary_statistics).
Proof.
  split.
  { caches_by_computation. }
  split; [reflexivity|]. split; [reflexivity|].
  split.
  { exists (SummaryStatistics.from_analysis_result three_files).
    split; reflexivity. }
  intros H. specialize (H two_files eq_refl). discriminate H.
Qed.

(** C9, amended.  The statistics built from an analysis result are its
    aggregates: the number of files, the number of files with at least one
    dependency, the sum of the files' numbers of dependencies, and for each
    dependency type that occurs, under its string value, the number of
    dependencies of that type over all files (no entry for a type that does
    not occur, and no other key).  In particular, three files with five
    [instantiation] dependencies, two [static_call] dependencies and none
    give 3, 2, 7 and [{instantiation: 5, static_call: 2}].  When the
    service's cache holds no statistics (no cache, or a miss),
    [get_summary_statistics] returns the statistics of the current analysis
    result; cached statistics are returned as they are. *)
Theorem summary_statistics_are_aggregates :
  (forall r : AnalysisResult.t,
     let s := SummaryStatistics.from_analysis_result r in
     SummaryStatistics.total_files s = List.length (AnalysisResult.files r)
     /\ SummaryStatistics.files_with_dependencies s
        = List.length (filter nonempty (AnalysisResult.files r))
     /\ SummaryStatistics.total_dependencies s
        = list_sum (map (fun f => List.length (FileAnalysis.dependencies f))
                        (AnalysisResult.files r))
     /\ (forall t,
           sget (DepType.value t) (SummaryStatistics.dependency_type_counts s)
           = if occurrences r t =? 0 then None else Some (occurrences r t))
     /\ (forall key,
           In key (PyDict.keys (SummaryStatistics.dependency_type_counts s)) ->
           exists t, key = DepType.value t)
     /\ NoDup (PyDict.keys (SummaryStatistics.dependency_type_counts s)))
  /\ (forall (a b c : FileAnalysis.t) (metadata : AnalysisMetadata.t),
        List.length (FileAnalysis.dependencies a) = 5 ->
        Forall (fun d => Dependency.type d = INSTANTIATION)
               (FileAnalysis.dependencies a) ->
        List.length (FileAnalysis.dependencies b) = 2 ->
        Forall (fun d => Dependency.type d = STATIC_CALL)
               (FileAnalysis.dependencies b) ->
        FileAnalysis.dependencies c = [] ->
        let s := SummaryStatistics.from_analysis_result
                   (AnalysisResult.mk [a; b; c] metadata) in
        SummaryStatistics.total_files s = 3
        /\ SummaryStatistics.files_with_dependencies s = 2
        /\ SummaryStatistics.total_dependencies s = 7
        /\ SummaryStatistics.dependency_type_counts s
           = [("instantiation", 5); ("static_call", 2)])
  /\ (forall w : World,
        caches_ok w ->
        uncached "summary_statistics" w = true ->
        aggregates_current_result w)
  /\ (forall (w : World) (p : payload),
        cached_under "summary_statistics" w = Some p ->
        result_of (Service.get_summary_statistics w) = Ok p).
Proof.
  split; [|split; [|split; [|exact get_summary_statistics_cached]]].
  3: { intros w Hok Hu r Hr. now apply get_summary_statistics_current. }
  - intros r s. subst s. unfold SummaryStatistics.from_analysis_result; simpl.
    split; [reflexivity|].
    split.
    { unfold AnalysisResult.files_with_dependencies. f_equal.
      apply filter_ext. apply has_dependencies_nonempty. }
    split.
    { unfold AnalysisResult.total_dependencies.
      now rewrite total_dependencies_sum. }
    split.
    { intros t. unfold SummaryStatistics.type_counts.
      rewrite type_counts_loop by apply distribution_nodup.
      rewrite distribution_spec. now destruct (occurrences r t =? 0). }
    split.
    { intros key Hkey. unfold SummaryStatistics.type_counts in Hkey.
      now apply type_counts_keys in Hkey as [[]|H]. }
    apply type_counts_nodup. constructor.
  - intros a b c metadata Ha Hta Hb Htb Hc s. subst s.
    unfold SummaryStatistics.from_analysis_result, AnalysisResult.total_files,
      AnalysisResult.files_with_dependencies, AnalysisResult.total_dependencies,
      AnalysisResult.dependency_type_distribution,
      FileAnalysis.has_dependencies, FileAnalysis.total_dependencies.
    simpl. rewrite Ha, Hb, Hc. simpl.
    destruct (FileAnalysis.dependencies a)
      as [|a1 [|a2 [|a3 [|a4 [|a5 [|]]]]]]; try discriminate.
    destruct (FileAnalysis.dependencies b) as [|b1 [|b2 [|]]]; try discriminate.
    repeat match goal with
           | H : Forall _ (_ :: _) |- _ => inversion H; clear H; subst
           end.
    repeat split.
    unfold AnalysisResult.count_dependency. simpl.
    repeat match goal with
           | H : Dependency.type _ = _ |- _ => rewrite H; clear H
           end.
    reflexivity.
Qed.

(* ------------------------------------------------------------------ *)
(** ** Serialisation round trip *)

Lemma omap_map {A B} (f : B -> outcome A) (g : A -> B) (l : list A) :
  (forall x, In x l -> f (g x) = Ok x) -> omap f (map g l) = Ok l.
Proof.
  induction l as [|x l IH]; intros H; simpl; [reflexivity|].
  rewrite H by now left. rewrite IH; [reflexivity|].
  intros y Hy. apply H. now right.
Qed.

Lemma of_value_value (t : DependencyType) :
  DepType.of_value (PStr (DepType.value t)) = Ok t.
Proof. now destruct t. Qed.

Lemma dependency_round_trip (d : Dependency.t) :
  Dependency.valid d = true ->
  Dependency.from_dict (Dependency.to_dict d) = Ok d.
Proof.
  destruct d as [ty ln cx dt]. unfold Dependency.valid.
  cbn [Dependency.line Dependency.context].
  destruct (lt_zero ln) as [negative|] eqn:El; [|discriminate].
  intros H. apply andb_true_iff in H as [Hl Hc].
  apply negb_true_iff in Hl, Hc. subst negative.
  unfold Dependency.from_dict, Dependency.to_dict.
  cbn [subscript dot_get sget PyDict.get String.eqb Ascii.eqb Bool.eqb
       obind or_default Dependency.type Dependency.line Dependency.context
       Dependency.details].
  rewrite of_value_value.
  unfold Dependency.construct, Dependency.post_init.
  cbn [obind Dependency.line Dependency.context].
  now rewrite El, Hc.
Qed.

Lemma file_round_trip (f : FileAnalysis.t) :
  FileAnalysis.valid f = true ->
  FileAnalysis.from_dict (FileAnalysis.to_dict f) = Ok f.
Proof.
  destruct f as [fp rp deps er]. unfold FileAnalysis.valid.
  cbn -[PyStr.blank Z.ltb PrimFloat.ltb forallb].
  intros H. apply andb_true_iff in H as [H Hd].
  apply andb_true_iff in H as [Hf Hr].
  apply negb_true_iff in Hf, Hr.
  unfold FileAnalysis.from_dict, FileAnalysis.to_dict.
  cbn -[PyStr.blank omap].
  rewrite omap_map; cbn -[PyStr.blank].
  - unfold FileAnalysis.post_init.
    cbn [FileAnalysis.file_path FileAnalysis.relative_path].
    now rewrite Hf, Hr.
  - intros d Hin. apply dependency_round_trip.
    rewrite forallb_forall in Hd. now apply Hd.
Qed.

Lemma metadata_round_trip (m : AnalysisMetadata.t) :
  AnalysisMetadata.valid m = true ->
  AnalysisMetadata.from_dict (AnalysisMetadata.to_dict m) = Ok m.
Proof.
  destruct m as [ts secs bp af ef tf]. unfold AnalysisMetadata.valid.
  cbn [AnalysisMetadata.analysis_time_seconds
       AnalysisMetadata.total_files_analyzed].
  destruct (lt_zero secs) as [negative_time|] eqn:Es; [|discriminate].
  destruct (lt_zero tf) as [negative_total|] eqn:Et; [|discriminate].
  intros H. apply andb_true_iff in H as [Hs Ht].
  apply negb_true_iff in Hs, Ht. subst negative_time negative_total.
  unfold AnalysisMetadata.from_dict, AnalysisMetadata.to_dict,
    AnalysisMetadata.post_init.
  cbn -[lt_zero]. now rewrite Es, Et.
Qed.

Lemma result_from_dict_document (fs : list pyval) (mv : pyval) :
  AnalysisResult.from_dict
    (PDict [("files", PList fs); ("analysis_metadata", mv)])
  = (let? files := omap FileAnalysis.from_dict fs in
     let? metadata := AnalysisMetadata.from_dict mv in
     Ok (AnalysisResult.mk files metadata))%outcome.
Proof. reflexivity. Qed.

(** C3.  An analysis result that passes the checks of its constructors is
    what [from_dict] rebuilds from its [to_dict]: the same files with the
    same paths, errors and dependencies (type, line, context, details), and
    the same metadata. *)
Theorem to_dict_from_dict_round_trip (r : AnalysisResult.t) :
  AnalysisResult.valid r = true ->
  AnalysisResult.from_dict (AnalysisResult.to_dict r) = Ok r.
Proof.
  destruct r as [files metadata]. unfold AnalysisResult.valid.
  cbn [AnalysisResult.files AnalysisResult.metadata].
  intros H. apply andb_true_iff in H as [Hf Hm].
  unfold AnalysisResult.to_dict. rewrite result_from_dict_document.
  cbn [AnalysisResult.files AnalysisResult.metadata].
  rewrite omap_map.
  - unfold obind at 1. now rewrite metadata_round_trip.
  - intros f Hin. apply file_round_trip.
    rewrite forallb_forall in Hf. now apply Hf.
Qed.

(* ------------------------------------------------------------------ *)
(** ** Loading *)

Lemma load_cached_copy (d : fs_entry) :
  result_of (Repository.load_analysis_result (stale_world d))
  = Ok lonely_result.
Proof. reflexivity. Qed.

(** C4, as first stated, fails: a repository whose cache holds a result
    returns it, whatever has become of the document. *)
Lemma load_prefers_cached_copy :
  ~ load_follows_document (stale_world NoSuchPath)
  /\ ~ load_follows_document (stale_world (RegularFile 7 InvalidJson)).
Proof.
  split; intros [Hmissing Hinvalid].
  - destruct (Hmissing eq_refl) as (r & Hr & Hfiles & _).
    rewrite load_cached_copy in Hr. injection Hr as <-. discriminate.
  - destruct (Hinvalid 7%Z eq_refl) as (msg & cause & Hr).
    rewrite load_cached_copy in Hr. discriminate.
Qed.

(** C4, amended.  When the repository has no cached copy of the result
    (no cache, or nothing under its key): if the path of the document does
    not exist, [load_analysis_result] returns a valid result with no files
    and metadata that are zero or empty but for the timestamp, which is the
    time of the call; if the document exists and is no JSON, it raises
    [RepositoryError], from the decoding error. *)
Theorem load_without_cached_copy (w : World) :
  repository_uncached w = true ->
  (document w = NoSuchPath ->
   exists r,
     result_of (Repository.load_analysis_result w) = Ok r
     /\ AnalysisResult.files r = []
     /\ zero_valued (AnalysisResult.metadata r)
     /\ AnalysisMetadata.timestamp (AnalysisResult.metadata r)
        = PStr (strftime w (clock w (ticks w)))
     /\ AnalysisResult.valid r = true)
  /\ (forall st_mtime,
        document w = RegularFile st_mtime InvalidJson ->
        result_of (Repository.load_analysis_result w)
        = Raise (RepositoryError "Invalid JSON in analysis file"
                                 JSONDecodeError)).
Proof.
  intros Hu. unfold repository_uncached in Hu.
  assert (Hmiss : forall ref c,
             repo_cache_service (repository w) = Some ref ->
             caches w ref = InMemory c ->
             InMemoryCacheService.exists_ (_cache_key (repository w)) c = false).
  { intros ref c Hr Hc. rewrite Hr, Hc in Hu. now apply negb_true_iff. }
  clear Hu.
  unfold Repository.load_analysis_result, Repository.load_from_file,
    Repository._create_empty_result, Repository.read_json, Cache.get.
  split.
  - intros Hdoc.
    exists (AnalysisResult.mk []
              (AnalysisMetadata.mk (PStr (strftime w (clock w (ticks w))))
                                   (PFloat 0%float) (PStr "") [] []
                                   (PInt 0))).
    split; [|repeat split].
    run_monad. cbn -[InMemoryCacheService.exists_ InMemoryCacheService.get].
    destruct (repo_cache_service (repository w)) as [ref|] eqn:Hr;
      [destruct (caches w ref) as [c|] eqn:Hc;
       [rewrite (Hmiss ref c eq_refl Hc)|]|];
      repeat (rewrite ?Hdoc;
              cbn -[InMemoryCacheService.exists_ InMemoryCacheService.get]);
      reflexivity.
  - intros st_mtime Hdoc.
    run_monad. cbn -[InMemoryCacheService.exists_ InMemoryCacheService.get].
    destruct (repo_cache_service (repository w)) as [ref|] eqn:Hr;
      [destruct (caches w ref) as [c|] eqn:Hc;
       [rewrite (Hmiss ref c eq_refl Hc)|]|];
      repeat (rewrite ?Hdoc;
              cbn -[InMemoryCacheService.exists_ InMemoryCacheService.get]);
      reflexivity.
Qed.

(* ------------------------------------------------------------------ *)
(** ** Staleness *)

Lemma events_bind_emit {B} (e : event) (k : unit -> M B) (w : World) :
  events_of (bind (emit e) k w) = e :: events_of (k tt w).
Proof. unfold bind, emit, events_of. now destruct (k tt w) as [[o w2] ev2]. Qed.

Lemma events_bind_prefix {A B} (m : M A) (k : A -> M B) (w : World)
      (x : event) :
  In x (events_of (m w)) -> In x (events_of (bind m k w)).
Proof.
  unfold bind, events_of.
  destruct (m w) as [[[a|e] w1] ev1]; simpl; [|auto].
  destruct (k a w1) as [[o w2] ev2]; simpl.
  intros H. apply in_app_iff. now left.
Qed.

Lemma reload_loads (w : World) : In RepositoryLoad (events_of (Service.reload w)).
Proof.
  unfold Service.reload. apply events_bind_prefix.
  unfold Repository.load_analysis_result. rewrite events_bind_emit. now left.
Qed.

Lemma get_last_modified_returns (w : World) :
  Repository.get_last_modified w
  = (Ok (last_modified w), w, [RepositoryLastModified]).
Proof.
  unfold last_modified, Repository.get_last_modified, result_of.
  run_monad. simpl. now destruct (document w).
Qed.

Lemma get_analysis_result_cases (w : World) :
  Service._get_analysis_result w
  = match _analysis_result (service w), _last_loaded_time (service w) with
    | None, _ => Service.reload w
    | Some _, None => Service.reload w
    | Some held, Some loaded =>
        match last_modified w with
        | None => (Ok held, w, [RepositoryLastModified])
        | Some modified =>
            if (loaded <? modified)%Z then
              match Service.reload w with
              | (o, w', ev) => (o, w', RepositoryLastModified :: ev)
              end
            else (Ok held, w, [RepositoryLastModified])
        end
    end.
Proof.
  unfold Service._get_analysis_result, Service._should_reload_data.
  unfold bind at 1. unfold read at 1.
  destruct (_analysis_result (service w)) as [held|]; [|
    now destruct (Service.reload w) as [[o w1] ev1]].
  unfold bind at 1. unfold bind at 1. unfold read at 1.
  destruct (_last_loaded_time (service w)) as [loaded|].
  - unfold bind at 1. rewrite get_last_modified_returns.
    destruct (last_modified w) as [modified|]; [|reflexivity].
    unfold ret at 1.
    destruct (loaded <? modified)%Z; [|reflexivity].
    now destruct (Service.reload w) as [[o w1] ev1].
  - unfold ret at 1. now destruct (Service.reload w) as [[o w1] ev1].
Qed.

Lemma reload_holds (w w' : World) (r : AnalysisResult.t) (ev : list event) :
  Service.reload w = (Ok r, w', ev) ->
  _analysis_result (service w') = Some r
  /\ exists t, _last_loaded_time (service w') = Some t.
Proof.
  unfold Service.reload. unfold bind at 1.
  destruct (Repository.load_analysis_result w) as [[[r0|e] w1] ev1];
    [|discriminate].
  run_monad. cbn. intros [= <- <- <-]. cbn. eauto.
Qed.

(** What [_get_analysis_result] does in [w]. *)
Lemma reload_decision (w : World) :
  (_analysis_result (service w) = None
   \/ _last_loaded_time (service w) = None -> reloads w)
  /\ (forall held loaded,
        _analysis_result (service w) = Some held ->
        _last_loaded_time (service w) = Some loaded ->
        (reloads w
         <-> exists modified,
               last_modified w = Some modified /\ (loaded < modified)%Z)
        /\ (last_modified w = None -> ~ reloads w)
        /\ (~ reloads w ->
            Service._get_analysis_result w
            = (Ok held, w, [RepositoryLastModified])))
  /\ (forall r w' ev,
        reloads w ->
        Service._get_analysis_result w = (Ok r, w', ev) ->
        _analysis_result (service w') = Some r
        /\ exists t, _last_loaded_time (service w') = Some t).
Proof.
  unfold reloads. rewrite get_analysis_result_cases.
  pose proof (reload_loads w) as Hload.
  split; [|split].
  - intros [Hnone|Hnone]; rewrite Hnone;
      [|destruct (_analysis_result (service w))]; exact Hload.
  - intros held loaded -> ->.
    destruct (last_modified w) as [modified|].
    + destruct (Z.ltb_spec loaded modified) as [Hlt|Hge].
      * destruct (Service.reload w) as [[o w1] ev1]. simpl in *.
        split; [|split].
        -- split; [eauto|now right].
        -- discriminate.
        -- intros Hno. exfalso. apply Hno. now right.
      * split; [|split].
        -- split.
           ++ simpl. intros [H|[]]. discriminate.
           ++ intros (m & [= <-] & Hlt). lia.
        -- discriminate.
        -- reflexivity.
    + split; [|split].
      * split.
        -- simpl. intros [H|[]]. discriminate.
        -- intros (m & Hm & _). discriminate.
      * intros _. simpl. intros [H|[]]. discriminate.
      * reflexivity.
  - intros r w' ev.
    destruct (_analysis_result (service w)) as [held|];
      [destruct (_last_loaded_time (service w)) as [loaded|]|].
    + destruct (last_modified w) as [modified|].
      * destruct (loaded <? modified)%Z.
        -- destruct (Service.reload w) as [[o w1] ev1] eqn:E.
           intros _ [= Ho Hw Hev]. subst o w1.
           now apply (reload_holds w w' r ev1).
        -- simpl. intros [H|[]]. discriminate.
      * simpl. intros [H|[]]. discriminate.
    + intros _. apply reload_holds.
    + intros _. apply reload_holds.
Qed.

(** *** The queries and the resolution *)

Lemma resolves_when_loading_follows {A} (query : M A) (w : World) :
  (In RepositoryLoad (events_of (query w)) <-> reloads (tick w)) ->
  resolves_before_answering query w.
Proof.
  intros Hiff. unfold resolves_before_answering.
  destruct (reload_decision (tick w)) as (Hnone & Hheld & _).
  split.
  - intros H. apply Hiff. now apply Hnone.
  - intros held loaded Hr Ht.
    destruct (Hheld held loaded Hr Ht) as (Hre & Hno & _).
    split.
    + rewrite Hiff. exact Hre.
    + intros Hm. rewrite Hiff. now apply Hno.
Qed.

(** Whether [load_analysis_result] is among calls that are listed but
    for those of the resolution. *)
Ltac loads_in_resolution :=
  cbn [fst snd]; rewrite ?in_app_iff; cbn [In];
  intuition (try discriminate).

Ltac whatever_is_raised :=
  try match goal with
      | |- context [is_ValueError ?e] => destruct (is_ValueError e)
      end;
  run_service; repeat (split_world; run_service).

Lemma search_dependencies_loads (w : World) (query : string) :
  validate_search_query (validation_service (service w)) query = true ->
  In RepositoryLoad (events_of (Service.search_dependencies query w))
  <-> reloads (tick w).
Proof.
  intros Hv. unfold reloads, tick, events_of.
  unfold Service.search_dependencies, Service.search_dependencies_body.
  run_service. rewrite Hv. run_service.
  destruct (Service._get_analysis_result (with_ticks (S (ticks w)) w))
    as [[[r|e] w1] ev1]; run_service;
    repeat (split_world; run_service).
  all: whatever_is_raised.
  all: loads_in_resolution.
Qed.

Lemma get_file_analysis_loads (w : World) (file_path : string) :
  validate_file_path (validation_service (service w)) file_path = true ->
  In RepositoryLoad (events_of (Service.get_file_analysis file_path w))
  <-> reloads (tick w).
Proof.
  intros Hv. unfold reloads, tick, events_of.
  unfold Service.get_file_analysis, Service.get_file_analysis_body.
  run_service. rewrite Hv. run_service.
  destruct (Service._get_analysis_result (with_ticks (S (ticks w)) w))
    as [[[r|e] w1] ev1]; run_service;
    repeat (split_world; run_service).
  all: try (destruct (find _ (AnalysisResult.files r)); run_service;
            repeat (split_world; run_service)).
  all: whatever_is_raised.
  all: loads_in_resolution.
Qed.

(** The course of a cached operation that finds nothing cached, up to
    the resolution of the current result. *)
Ltac resolve_on_miss Hu :=
  unfold uncached in Hu;
  unfold reloads, tick, events_of;
  run_service;
  repeat (split_world; run_service);
  try (apply negb_true_iff in Hu; rewrite Hu; run_service);
  repeat (split_world; run_service);
  match goal with
  | |- context [Service._get_analysis_result ?w0] =>
      destruct (Service._get_analysis_result w0) as [[[?r|?e] ?w1] ?ev1]
  end;
  run_service;
  repeat (split_world; run_service).

(** Its course from there, whatever becomes of what it stores. *)
Ltac store_whatever :=
  try match goal with
      | |- context [InMemoryCacheService.set ?k ?v ?t ?c] =>
          destruct (InMemoryCacheService.set k v t c) as [[[]|?] ?]
      end;
  run_service; repeat (split_world; run_service).

Lemma get_summary_statistics_loads (w : World) :
  uncached "summary_statistics" w = true ->
  In RepositoryLoad (events_of (Service.get_summary_statistics w))
  <-> reloads (tick w).
Proof.
  intros Hu. unfold Service.get_summary_statistics.
  resolve_on_miss Hu.
  all: store_whatever.
  all: loads_in_resolution.
Qed.

Lemma find_dependency_hotspots_loads (w : World) (limit : Z) :
  validate_limit_parameter (validation_service (service w)) limit = true ->
  uncached (hotspots_key limit) w = true ->
  In RepositoryLoad (events_of (Service.find_dependency_hotspots limit w))
  <-> reloads (tick w).
Proof.
  intros Hv Hu.
  unfold Service.find_dependency_hotspots,
    Service.find_dependency_hotspots_body, hotspots_key in *.
  unfold reloads, tick, events_of.
  run_service. rewrite Hv. run_service.
  resolve_on_miss Hu.
  all: try match goal with
           | |- context [AnalysisResult.get_hotspots ?r ?l] =>
               destruct (AnalysisResult.get_hotspots r l) as [?|?e]
           end; run_service; repeat (split_world; run_service).
  all: store_whatever.
  all: whatever_is_raised.
  all: loads_in_resolution.
Qed.

Lemma get_dependencies_by_type_loads (w : World) (t : DependencyType) :
  validate_dependency_type (validation_service (service w)) (DepType.value t)
  = true ->
  uncached (dependencies_key t) w = true ->
  In RepositoryLoad (events_of (Service.get_dependencies_by_type t w))
  <-> reloads (tick w).
Proof.
  intros Hv Hu.
  unfold Service.get_dependencies_by_type,
    Service.get_dependencies_by_type_body, dependencies_key in *.
  unfold reloads, tick, events_of.
  run_service. rewrite Hv. run_service.
  resolve_on_miss Hu.
  all: store_whatever.
  all: whatever_is_raised.
  all: loads_in_resolution.
Qed.

(** The course of a cached operation that finds its answer cached: the
    calls it makes. *)
Ltac spared_by_cache Hc :=
  unfold cached_under in Hc;
  unfold spares_repository, events_of;
  run_service;
  repeat (split_world; run_service);
  try discriminate;
  unfold InMemoryCacheService.exists_, InMemoryCacheService.get, PyDict.mem;
  rewrite ?Hc; run_service;
  repeat (split_world; run_service);
  cbn [In]; intuition discriminate.

Lemma get_summary_statistics_spares (w : World) (p : payload) :
  cached_under "summary_statistics" w = Some p ->
  spares_repository Service.get_summary_statistics w.
Proof.
  intros Hc. unfold Service.get_summary_statistics. spared_by_cache Hc.
Qed.

Lemma find_dependency_hotspots_spares (w : World) (limit : Z) (p : payload) :
  validate_limit_parameter (validation_service (service w)) limit = true ->
  cached_under (hotspots_key limit) w = Some p ->
  spares_repository (Service.find_dependency_hotspots limit) w.
Proof.
  intros Hv Hc.
  unfold Service.find_dependency_hotspots,
    Service.find_dependency_hotspots_body, hotspots_key in *.
  unfold spares_repository, events_of.
  run_service. rewrite Hv. spared_by_cache Hc.
Qed.

Lemma get_dependencies_by_type_spares (w : World) (t : DependencyType)
      (p : payload) :
  validate_dependency_type (validation_service (service w)) (DepType.value t)
  = true ->
  cached_under (dependencies_key t) w = Some p ->
  spares_repository (Service.get_dependencies_by_type t) w.
Proof.
  intros Hv Hc.
  unfold Service.get_dependencies_by_type,
    Service.get_dependencies_by_type_body, dependencies_key in *.
  unfold spares_repository, events_of.
  run_service. rewrite Hv. spared_by_cache Hc.
Qed.

(** C5, as first stated, fails: a query that is answered from the
    service's cache is answered without the resolution.  The statistics
    were asked for on the three files, loaded at 102, and the repository
    then saved the two files, at 105: the document is newer than the
    result the service holds, and the statistics are answered with a read
    of the cache as the only call, the repository being asked neither for
    the modification time nor to load. *)
Lemma cached_answers_skip_the_resolution :
  _analysis_result (service (overwritten_after Service.get_summary_statistics))
  = Some three_files
  /\ _last_loaded_time
       (service (overwritten_after Service.get_summary_statistics))
     = Some 102%Z
  /\ last_modified (overwritten_after Service.get_summary_statistics)
     = Some 105%Z
  /\ events_of (Service.get_summary_statistics
                  (overwritten_after Service.get_summary_statistics))
     = [CacheGet 0 "summary_statistics";
        Metric (record_cache_hit "summary_statistics")]
  /\ ~ resolves_before_answering
         Service.get_summary_statistics
         (overwritten_after Service.get_summary_statistics).
Proof.
  split; [reflexivity|]. split; [reflexivity|]. split; [reflexivity|].
  split; [reflexivity|].
  intros [_ H].
  destruct (H three_files 102%Z eq_refl eq_refl) as [Hiff _].
  assert (Hload : In RepositoryLoad
                     (events_of (Service.get_summary_statistics
                                   (overwritten_after
                                      Service.get_summary_statistics)))).
  { apply Hiff. exists 105%Z. split; [reflexivity|lia]. }
  vm_compute in Hload. intuition discriminate.
Qed.

(** C5, amended.  Resolving the current result loads it when none was
    loaded; with a result held and its load time recorded, it reloads
    exactly when the repository reports a modification time later than the
    load time; when the repository reports none, and whenever it does not
    reload, it returns the held result, changes nothing and does not call
    [load_analysis_result]; a reload that succeeds leaves the loaded result
    held, with a load time.  A query resolves the current result in this
    way before it is answered when it is not answered from the service's
    cache: [search_dependencies] and [get_file_analysis] always (for an
    input they accept), [get_summary_statistics],
    [find_dependency_hotspots] and [get_dependencies_by_type] when the
    cache holds nothing under their key.  When it holds an answer, that
    answer is returned without the resolution: the repository is asked
    neither for the modification time nor to load. *)
Theorem staleness_decides_reload (w : World) :
  (_analysis_result (service w) = None
   \/ _last_loaded_time (service w) = None -> reloads w)
  /\ (forall held loaded,
        _analysis_result (service w) = Some held ->
        _last_loaded_time (service w) = Some loaded ->
        (reloads w
         <-> exists modified,
               last_modified w = Some modified /\ (loaded < modified)%Z)
        /\ (last_modified w = None -> ~ reloads w)
        /\ (~ reloads w ->
            Service._get_analysis_result w
            = (Ok held, w, [RepositoryLastModified])))
  /\ (forall r w' ev,
        reloads w ->
        Service._get_analysis_result w = (Ok r, w', ev) ->
        _analysis_result (service w') = Some r
        /\ exists t, _last_loaded_time (service w') = Some t)
  /\ (forall query,
        validate_search_query (validation_service (service w)) query = true ->
        resolves_before_answering (Service.search_dependencies query) w)
  /\ (forall file_path,
        validate_file_path (validation_service (service w)) file_path = true ->
        resolves_before_answering (Service.get_file_analysis file_path) w)
  /\ (uncached "summary_statistics" w = true ->
      resolves_before_answering Service.get_summary_statistics w)
  /\ (forall limit,
        validate_limit_parameter (validation_service (service w)) limit
        = true ->
        uncached (hotspots_key limit) w = true ->
        resolves_before_answering (Service.find_dependency_hotspots limit) w)
  /\ (forall t,
        validate_dependency_type (validation_service (service w))
                                 (DepType.value t) = true ->
        uncached (dependencies_key t) w = true ->
        resolves_before_answering (Service.get_dependencies_by_type t) w)
  /\ (forall p,
        cached_under "summary_statistics" w = Some p ->
        spares_repository Service.get_summary_statistics w)
  /\ (forall limit p,
        validate_limit_parameter (validation_service (service w)) limit
        = true ->
        cached_under (hotspots_key limit) w = Some p ->
        spares_repository (Service.find_dependency_hotspots limit) w)
  /\ (forall t p,
        validate_dependency_type (validation_service (service w))
                                 (DepType.value t) = true ->
        cached_under (dependencies_key t) w = Some p ->
        spares_repository (Service.get_dependencies_by_type t) w).
Proof.
  destruct (reload_decision w) as (Hnone & Hheld & Hloaded).
  split; [exact Hnone|]. split; [exact Hheld|]. split; [exact Hloaded|].
  split.
  { intros query Hv. apply resolves_when_loading_follows.
    now apply search_dependencies_loads. }
  split.
  { intros file_path Hv. apply resolves_when_loading_follows.
    now apply get_file_analysis_loads. }
  split.
  { intros Hu. apply resolves_when_loading_follows.
    now apply get_summary_statistics_loads. }
  split.
  { intros limit Hv Hu. apply resolves_when_loading_follows.
    now apply find_dependency_hotspots_loads. }
  split.
  { intros t Hv Hu. apply resolves_when_loading_follows.
    now apply get_dependencies_by_type_loads. }
  split.
  { intros p. apply get_summary_statistics_spares. }
  split.
  { intros limit p. apply find_dependency_hotspots_spares. }
  intros t p. apply get_dependencies_by_type_spares.
Qed.

(* ------------------------------------------------------------------ *)
(** ** Error policy *)

Lemma result_bind {A B} (m : M A) (k : A -> M B) (w : World) :
  result_of (bind m k w)
  = match m w with
    | (Ok a, w1, _) => result_of (k a w1)
    | (Raise e, _, _) => Raise e
    end.
Proof.
  unfold bind, result_of.
  destruct (m w) as [[[a|e] w1] ev1]; [|reflexivity].
  now destruct (k a w1) as [[o w2] ev2].
Qed.

Lemma result_try {A} (m : M A) (h : exn -> M A) (w : World) :
  result_of (try_except m h w)
  = match m w with
    | (Ok a, _, _) => Ok a
    | (Raise e, w1, _) => result_of (h e w1)
    end.
Proof.
  unfold try_except, result_of.
  destruct (m w) as [[[a|e] w1] ev1]; [reflexivity|].
  now destruct (h e w1) as [[o w2] ev2].
Qed.

Lemma reraise_or_wrap_result {A} (operation message : string) (e : exn)
      (w : World) :
  result_of (@Service.reraise_or_wrap A operation message e w)
  = Raise (if is_ValueError e then e else AnalysisError message e).
Proof.
  unfold Service.reraise_or_wrap, Service.wrap, Service.metrics.
  destruct (is_ValueError e); [reflexivity|].
  run_monad. simpl. now destruct (metrics_collector (service w)).
Qed.

Lemma guarded_policy {A} (operation message : string) (body : Z -> M A)
      (w : World) :
  follows_error_policy message body
    (bind now (fun start_time =>
                 try_except (body start_time)
                            (Service.reraise_or_wrap operation message)))
    w.
Proof.
  unfold follows_error_policy.
  assert (Hrun :
            result_of
              (bind now (fun start_time =>
                           try_except (body start_time)
                             (Service.reraise_or_wrap operation message)) w)
            = result_of
                (try_except (body (clock w (ticks w)))
                            (Service.reraise_or_wrap operation message)
                            (tick w)))
    by (now rewrite result_bind).
  rewrite Hrun, result_try. unfold result_of at 1.
  destruct (body (clock w (ticks w)) (tick w)) as [[[a|e] w1] ev1]; simpl.
  - reflexivity.
  - apply reraise_or_wrap_result.
Qed.

Lemma nve_ret {A} (a : A) : never_value_error (ret a).
Proof. intros w e; discriminate. Qed.

Lemma nve_read {A} (f : World -> A) : never_value_error (read f).
Proof. intros w e; discriminate. Qed.

Lemma nve_write (f : World -> World) : never_value_error (write f).
Proof. intros w e; discriminate. Qed.

Lemma nve_emit (x : event) : never_value_error (emit x).
Proof. intros w e; discriminate. Qed.

Lemma nve_now : never_value_error now.
Proof. intros w e; discriminate. Qed.

Lemma nve_bind {A B} (m : M A) (k : A -> M B) :
  never_value_error m -> (forall a, never_value_error (k a)) ->
  never_value_error (bind m k).
Proof.
  intros Hm Hk w e. rewrite result_bind. specialize (Hm w).
  unfold result_of in Hm.
  destruct (m w) as [[[a|e0] w1] ev1]; simpl in *.
  - apply Hk.
  - intros [= <-]. now apply Hm.
Qed.

Lemma nve_handled {A} (m : M A) (h : exn -> M A) :
  (forall e0, never_value_error (h e0)) -> never_value_error (try_except m h).
Proof.
  intros Hh w e. rewrite result_try.
  destruct (m w) as [[[a|e0] w1] ev1]; [discriminate|apply Hh].
Qed.

Lemma nve_load_handler {A} (e0 : exn) :
  never_value_error (@Repository.load_handler A e0).
Proof. intros w e. destruct e0; simpl; intros [= <-]; reflexivity. Qed.

Lemma nve_load : never_value_error Repository.load_analysis_result.
Proof.
  unfold Repository.load_analysis_result.
  apply nve_bind; [apply nve_emit|intros _].
  apply nve_handled. intros e0. apply nve_load_handler.
Qed.

Lemma set_raises_key_error {V} (key : string) (value : V) (now : Z)
      (c c' : InMemoryCacheService.t V) (e : exn) :
  InMemoryCacheService.set key value now c = (Raise e, c') ->
  is_ValueError e = false.
Proof.
  unfold InMemoryCacheService.set, InMemoryCacheService._evict_lru,
    InMemoryCacheService.delete.
  destruct (_ && _); [|discriminate].
  destruct (InMemoryCacheService.lru_key _) as [k|]; [|discriminate].
  destruct (smem k (InMemoryCacheService.cache c)); [|discriminate].
  simpl. destruct (smem k (InMemoryCacheService.access_times c));
    [discriminate|].
  now intros [= <- <-].
Qed.

Lemma nve_cache_set (ref : nat) (key : string) (value : payload) :
  never_value_error (Cache.set ref key value).
Proof.
  intros w e. unfold Cache.set, result_of. run_monad. simpl.
  destruct (caches w ref) as [c|]; [|discriminate].
  destruct (InMemoryCacheService.set key value (clock w (ticks w)) c)
    as [[[]|e0] c'] eqn:E; simpl; [discriminate|].
  intros [= <-]. now apply set_raises_key_error in E.
Qed.

Lemma nve_cache_get (ref : nat) (key : string) :
  never_value_error (Cache.get ref key).
Proof.
  intros w e. unfold Cache.get, result_of. run_monad. simpl.
  destruct (caches w ref) as [c|]; [|discriminate].
  destruct (InMemoryCacheService.exists_ key c); [|discriminate].
  simpl. destruct (InMemoryCacheService.get key (clock w (ticks w)) c).
  discriminate.
Qed.

Create HintDb nve.
#[local] Hint Resolve nve_ret nve_read nve_write nve_emit nve_now nve_load
  nve_cache_set nve_cache_get : nve.

Ltac no_value_error :=
  repeat first
    [ solve [auto with nve]
    | apply nve_bind; [|intros ?]
    | match goal with
      | |- never_value_error (match ?x with _ => _ end) => destruct x
      | |- never_value_error (if ?x then _ else _) => destruct x
      end ].

Lemma nve_get_analysis_result : never_value_error Service._get_analysis_result.
Proof.
  unfold Service._get_analysis_result, Service.reload,
    Service._should_reload_data, Repository.get_last_modified.
  no_value_error.
Qed.

Lemma nve_record_time (operation : string) (start_time : Z) :
  never_value_error (Service.record_time operation start_time).
Proof. unfold Service.record_time. no_value_error. Qed.

Lemma nve_cache_lookup (key : string) :
  never_value_error (Service.cache_lookup key).
Proof. unfold Service.cache_lookup, Service.metrics. no_value_error. Qed.

Lemma nve_cache_store (key : string) (value : payload) :
  never_value_error (Service.cache_store key value).
Proof. unfold Service.cache_store. no_value_error. Qed.

#[local] Hint Resolve nve_get_analysis_result nve_record_time nve_cache_lookup
  nve_cache_store : nve.

(** Past its validation, a [try] block raises no [ValueError]. *)
Lemma validated_block {A} (valid : bool) (message : string) (rest : M A)
      (w : World) (e : exn) :
  valid = true ->
  never_value_error rest ->
  result_of (bind (Service.require valid message) (fun _ => rest) w) = Raise e ->
  is_ValueError e = false.
Proof.
  intros -> Hrest. rewrite result_bind. simpl. apply Hrest.
Qed.

Lemma policy_wraps {A} (message : string) (body : Z -> M A) (operation : M A)
      (w : World) (e : exn) :
  follows_error_policy message body operation w ->
  result_of (body (clock w (ticks w)) (tick w)) = Raise e ->
  is_ValueError e = false ->
  result_of (operation w) = Raise (AnalysisError message e).
Proof.
  unfold follows_error_policy. intros Hp Hb He. rewrite Hb, He in Hp. exact Hp.
Qed.

Lemma rejected_at_once {A} (operation rejection message : string)
      (rest : Z -> M A) (valid : ServiceObject -> bool) (w : World) :
  valid (service w) = false ->
  bind now
       (fun start_time =>
          try_except
            (bind (read service)
                  (fun self =>
                     bind (Service.require (valid self) rejection)
                          (fun _ => rest start_time)))
            (Service.reraise_or_wrap operation message)) w
  = (Raise (ValueError rejection), tick w, []).
Proof.
  intros Hv. unfold Service.require, Service.reraise_or_wrap.
  run_monad. simpl. rewrite Hv. reflexivity.
Qed.

Lemma accepted_block {A} (rejection : string) (rest : M A)
      (valid : ServiceObject -> bool) (w : World) (e : exn) :
  valid (service w) = true ->
  never_value_error rest ->
  result_of
    (bind (read service)
          (fun self =>
             bind (Service.require (valid self) rejection) (fun _ => rest)) w)
  = Raise e ->
  is_ValueError e = false.
Proof.
  intros Hv Hrest. rewrite result_bind. unfold read at 1. cbv beta iota.
  now apply validated_block.
Qed.

(** C7.  Each of the four validated operations, on any input and in any
    world: when the validation rejects the input, the operation raises the
    [ValueError] as it is, having called neither the cache nor the
    repository and changed nothing (but having read the clock); any
    exception of its [try] block that is no [ValueError] is raised as an
    [AnalysisError] from it; and once the input is accepted, nothing the
    block raises is a [ValueError]: every such failure is wrapped.  (For
    the hotspots the validation is one that accepts positive limits only,
    as the standard one.) *)
Theorem validation_first_then_wrapped_failures (w : World) :
  let v := validation_service (service w) in
  (forall limit,
     (validate_limit_parameter v limit = true -> (0 < limit)%Z) ->
     validated_operation
       (validate_limit_parameter v limit)
       "Invalid limit parameter" "Failed to find dependency hotspots"
       (Service.find_dependency_hotspots_body limit)
       (Service.find_dependency_hotspots limit) w)
  /\ (forall dep_type,
        validated_operation
          (validate_dependency_type v (DepType.value dep_type))
          "Invalid dependency type" "Failed to get dependencies by type"
          (Service.get_dependencies_by_type_body dep_type)
          (Service.get_dependencies_by_type dep_type) w)
  /\ (forall query,
        validated_operation
          (validate_search_query v query)
          "Invalid search query" "Failed to search dependencies"
          (Service.search_dependencies_body query)
          (Service.search_dependencies query) w)
  /\ (forall file_path,
        validated_operation
          (validate_file_path v file_path)
          "Invalid file path" "Failed to get file analysis"
          (Service.get_file_analysis_body file_path)
          (Service.get_file_analysis file_path) w).
Proof.
  intros v. subst v. unfold validated_operation.
  split; [|split; [|split]].
  - intros limit Hpos.
    pose proof (guarded_policy "find_dependency_hotspots"
                  "Failed to find dependency hotspots"
                  (Service.find_dependency_hotspots_body limit) w) as Hp.
    split; [|split; [exact Hp|]].
    + intros Hv.
      apply (rejected_at_once _ _ _ _
               (fun self => validate_limit_parameter (validation_service self)
                                                     limit)).
      exact Hv.
    + intros Hv e He.
      assert (Hne : is_ValueError e = false).
      { revert He.
        apply (accepted_block _ _
                 (fun self => validate_limit_parameter (validation_service self)
                                                       limit));
          [exact Hv|].
        unfold AnalysisResult.get_hotspots.
        destruct (Z.leb_spec limit 0) as [Hle|_]; [specialize (Hpos Hv); lia|].
        no_value_error. intros w0 e0; discriminate. }
      split; [exact Hne|now apply (policy_wraps _ _ _ _ _ Hp)].
  - intros dep_type.
    pose proof (guarded_policy "get_dependencies_by_type"
                  "Failed to get dependencies by type"
                  (Service.get_dependencies_by_type_body dep_type) w) as Hp.
    split; [|split; [exact Hp|]].
    + intros Hv.
      apply (rejected_at_once _ _ _ _
               (fun self => validate_dependency_type (validation_service self)
                              (DepType.value dep_type))).
      exact Hv.
    + intros Hv e He.
      assert (Hne : is_ValueError e = false).
      { revert He.
        apply (accepted_block _ _
                 (fun self => validate_dependency_type (validation_service self)
                                (DepType.value dep_type)));
          [exact Hv|].
        no_value_error. }
      split; [exact Hne|now apply (policy_wraps _ _ _ _ _ Hp)].
  - intros query.
    pose proof (guarded_policy "search_dependencies"
                  "Failed to search dependencies"
                  (Service.search_dependencies_body query) w) as Hp.
    split; [|split; [exact Hp|]].
    + intros Hv.
      apply (rejected_at_once _ _ _ _
               (fun self => validate_search_query (validation_service self)
                                                  query)).
      exact Hv.
    + intros Hv e He.
      assert (Hne : is_ValueError e = false).
      { revert He.
        apply (accepted_block _ _
                 (fun self => validate_search_query (validation_service self)
                                                    query));
          [exact Hv|].
        no_value_error. }
      split; [exact Hne|now apply (policy_wraps _ _ _ _ _ Hp)].
  - intros file_path.
    pose proof (guarded_policy "get_file_analysis"
                  "Failed to get file analysis"
                  (Service.get_file_analysis_body file_path) w) as Hp.
    split; [|split; [exact Hp|]].
    + intros Hv.
      apply (rejected_at_once _ _ _ _
               (fun self => validate_file_path (validation_service self)
                                               file_path)).
      exact Hv.
    + intros Hv e He.
      assert (Hne : is_ValueError e = false).
      { revert He.
        apply (accepted_block _ _
                 (fun self => validate_file_path (validation_service self)
                                                 file_path));
          [exact Hv|].
        no_value_error. }
      split; [exact Hne|now apply (policy_wraps _ _ _ _ _ Hp)].
Qed.

(* ------------------------------------------------------------------ *)
(** ** The properties at work on a small analysis *)

Lemma fresh_world_ok (d : fs_entry) : caches_ok (fresh_world d).
Proof. intros ref c [= <-]. reflexivity. Defined.

Lemma search_on_three_files :
  result_of (Service.search_dependencies "BRANCH::" three_files_world)
  = Ok (AnalysisResult.search_files three_files "BRANCH::")
  /\ AnalysisResult.search_files three_files "BRANCH::" = [file_b]
  /\ AnalysisResult.search_files three_files "C.php" = []
  /\ AnalysisResult.search_files three_files " b " = [].
Proof.
  split; [|repeat split].
  apply (search_returns_matching_files_with_dependencies
           three_files "BRANCH::");
    [reflexivity|vm_compute; lia|reflexivity].
Defined.

Lemma hotspots_on_three_files :
  exists hotspots ranked : list FileAnalysis.t,
    result_of (Service.find_dependency_hotspots 1 three_files_world)
    = Ok (OfFiles hotspots)
    /\ hotspots = firstn (Z.to_nat 1) ranked
    /\ Permutation ranked (AnalysisResult.files_with_dependencies three_files)
    /\ Descending FileAnalysis.total_dependencies ranked
    /\ (forall n, 0 < n ->
          with_key FileAnalysis.total_dependencies n ranked
          = with_key FileAnalysis.total_dependencies n
                     (AnalysisResult.files three_files))
    /\ (Z.of_nat (List.length hotspots) <= 1)%Z
    /\ Forall (fun f => FileAnalysis.has_dependencies f = true) hotspots
    /\ Descending FileAnalysis.total_dependencies hotspots.
Proof.
  apply (proj1 (proj2 (find_dependency_hotspots_ranks
                         three_files_world 1 eq_refl (fresh_world_ok _))));
    [unfold limit_in_range; lia|reflexivity|reflexivity].
Defined.

Lemma round_trip_of_three_files :
  AnalysisResult.valid three_files = true
  /\ AnalysisResult.from_dict (AnalysisResult.to_dict three_files)
     = Ok three_files.
Proof.
  split; [reflexivity|].
  apply (to_dict_from_dict_round_trip three_files). reflexivity.
Defined.

Lemma load_in_fresh_world :
  repository_uncached (fresh_world NoSuchPath) = true
  /\ (exists r,
        result_of (Repository.load_analysis_result (fresh_world NoSuchPath))
        = Ok r
        /\ AnalysisResult.files r = []
        /\ zero_valued (AnalysisResult.metadata r)
        /\ AnalysisMetadata.timestamp (AnalysisResult.metadata r)
           = PStr "2024-01-01 00:00:00"
        /\ AnalysisResult.valid r = true)
  /\ result_of (Repository.load_analysis_result
                  (fresh_world (RegularFile 7 InvalidJson)))
     = Raise (RepositoryError "Invalid JSON in analysis file" JSONDecodeError).
Proof.
  split; [reflexivity|]. split.
  - apply (proj1 (load_without_cached_copy (fresh_world NoSuchPath) eq_refl)).
    reflexivity.
  - apply (proj2 (load_without_cached_copy
                    (fresh_world (RegularFile 7 InvalidJson)) eq_refl) 7%Z).
    reflexivity.
Defined.


Example clock_of_two_keys_advances :
  StronglySorted Z.lt (stamps two_keys_history).
Proof. simpl. repeat constructor; lia. Qed.

(** The key evicted above is [b], set after [a] but accessed before it. *)
Example eviction_follows_access_not_insertion :
  InMemoryCacheService.set "c" 3 40%Z two_keys
  = (Ok tt,
     InMemoryCacheService.mk [("a", 1); ("c", 3)]
                             [("a", 30%Z); ("c", 40%Z)] 2).
Proof. reflexivity. Qed.

(** Without an advancing clock the recorded times do not tell the order
    of the accesses: of keys with equal times the first inserted goes. *)
Example equal_readings_evict_first_inserted :
  InMemoryCacheService.exists_ "a"
    (snd (InMemoryCacheService.set "c" 3 10%Z tied_keys)) = false
  /\ InMemoryCacheService.exists_ "b"
       (snd (InMemoryCacheService.set "c" 3 10%Z tied_keys)) = true.
Proof. split; reflexivity. Qed.

Lemma invariant_of_two_keys :
  (1 <= 2)%Z
  /\ exists c : InMemoryCacheService.t nat,
       InMemoryCacheService.run
         (two_keys_history
          ++ [InMemoryCacheService.Set_ "c" 3 40%Z;
              InMemoryCacheService.Delete "a";
              InMemoryCacheService.Get "zz" 50%Z])
         (InMemoryCacheService.new 2)
       = (Ok tt, c)
       /\ (Z.of_nat (List.length (InMemoryCacheService.cache c)) <= 2)%Z
       /\ (forall k, smem k (InMemoryCacheService.cache c)
                     = smem k (InMemoryCacheService.access_times c))
       /\ PyDict.keys (InMemoryCacheService.cache c)
          = PyDict.keys (InMemoryCacheService.access_times c).
Proof.
  split; [lia|].
  apply (cache_size_and_keys_invariant nat 2). lia.
Defined.

Lemma dependencies_of_three_files :
  result_of (Service.get_dependencies_by_type STATIC_CALL three_files_world)
  = Ok (OfDependencies
          (map annotated (dependencies_of_type three_files STATIC_CALL)))
  /\ dependencies_of_type three_files STATIC_CALL
     = [(file_b, branch_find); (file_b, branch_find)].
Proof.
  split; [|reflexivity].
  apply (proj1 (proj2 (proj2 (get_dependencies_by_type_collects
                                three_files STATIC_CALL)))
               three_files_world);
    [reflexivity|apply fresh_world_ok|reflexivity|reflexivity].
Defined.

Lemma statistics_of_three_files :
  exists s : SummaryStatistics.t,
    result_of (Service.get_summary_statistics three_files_world)
    = Ok (OfStatistics s)
    /\ SummaryStatistics.total_files s = 3
    /\ SummaryStatistics.files_with_dependencies s = 2
    /\ SummaryStatistics.total_dependencies s = 7
    /\ SummaryStatistics.dependency_type_counts s
       = [("instantiation", 5); ("static_call", 2)].
Proof.
  exists (SummaryStatistics.from_analysis_result three_files). split.
  - apply (proj1 (proj2 (proj2 summary_statistics_are_aggregates))
                 three_files_world (fresh_world_ok _) eq_refl
                 three_files eq_refl).
  - apply (proj1 (proj2 summary_statistics_are_aggregates)
                 file_a file_b file_c
                 (AnalysisResult.metadata three_files));
      try reflexivity; repeat constructor.
Defined.

Lemma staleness_of_loaded_worlds :
  reloads (loaded_world 40 (RegularFile 50 InvalidJson))
  /\ ~ reloads (loaded_world 60 (RegularFile 50 InvalidJson))
  /\ ~ reloads (loaded_world 40 NoSuchPath)
  /\ reloads (fresh_world NoSuchPath)
  /\ resolves_before_answering
       (Service.search_dependencies "branch")
       (loaded_world 40 (RegularFile 50 InvalidJson)).
Proof.
  split; [|split; [|split; [|split]]].
  5: { apply (proj1 (proj2 (proj2 (proj2 (staleness_decides_reload
                 (loaded_world 40 (RegularFile 50 InvalidJson))))))).
       reflexivity. }
  - destruct (proj1 (proj2 (staleness_decides_reload
                              (loaded_world 40 (RegularFile 50 InvalidJson))))
                    three_files 40%Z eq_refl eq_refl) as (Hiff & _ & _).
    apply Hiff. exists 50%Z. split; [reflexivity|lia].
  - destruct (proj1 (proj2 (staleness_decides_reload
                              (loaded_world 60 (RegularFile 50 InvalidJson))))
                    three_files 60%Z eq_refl eq_refl) as (Hiff & _ & _).
    intros H. apply Hiff in H. destruct H as (modified & Hm & Hlt).
    vm_compute in Hm. injection Hm as <-. lia.
  - destruct (proj1 (proj2 (staleness_decides_reload
                              (loaded_world 40 NoSuchPath)))
                    three_files 40%Z eq_refl eq_refl) as (_ & Hnone & _).
    apply Hnone. reflexivity.
  - apply (proj1 (staleness_decides_reload (fresh_world NoSuchPath))).
    left. reflexivity.
Defined.

Lemma error_policy_on_invalid_document :
  Service.find_dependency_hotspots 0 (fresh_world (RegularFile 7 InvalidJson))
  = (Raise (ValueError "Invalid limit parameter"),
     tick (fresh_world (RegularFile 7 InvalidJson)), [])
  /\ result_of (Service.search_dependencies
                  "branch" (fresh_world (RegularFile 7 InvalidJson)))
     = Raise (AnalysisError "Failed to search dependencies"
                (RepositoryError "Invalid JSON in analysis file"
                                 JSONDecodeError)).
Proof.
  pose proof (validation_first_then_wrapped_failures
                (fresh_world (RegularFile 7 InvalidJson)))
    as (Hhotspots & _ & Hsearch & _).
  split.
  - apply (Hhotspots 0%Z); [discriminate|reflexivity].
  - apply (Hsearch "branch"); reflexivity.
Defined.

(* ------------------------------------------------------------------ *)
(** ** The enumeration and its values *)

Lemma of_value_inv (v : pyval) (t : DependencyType) :
  DepType.of_value v = Ok t -> v = PStr (DepType.value t).
Proof.
  destruct v; try discriminate. unfold DepType.of_value.
  destruct (DepType.lookup s) as [t'|] eqn:E; [|discriminate].
  intros [= <-]. unfold DepType.lookup in E.
  apply find_some in E as [_ E]. apply String.eqb_eq in E. now subst.
Qed.

Lemma every_member_listed (t : DependencyType) : In t DepType.members.
Proof. destruct t; simpl; tauto. Qed.

Lemma of_value_rejects (v : pyval) :
  (forall t, v <> PStr (DepType.value t)) ->
  DepType.of_value v = Raise (ValueError "not a valid DependencyType").
Proof.
  intros Hno. destruct v; try reflexivity.
  unfold DepType.of_value.
  destruct (DepType.lookup s) as [t|] eqn:E; [|reflexivity].
  exfalso. apply (Hno t). f_equal.
  unfold DepType.lookup in E. apply find_some in E as [_ E].
  apply String.eqb_eq in E. now subst.
Qed.

(** X1.  [DependencyType(v)] succeeds exactly on the string values of the
    seven members, and gives the member whose value it is; on every other
    value, of whatever type, it raises [ValueError]. *)
Theorem dependency_type_of_its_value_only (v : pyval) :
  (forall t, DepType.of_value v = Ok t <-> v = PStr (DepType.value t))
  /\ ((forall t, v <> PStr (DepType.value t)) ->
      DepType.of_value v = Raise (ValueError "not a valid DependencyType")).
Proof.
  split.
  - intros t. split; [apply of_value_inv|].
    intros ->. apply of_value_value.
  - apply of_value_rejects.
Qed.

(** X2.  The standard validation accepts a dependency type string exactly
    when the enumeration has a member of that value, that is, exactly when
    [DependencyType(s)] would succeed. *)
Theorem standard_validation_accepts_member_values (s : string) :
  validate_dependency_type StandardValidationService s = true
  <-> exists t, DepType.of_value (PStr s) = Ok t.
Proof.
  cbn [validate_dependency_type StandardValidationService].
  unfold StandardValidation.VALID_DEPENDENCY_TYPES.
  rewrite existsb_exists. split.
  - intros (x & Hin & Hx). apply in_map_iff in Hin as (t & <- & _).
    apply String.eqb_eq in Hx. subst. exists t. apply of_value_value.
  - intros (t & Ht). apply of_value_inv in Ht. injection Ht as ->.
    exists (DepType.value t). split; [|apply String.eqb_refl].
    apply in_map. apply every_member_listed.
Qed.

(* ------------------------------------------------------------------ *)
(** ** What [from_dict] accepts *)

Lemma omap_ok_forall {A B} (f : A -> outcome B) (P : B -> bool)
      (l : list A) (l' : list B) :
  (forall x y, f x = Ok y -> P y = true) ->
  omap f l = Ok l' -> forallb P l' = true.
Proof.
  intros Hf. revert l'. induction l as [|x l IH]; intros l'; simpl.
  - now intros [= <-].
  - destruct (f x) as [y|] eqn:Ey; [|discriminate].
    destruct (omap f l) as [ys|]; [|discriminate].
    intros [= <-]. simpl. rewrite (Hf _ _ Ey). now apply IH.
Qed.

Lemma omap_length {A B} (f : A -> outcome B) (l : list A) (l' : list B) :
  omap f l = Ok l' -> List.length l' = List.length l.
Proof.
  revert l'. induction l as [|x l IH]; intros l'; simpl.
  - now intros [= <-].
  - destruct (f x); [|discriminate].
    destruct (omap f l); [|discriminate].
    intros [= <-]. simpl. f_equal. now apply IH.
Qed.

(** Going through the cases of a computation that ended well. *)
Ltac invert_ok H :=
  unfold obind in H;
  repeat match type of H with
         | context [match ?x with _ => _ end] =>
             destruct x eqn:?; try discriminate H
         end.

Lemma dependency_from_dict_valid (data : pyval) (d : Dependency.t) :
  Dependency.from_dict data = Ok d -> Dependency.valid d = true.
Proof.
  unfold Dependency.from_dict, Dependency.construct, Dependency.post_init.
  intros H. invert_ok H. injection H as <-.
  unfold Dependency.valid.
  cbn [Dependency.line Dependency.context] in *.
  repeat match goal with
         | E : lt_zero _ = _ |- _ => rewrite E; clear E
         | E : PyStr.blank _ = _ |- _ => rewrite E; clear E
         end.
  reflexivity.
Qed.

Lemma file_from_dict_valid (data : pyval) (f : FileAnalysis.t) :
  FileAnalysis.from_dict data = Ok f -> FileAnalysis.valid f = true.
Proof.
  unfold FileAnalysis.from_dict.
  intros H. unfold obind in H.
  destruct (dot_get data "dependencies"); [|discriminate].
  destruct (iterate _); [|discriminate].
  destruct (omap Dependency.from_dict a0) as [deps|] eqn:Ed; [|discriminate].
  apply (omap_ok_forall _ Dependency.valid) in Ed;
    [|apply dependency_from_dict_valid].
  unfold FileAnalysis.construct, FileAnalysis.post_init in H.
  cbn [FileAnalysis.file_path FileAnalysis.relative_path] in H.
  invert_ok H;
    injection H as <-; unfold FileAnalysis.valid;
    cbn [FileAnalysis.file_path FileAnalysis.relative_path
         FileAnalysis.dependencies];
    rewrite Ed;
    repeat match goal with
           | E : PyStr.blank _ = false |- _ => rewrite E; clear E
           end;
    reflexivity.
Qed.

Lemma metadata_from_dict_valid (data : pyval) (m : AnalysisMetadata.t) :
  AnalysisMetadata.from_dict data = Ok m -> AnalysisMetadata.valid m = true.
Proof.
  unfold AnalysisMetadata.from_dict, AnalysisMetadata.post_init.
  intros H. invert_ok H. injection H as <-.
  unfold AnalysisMetadata.valid.
  cbn [AnalysisMetadata.analysis_time_seconds
       AnalysisMetadata.total_files_analyzed] in *.
  repeat match goal with
         | E : lt_zero _ = _ |- _ => rewrite E; clear E
         end.
  reflexivity.
Qed.

Lemma result_from_dict_valid (data : pyval) (r : AnalysisResult.t) :
  AnalysisResult.from_dict data = Ok r -> AnalysisResult.valid r = true.
Proof.
  unfold AnalysisResult.from_dict. intros H. unfold obind in H.
  destruct (dot_get data "files"); [|discriminate].
  destruct (iterate _); [|discriminate].
  destruct (omap FileAnalysis.from_dict a0) as [files|] eqn:Ef;
    [|discriminate].
  destruct (dot_get data "analysis_metadata"); [|discriminate].
  destruct (AnalysisMetadata.from_dict _) as [metadata|] eqn:Em;
    [|discriminate].
  injection H as <-. unfold AnalysisResult.valid.
  cbn [AnalysisResult.files AnalysisResult.metadata].
  apply andb_true_iff. split.
  - revert Ef. apply omap_ok_forall. apply file_from_dict_valid.
  - revert Em. apply metadata_from_dict_valid.
Qed.

Lemma result_round_trip (r : AnalysisResult.t) :
  AnalysisResult.valid r = true ->
  AnalysisResult.from_dict (AnalysisResult.to_dict r) = Ok r.
Proof.
  destruct r as [files metadata]. unfold AnalysisResult.valid.
  cbn [AnalysisResult.files AnalysisResult.metadata].
  intros H. apply andb_true_iff in H as [Hf Hm].
  unfold AnalysisResult.to_dict. rewrite result_from_dict_document.
  cbn [AnalysisResult.files AnalysisResult.metadata].
  rewrite omap_map.
  - unfold obind at 1. now rewrite metadata_round_trip.
  - intros f Hin. apply file_round_trip.
    rewrite forallb_forall in Hf. now apply Hf.
Qed.

(** X3.  Whatever [AnalysisResult.from_dict] builds passes the checks of
    all the constructors (no negative line, no blank context or path, no
    negative time or count), and is a fixed point of serialisation: its
    [to_dict] is read back as the same result.  This holds of every
    document that is read, whether its values have the types the
    dataclasses announce or not. *)
Theorem from_dict_builds_valid_results
        (data : pyval) (r : AnalysisResult.t) :
  AnalysisResult.from_dict data = Ok r ->
  AnalysisResult.valid r = true
  /\ AnalysisResult.from_dict (AnalysisResult.to_dict r) = Ok r.
Proof.
  intros H. apply result_from_dict_valid in H.
  split; [exact H|now apply result_round_trip].
Qed.

Lemma sparse_document_is_read :
  (AnalysisResult.from_dict sparse_document = Ok sparse_result
   /\ AnalysisResult.valid sparse_result = true
   /\ AnalysisResult.from_dict (AnalysisResult.to_dict sparse_result)
      = Ok sparse_result)
  /\ (AnalysisResult.from_dict loose_document = Ok loose_result
      /\ AnalysisResult.valid loose_result = true
      /\ AnalysisResult.from_dict (AnalysisResult.to_dict loose_result)
         = Ok loose_result).
Proof.
  split; (split; [reflexivity|]).
  - apply (from_dict_builds_valid_results sparse_document). reflexivity.
  - apply (from_dict_builds_valid_results loose_document). reflexivity.
Defined.

(* ------------------------------------------------------------------ *)
(** ** Keys a document must have, keys it may leave out *)

(** X4.  [Dependency.from_dict] on a dictionary: a missing ['type'],
    ['line'] or ['context'] raises [KeyError] for the first of them that
    is missing (the type is converted before the line is read); a type
    that is no member's value raises [ValueError]; with an integer line and
    a string context, a negative line and then a blank context raise
    [ValueError], and otherwise the dependency is built, ['details']
    defaulting to the empty dictionary; a line that is [True] or [False]
    is no negative number, and is kept as it is. *)
Theorem dependency_from_dict_requires_its_keys (d : list (string * pyval)) :
  (sget "type" d = None ->
   Dependency.from_dict (PDict d) = Raise (KeyError "type"))
  /\ (forall v,
        sget "type" d = Some v ->
        (forall t, v <> PStr (DepType.value t)) ->
        Dependency.from_dict (PDict d)
        = Raise (ValueError "not a valid DependencyType"))
  /\ (forall t,
        sget "type" d = Some (PStr (DepType.value t)) ->
        (sget "line" d = None ->
         Dependency.from_dict (PDict d) = Raise (KeyError "line"))
        /\ (forall ln,
              sget "line" d = Some ln ->
              sget "context" d = None ->
              Dependency.from_dict (PDict d) = Raise (KeyError "context"))
        /\ (forall z s,
              sget "line" d = Some (PInt z) ->
              sget "context" d = Some (PStr s) ->
              Dependency.from_dict (PDict d)
              = if (z <? 0)%Z then
                  Raise (ValueError "Line number must be non-negative")
                else if PyStr.blank s then
                  Raise (ValueError "Context cannot be empty")
                else
                  Ok (Dependency.mk t (PInt z) s
                        (or_default (sget "details" d) (PDict []))))
        /\ (forall b s,
              sget "line" d = Some (PBool b) ->
              sget "context" d = Some (PStr s) ->
              PyStr.blank s = false ->
              Dependency.from_dict (PDict d)
              = Ok (Dependency.mk t (PBool b) s
                      (or_default (sget "details" d) (PDict []))))).
Proof.
  unfold Dependency.from_dict, subscript, dot_get, obind.
  split; [|split].
  - now intros ->.
  - intros v -> Hno.
    now rewrite (of_value_rejects v Hno).
  - intros t ->. rewrite of_value_value. split; [|split; [|split]].
    + now intros ->.
    + now intros ln -> ->.
    + intros z s -> ->.
      unfold Dependency.construct, Dependency.post_init.
      cbn [Dependency.line Dependency.context lt_zero obind].
      destruct (z <? 0)%Z; [reflexivity|].
      now destruct (PyStr.blank s).
    + intros b s -> -> Hs.
      unfold Dependency.construct, Dependency.post_init.
      cbn [Dependency.line Dependency.context lt_zero obind].
      now rewrite Hs.
Qed.

Lemma dependency_with_negative_line :
  Dependency.from_dict
    (PDict [("type", PStr "instanceof"); ("line", PInt (-1));
            ("context", PStr "$x instanceof Branch")])
  = Raise (ValueError "Line number must be non-negative")
  /\ Dependency.from_dict
       (PDict [("type", PStr "instanceof"); ("context", PStr "x")])
     = Raise (KeyError "line").
Proof.
  split.
  - destruct (dependency_from_dict_requires_its_keys
                [("type", PStr "instanceof"); ("line", PInt (-1));
                 ("context", PStr "$x instanceof Branch")])
      as (_ & _ & H).
    destruct (H INSTANCEOF eq_refl) as (_ & _ & Hbuilt & _).
    exact (Hbuilt (-1)%Z "$x instanceof Branch" eq_refl eq_refl).
  - destruct (dependency_from_dict_requires_its_keys
                [("type", PStr "instanceof"); ("context", PStr "x")])
      as (_ & _ & H).
    destruct (H INSTANCEOF eq_refl) as (Hline & _).
    exact (Hline eq_refl).
Defined.

(** X5.  Optional keys.  A file read by [FileAnalysis.from_dict] has the
    document's ['file_path']; without ['relative_path'] its relative path
    is its file path, without ['dependencies'] it has none, without
    ['error'] it has no error, and the document's ['total_dependencies'] is
    not read: the count is the length of the list.  A result read without
    ['files'] has no file, and without ['analysis_metadata'] it has the
    default metadata.  A missing ['file_path'] raises [KeyError]. *)
Theorem from_dict_defaults_for_missing_keys :
  (forall d f,
      FileAnalysis.from_dict (PDict d) = Ok f ->
      sget "file_path" d = Some (PStr (FileAnalysis.file_path f))
      /\ (sget "relative_path" d = None ->
          FileAnalysis.relative_path f = FileAnalysis.file_path f)
      /\ (sget "dependencies" d = None -> FileAnalysis.dependencies f = [])
      /\ (sget "error" d = None -> FileAnalysis.error f = PNone)
      /\ (forall items,
            sget "dependencies" d = Some (PList items) ->
            FileAnalysis.total_dependencies f = List.length items))
  /\ (forall d r,
        AnalysisResult.from_dict (PDict d) = Ok r ->
        (sget "files" d = None -> AnalysisResult.files r = [])
        /\ (sget "analysis_metadata" d = None ->
            AnalysisResult.metadata r = default_metadata))
  /\ (forall d,
        sget "file_path" d = None ->
        sget "dependencies" d = None ->
        FileAnalysis.from_dict (PDict d) = Raise (KeyError "file_path")).
Proof.
  split; [|split].
  - intros d f H.
    unfold FileAnalysis.from_dict, subscript, dot_get, obind in H.
    destruct (iterate (or_default (sget "dependencies" d) (PList [])))
      as [items|] eqn:Ei; [|discriminate].
    destruct (omap Dependency.from_dict items) as [deps|] eqn:Ed;
      [|discriminate].
    destruct (sget "file_path" d) as [fp|] eqn:Ef; [|discriminate].
    unfold FileAnalysis.construct, FileAnalysis.post_init in H.
    destruct fp as [| | | |fp| |]; try discriminate.
    destruct (or_default (sget "relative_path" d) (PStr fp))
      as [| | | |rp| |] eqn:Er;
      try (destruct (PyStr.blank fp); discriminate).
    cbn [FileAnalysis.file_path FileAnalysis.relative_path] in H.
    destruct (PyStr.blank fp); [discriminate|].
    destruct (PyStr.blank rp); [discriminate|].
    injection H as <-.
    cbn [FileAnalysis.file_path FileAnalysis.relative_path
         FileAnalysis.dependencies FileAnalysis.error].
    split; [reflexivity|]. split; [|split; [|split]].
    + intros Hr. rewrite Hr in Er. cbn [or_default] in Er.
      now injection Er as ->.
    + intros Hn. rewrite Hn in Ei. cbn in Ei. injection Ei as <-.
      cbn in Ed. now injection Ed as <-.
    + intros He. now rewrite He.
    + intros items0 Hs. rewrite Hs in Ei. cbn in Ei. injection Ei as <-.
      unfold FileAnalysis.total_dependencies.
      cbn [FileAnalysis.dependencies]. now apply omap_length in Ed.
  - intros d r H.
    unfold AnalysisResult.from_dict, dot_get, obind in H.
    destruct (iterate (or_default (sget "files" d) (PList [])))
      as [items|] eqn:Ei; [|discriminate].
    destruct (omap FileAnalysis.from_dict items) as [files|] eqn:Ef;
      [|discriminate].
    destruct (AnalysisMetadata.from_dict
                (or_default (sget "analysis_metadata" d) (PDict [])))
      as [metadata|] eqn:Em; [|discriminate].
    injection H as <-. cbn [AnalysisResult.files AnalysisResult.metadata].
    split.
    + intros Hn. rewrite Hn in Ei. cbn in Ei. injection Ei as <-.
      cbn in Ef. now injection Ef as <-.
    + intros Hn. rewrite Hn in Em. cbn in Em. now injection Em as <-.
  - intros d Hf Hd.
    unfold FileAnalysis.from_dict, subscript, dot_get, obind.
    rewrite Hd, Hf. reflexivity.
Qed.

Lemma defaults_in_the_sparse_document :
  AnalysisResult.from_dict sparse_document = Ok sparse_result
  /\ AnalysisResult.metadata sparse_result = default_metadata
  /\ FileAnalysis.from_dict (PDict [("relative_path", PStr "src/A.php")])
     = Raise (KeyError "file_path").
Proof.
  split; [reflexivity|]. split.
  - apply (proj2 (proj1 (proj2 from_dict_defaults_for_missing_keys)
                        _ sparse_result
                        (eq_refl : AnalysisResult.from_dict sparse_document
                                   = Ok sparse_result))).
    reflexivity.
  - apply (proj2 (proj2 from_dict_defaults_for_missing_keys)); reflexivity.
Defined.

(* ------------------------------------------------------------------ *)
(** ** Files by dependency type *)

Lemma dependency_types_iff (f : FileAnalysis.t) (t : DependencyType) :
  FileAnalysis.dependency_types f t = true
  <-> exists d, In d (FileAnalysis.dependencies f) /\ Dependency.type d = t.
Proof.
  unfold FileAnalysis.dependency_types. rewrite existsb_exists.
  split; intros (d & Hin & Hd); exists d; split; trivial;
    now apply deptype_eqb_eq.
Qed.

(** X6.  [get_files_by_dependency_type] returns, in file order, exactly
    the files of the result that have a dependency of the type: the files
    for which [FileAnalysis.get_dependencies_by_type] is not empty, which
    are the owners of the dependencies the service's
    [get_dependencies_by_type] reports; every one of them is among the
    files with dependencies. *)
Theorem get_files_by_dependency_type_owners
        (r : AnalysisResult.t) (t : DependencyType) :
  (forall f,
      In f (AnalysisResult.get_files_by_dependency_type r t)
      <-> In f (AnalysisResult.files r)
          /\ exists d, In d (FileAnalysis.dependencies f)
                       /\ Dependency.type d = t)
  /\ (forall f,
        In f (AnalysisResult.get_files_by_dependency_type r t)
        <-> exists d, In (f, d) (dependencies_of_type r t))
  /\ AnalysisResult.get_files_by_dependency_type r t
     = filter (fun f =>
                 0 <? List.length (FileAnalysis.get_dependencies_by_type f t))
              (AnalysisResult.files r)
  /\ incl (AnalysisResult.get_files_by_dependency_type r t)
          (AnalysisResult.files_with_dependencies r).
Proof.
  assert (Hin : forall f,
             In f (AnalysisResult.get_files_by_dependency_type r t)
             <-> In f (AnalysisResult.files r)
                 /\ exists d, In d (FileAnalysis.dependencies f)
                              /\ Dependency.type d = t).
  { intros f. unfold AnalysisResult.get_files_by_dependency_type.
    rewrite filter_In. now rewrite dependency_types_iff. }
  split; [exact Hin|]. split; [|split].
  - intros f. rewrite Hin. split.
    + intros (Hf & d & Hd & Ht). exists d.
      now apply in_dependencies_of_type.
    + intros (d & Hd). apply in_dependencies_of_type in Hd. firstorder.
  - unfold AnalysisResult.get_files_by_dependency_type.
    apply filter_ext. intros f.
    unfold FileAnalysis.dependency_types, FileAnalysis.get_dependencies_by_type.
    induction (FileAnalysis.dependencies f) as [|d l IH];
      [reflexivity|].
    simpl. now destruct (DepType.eqb (Dependency.type d) t).
  - intros f Hf. apply Hin in Hf as (Hf & d & Hd & _).
    unfold AnalysisResult.files_with_dependencies. apply filter_In.
    split; [exact Hf|].
    unfold FileAnalysis.has_dependencies, FileAnalysis.total_dependencies.
    destruct (FileAnalysis.dependencies f); [contradiction|reflexivity].
Qed.

(* ------------------------------------------------------------------ *)
(** ** The domain's hotspots *)

(** X7.  [AnalysisResult.get_hotspots] for a positive limit, however
    large: it returns min(limit, number of files with dependencies) files;
    the first one has at least as many dependencies as every file of the
    result; nothing is returned only when no file has dependencies; and a
    limit at least the number of files with dependencies returns them all. *)
Theorem get_hotspots_head_and_length (r : AnalysisResult.t) (limit : Z) :
  (0 < limit)%Z ->
  exists hotspots,
    AnalysisResult.get_hotspots r limit = Ok hotspots
    /\ List.length hotspots
       = Nat.min (Z.to_nat limit)
                 (List.length (AnalysisResult.files_with_dependencies r))
    /\ (forall first g,
          hd_error hotspots = Some first ->
          In g (AnalysisResult.files r) ->
          FileAnalysis.total_dependencies g
          <= FileAnalysis.total_dependencies first)
    /\ (hotspots = [] <-> AnalysisResult.files_with_dependencies r = [])
    /\ ((Z.of_nat (List.length (AnalysisResult.files_with_dependencies r))
         <= limit)%Z ->
        Permutation hotspots (AnalysisResult.files_with_dependencies r)).
Proof.
  intros Hpos.
  destruct (get_hotspots_spec r limit Hpos) as (ranked & Hr & Hp & Hd & _).
  exists (firstn (Z.to_nat limit) ranked).
  pose proof (Permutation_length Hp) as Hlen.
  split; [exact Hr|]. split; [|split; [|split]].
  - rewrite length_firstn. now rewrite Hlen.
  - intros first g Hhd Hg.
    destruct (Z.to_nat limit) as [|n] eqn:En; [lia|].
    destruct ranked as [|x rest]; [discriminate|].
    simpl in Hhd. injection Hhd as ->.
    destruct (FileAnalysis.has_dependencies g) eqn:Eg.
    + assert (Hin : In g (first :: rest)).
      { apply (Permutation_in _ (Permutation_sym Hp)).
        apply filter_In. now split. }
      destruct Hin as [<-|Hin]; [lia|].
      unfold Descending in Hd. apply StronglySorted_inv in Hd as [_ Hall].
      rewrite Forall_forall in Hall. now apply Hall.
    + unfold FileAnalysis.has_dependencies in Eg.
      apply Nat.ltb_ge in Eg. lia.
  - destruct (Z.to_nat limit) as [|n] eqn:En; [lia|]. split.
    + intros H. destruct ranked; [|discriminate].
      apply Permutation_nil. now apply Permutation_sym in Hp.
    + intros H. rewrite H in Hp. apply Permutation_sym in Hp.
      apply Permutation_nil in Hp. now subst.
  - intros Hle. rewrite firstn_all2; [exact Hp|]. lia.
Qed.

Lemma hotspots_of_three_files :
  (0 < 10)%Z
  /\ exists hotspots,
       AnalysisResult.get_hotspots three_files 10 = Ok hotspots
       /\ List.length hotspots
          = Nat.min (Z.to_nat 10)
              (List.length (AnalysisResult.files_with_dependencies three_files))
       /\ (forall first g,
             hd_error hotspots = Some first ->
             In g (AnalysisResult.files three_files) ->
             FileAnalysis.total_dependencies g
             <= FileAnalysis.total_dependencies first)
       /\ (hotspots = []
           <-> AnalysisResult.files_with_dependencies three_files = [])
       /\ ((Z.of_nat
              (List.length (AnalysisResult.files_with_dependencies three_files))
            <= 10)%Z ->
           Permutation hotspots
                       (AnalysisResult.files_with_dependencies three_files)).
Proof.
  split; [lia|].
  apply (get_hotspots_head_and_length three_files 10). lia.
Defined.

(* ------------------------------------------------------------------ *)
(** ** The search and the case of the query *)

Lemma append_assoc (a b c : string) :
  ((a ++ b) ++ c = a ++ b ++ c)%string.
Proof. induction a as [|x a IH]; simpl; [reflexivity|now rewrite IH]. Qed.

Lemma substring_trans (a b c : string) :
  Substring a b -> Substring b c -> Substring a c.
Proof.
  intros (pre & post & ->) (pre' & post' & ->).
  exists (pre' ++ pre)%string, (post ++ post')%string.
  now rewrite !append_assoc.
Qed.

Lemma matches_shorter_query (query1 query2 : string) (f : FileAnalysis.t) :
  Substring (PyStr.lower query2) (PyStr.lower query1) ->
  FileMatches query1 f -> FileMatches query2 f.
Proof.
  unfold FileMatches, MatchesIgnoringCase.
  intros Hsub [H|(dep & Hin & H)].
  - left. now apply (substring_trans _ _ _ Hsub).
  - right. exists dep. split; [exact Hin|].
    now apply (substring_trans _ _ _ Hsub).
Qed.

(** X8.  The search sees its query through the lower-case form and the
    test of the trimmed length only: two queries with the same lower-case
    form that are both long enough to be searched, or both too short, give
    the same files.  And a query that is long enough finds every file that
    a query containing it, case ignored, finds: making the query shorter
    never loses a file. *)
Theorem search_sees_the_lower_case_query
        (r : AnalysisResult.t) (query1 query2 : string) :
  (PyStr.lower query1 = PyStr.lower query2 ->
   (trimmed_length query1 <? 2) = (trimmed_length query2 <? 2) ->
   AnalysisResult.search_files r query1
   = AnalysisResult.search_files r query2)
  /\ (Substring (PyStr.lower query2) (PyStr.lower query1) ->
      2 <= trimmed_length query2 ->
      incl (AnalysisResult.search_files r query1)
           (AnalysisResult.search_files r query2)).
Proof.
  split.
  - intros Hlower Hlen.
    unfold AnalysisResult.search_files. unfold trimmed_length in Hlen.
    now rewrite Hlen, Hlower.
  - intros Hsub Hlong f Hf.
    destruct (Nat.lt_ge_cases (trimmed_length query1) 2) as [Hshort|Hlong1].
    { now rewrite (search_files_short r query1 Hshort) in Hf. }
    rewrite (search_files_long r query1 Hlong1) in Hf.
    rewrite (search_files_long r query2 Hlong).
    apply filter_In in Hf as [Hin Hf]. apply filter_In. split; [exact Hin|].
    apply andb_true_iff in Hf as [Hdeps Hmatch].
    apply andb_true_iff. split; [exact Hdeps|].
    apply search_match_iff.
    apply (matches_shorter_query query1 query2 f Hsub).
    now apply search_match_iff.
Qed.

Lemma search_in_upper_and_lower_case :
  AnalysisResult.search_files three_files "BRANCH::find"
  = AnalysisResult.search_files three_files "Branch::Find"
  /\ AnalysisResult.search_files three_files "Branch::Find" = [file_b]
  /\ incl (AnalysisResult.search_files three_files "Branch::Find")
          (AnalysisResult.search_files three_files "FIND")
  /\ AnalysisResult.search_files three_files "FIND" = [file_b].
Proof.
  split; [|split; [reflexivity|split; [|reflexivity]]].
  - apply (proj1 (search_sees_the_lower_case_query
                    three_files "BRANCH::find" "Branch::Find"));
      reflexivity.
  - apply (proj2 (search_sees_the_lower_case_query
                    three_files "Branch::Find" "FIND")).
    + exists "branch::", "". reflexivity.
    + vm_compute. lia.
Defined.

(* ------------------------------------------------------------------ *)
(** ** Consistency of the summary statistics *)

Lemma count_dependency_sum (dist : list (DependencyType * nat))
      (dep : Dependency.t) :
  sum_of_counts (AnalysisResult.count_dependency dist dep)
  = S (sum_of_counts dist).
Proof.
  unfold AnalysisResult.count_dependency, sum_of_counts.
  generalize (Dependency.type dep). intros t.
  induction dist as [|[k n] dist IH]; [reflexivity|].
  cbn [PyDict.get PyDict.set].
  destruct (DepType.eqb t k).
  - cbn. lia.
  - cbn [map snd]. unfold list_sum in *. cbn [fold_right]. rewrite IH. lia.
Qed.

Lemma count_loop_sum (deps : list Dependency.t)
      (dist : list (DependencyType * nat)) :
  sum_of_counts (fold_left AnalysisResult.count_dependency deps dist)
  = sum_of_counts dist + List.length deps.
Proof.
  revert dist. induction deps as [|d deps IH]; intros dist; simpl; [lia|].
  rewrite IH, count_dependency_sum. lia.
Qed.

Lemma length_flat_dependencies (files : list FileAnalysis.t) :
  List.length (flat_map FileAnalysis.dependencies files)
  = list_sum (map (fun f => List.length (FileAnalysis.dependencies f)) files).
Proof.
  induction files as [|f files IH]; [reflexivity|].
  simpl. now rewrite length_app, IH.
Qed.

Lemma distribution_sum (r : AnalysisResult.t) :
  sum_of_counts (AnalysisResult.dependency_type_distribution r)
  = AnalysisResult.total_dependencies r.
Proof.
  unfold AnalysisResult.dependency_type_distribution,
    AnalysisResult.total_dependencies.
  rewrite distribution_flat, count_loop_sum, total_dependencies_sum.
  now rewrite length_flat_dependencies.
Qed.

Lemma sset_new {V} (k : string) (v : V) (d : list (string * V)) :
  smem k d = false -> sset k v d = d ++ [(k, v)].
Proof.
  induction d as [|[k' v'] d IH]; [reflexivity|].
  unfold PyDict.mem. cbn [PyDict.get PyDict.set].
  destruct (String.eqb k k'); [discriminate|].
  intros H. simpl. f_equal. now apply IH.
Qed.

Lemma type_counts_of_distinct (dist : list (DependencyType * nat))
      (acc : list (string * nat)) :
  NoDup (PyDict.keys dist) ->
  (forall t, In t (PyDict.keys dist) -> smem (DepType.value t) acc = false) ->
  fold_left (fun acc item => sset (DepType.value (fst item)) (snd item) acc)
            dist acc
  = acc ++ map (fun item => (DepType.value (fst item), snd item)) dist.
Proof.
  revert acc. induction dist as [|[t n] dist IH]; intros acc Hnd Hnew.
  - simpl. now rewrite app_nil_r.
  - cbn [fold_left fst snd map]. cbn [PyDict.keys map fst] in Hnd, Hnew.
    apply NoDup_cons_iff in Hnd as [Hnot Hnd].
    rewrite IH;
      [rewrite sset_new by (apply Hnew; now left); now rewrite <- app_assoc
      |exact Hnd|].
    intros t' Hin. rewrite smem_sset, Hnew by (now right).
    simpl. apply String.eqb_neq.
    intros Heq. apply value_injective in Heq. now subst.
Qed.

Lemma type_counts_map (dist : list (DependencyType * nat)) :
  NoDup (PyDict.keys dist) ->
  SummaryStatistics.type_counts dist
  = map (fun item => (DepType.value (fst item), snd item)) dist.
Proof.
  intros Hnd. unfold SummaryStatistics.type_counts.
  now rewrite type_counts_of_distinct.
Qed.

Lemma tget_in (t : DependencyType) (n : nat)
      (dist : list (DependencyType * nat)) :
  NoDup (PyDict.keys dist) -> In (t, n) dist ->
  PyDict.get DepType.eqb t dist = Some n.
Proof.
  induction dist as [|[k m] dist IH]; [contradiction|].
  cbn [PyDict.keys map fst PyDict.get]. intros Hnd Hin.
  apply NoDup_cons_iff in Hnd as [Hnot Hnd].
  destruct Hin as [[= -> ->]|Hin].
  - now rewrite (proj2 (deptype_eqb_eq t t) eq_refl).
  - destruct (DepType.eqb t k) eqn:E; [|now apply IH].
    apply deptype_eqb_eq in E. subst. exfalso. apply Hnot.
    now apply (in_map fst) in Hin.
Qed.

Lemma list_sum_cons (n : nat) (l : list nat) :
  list_sum (n :: l) = n + list_sum l.
Proof. reflexivity. Qed.

Lemma files_with_dependencies_le_sum (files : list FileAnalysis.t) :
  List.length (filter FileAnalysis.has_dependencies files)
  <= list_sum (map (fun f => List.length (FileAnalysis.dependencies f)) files).
Proof.
  induction files as [|f files IH]; [simpl; lia|].
  cbn [filter map]. rewrite list_sum_cons.
  unfold FileAnalysis.has_dependencies at 1, FileAnalysis.total_dependencies.
  destruct (0 <? List.length (FileAnalysis.dependencies f)) eqn:E.
  - apply Nat.ltb_lt in E. cbn [List.length]. lia.
  - lia.
Qed.

(** X9.  The summary statistics are consistent with one another, for every
    analysis result: the per-type counts are the entries of the
    distribution under the types' values, each is positive, and they add
    up to the total number of dependencies; the number of files with
    dependencies is at most the number of files and at most the number of
    dependencies, and is zero exactly when there is no dependency. *)
Theorem summary_statistics_are_consistent (r : AnalysisResult.t) :
  let s := SummaryStatistics.from_analysis_result r in
  SummaryStatistics.dependency_type_counts s
  = map (fun item => (DepType.value (fst item), snd item))
        (AnalysisResult.dependency_type_distribution r)
  /\ sum_of_counts (SummaryStatistics.dependency_type_counts s)
     = SummaryStatistics.total_dependencies s
  /\ Forall (fun item => 0 < snd item)
            (SummaryStatistics.dependency_type_counts s)
  /\ SummaryStatistics.files_with_dependencies s
     <= SummaryStatistics.total_files s
  /\ SummaryStatistics.files_with_dependencies s
     <= SummaryStatistics.total_dependencies s
  /\ (SummaryStatistics.files_with_dependencies s = 0
      <-> SummaryStatistics.total_dependencies s = 0).
Proof.
  intros s. subst s.
  cbn [SummaryStatistics.from_analysis_result
       SummaryStatistics.dependency_type_counts
       SummaryStatistics.total_dependencies
       SummaryStatistics.files_with_dependencies
       SummaryStatistics.total_files].
  pose proof (distribution_nodup r) as Hnd.
  rewrite (type_counts_map _ Hnd).
  assert (Hle : List.length (AnalysisResult.files_with_dependencies r)
                <= AnalysisResult.total_dependencies r).
  { unfold AnalysisResult.total_dependencies,
      AnalysisResult.files_with_dependencies.
    rewrite total_dependencies_sum. apply files_with_dependencies_le_sum. }
  split; [reflexivity|]. split; [|split; [|split; [|split]]].
  - unfold sum_of_counts. rewrite map_map. cbn [snd].
    apply distribution_sum.
  - apply Forall_forall. intros [key n] Hin.
    apply in_map_iff in Hin as ([t m] & [= <- <-] & Hin). cbn [fst snd].
    apply (tget_in _ _ _ Hnd) in Hin. rewrite distribution_spec in Hin.
    destruct (occurrences r t =? 0) eqn:E; [discriminate|].
    injection Hin as <-. apply Nat.eqb_neq in E. lia.
  - unfold AnalysisResult.files_with_dependencies, AnalysisResult.total_files.
    apply filter_length_le.
  - exact Hle.
  - split; [|lia].
    unfold AnalysisResult.files_with_dependencies,
      AnalysisResult.total_dependencies.
    rewrite total_dependencies_sum. simpl.
    induction (AnalysisResult.files r) as [|f files IH]; [reflexivity|].
    cbn [filter map]. rewrite list_sum_cons.
    unfold FileAnalysis.has_dependencies at 1,
      FileAnalysis.total_dependencies.
    destruct (0 <? List.length (FileAnalysis.dependencies f)) eqn:E.
    + discriminate.
    + apply Nat.ltb_ge in E. intros H. rewrite (IH H). lia.
Qed.

(* ------------------------------------------------------------------ *)
(** ** Single operations of the in-memory cache *)

Lemma sremove_absent {V} (k : string) (d : list (string * V)) :
  smem k d = false -> sremove k d = d.
Proof.
  induction d as [|[k' v'] d IH]; [reflexivity|].
  unfold PyDict.mem. cbn [PyDict.get PyDict.remove].
  destruct (String.eqb k k'); [discriminate|].
  intros H. f_equal. now apply IH.
Qed.

Lemma smem_false_get {V} (k : string) (d : list (string * V)) :
  smem k d = false <-> sget k d = None.
Proof. unfold PyDict.mem. destruct (sget k d); split; congruence. Qed.

(** X10.  What [set] stores, [get] returns: in a cache whose two
    dictionaries hold the same keys, [set(key, value)] succeeds, whether it
    has to evict or not and whatever the capacity, after which the key
    exists, its access time is the reading [set] took, and [get(key)]
    returns the value and stamps the key with its own reading. *)
Theorem set_then_get_returns_the_value
        (V : Type) (c : InMemoryCacheService.t V)
        (key : string) (value : V) (now : Z) :
  keys_agree c ->
  exists c',
    InMemoryCacheService.set key value now c = (Ok tt, c')
    /\ InMemoryCacheService.exists_ key c' = true
    /\ sget key (InMemoryCacheService.access_times c') = Some now
    /\ (forall later,
          fst (InMemoryCacheService.get key later c') = Some value
          /\ sget key (InMemoryCacheService.access_times
                         (snd (InMemoryCacheService.get key later c')))
             = Some later).
Proof.
  intros Hk. exists (after_set key value now c).
  split; [now apply set_agree|].
  assert (Hm : smem key (InMemoryCacheService.cache
                           (after_set key value now c)) = true).
  { unfold after_set. cbn [InMemoryCacheService.cache].
    rewrite smem_sset, String.eqb_refl. apply orb_true_r. }
  split; [exact Hm|]. split.
  - unfold after_set. cbn [InMemoryCacheService.access_times].
    apply sget_sset_eq.
  - intros later. unfold InMemoryCacheService.get. rewrite Hm.
    cbn [fst snd InMemoryCacheService.access_times]. split.
    + unfold after_set. cbn [InMemoryCacheService.cache].
      apply sget_sset_eq.
    + apply sget_sset_eq.
Qed.

Lemma two_keys_agree : keys_agree two_keys.
Proof. reflexivity. Defined.

Lemma two_keys_distinct : keys_distinct two_keys.
Proof.
  unfold keys_distinct. cbn.
  repeat constructor; cbn; intuition discriminate.
Defined.

Lemma set_then_get_in_two_keys :
  exists c',
    InMemoryCacheService.set "c" 3 40%Z two_keys = (Ok tt, c')
    /\ InMemoryCacheService.exists_ "c" c' = true
    /\ sget "c" (InMemoryCacheService.access_times c') = Some 40%Z
    /\ (forall later,
          fst (InMemoryCacheService.get "c" later c') = Some 3
          /\ sget "c" (InMemoryCacheService.access_times
                         (snd (InMemoryCacheService.get "c" later c')))
             = Some later).
Proof.
  apply (set_then_get_returns_the_value nat two_keys "c" 3 40%Z).
  exact two_keys_agree.
Defined.

(** X11.  [delete] removes the key and nothing else: in a cache whose
    dictionaries hold the same keys, none twice, it never raises; the key
    no longer exists and [get] of it returns [None]; every other key keeps
    its value and its access time; the two dictionaries still hold the
    same keys; and deleting a key that is not held changes nothing. *)
Theorem delete_removes_the_key_only
        (V : Type) (c : InMemoryCacheService.t V) (key : string) :
  keys_agree c -> keys_distinct c ->
  exists c',
    InMemoryCacheService.delete key c = (Ok tt, c')
    /\ InMemoryCacheService.exists_ key c' = false
    /\ (forall now, fst (InMemoryCacheService.get key now c') = None)
    /\ (forall k, k <> key ->
          sget k (InMemoryCacheService.cache c')
          = sget k (InMemoryCacheService.cache c)
          /\ sget k (InMemoryCacheService.access_times c')
             = sget k (InMemoryCacheService.access_times c))
    /\ keys_agree c' /\ keys_distinct c'
    /\ (InMemoryCacheService.exists_ key c = false -> c' = c).
Proof.
  intros Hk Hd. rewrite (delete_agree c key Hk).
  unfold InMemoryCacheService.exists_.
  destruct (smem key (InMemoryCacheService.cache c)) eqn:E.
  - exists (without key c). split; [reflexivity|].
    assert (Hgone : smem key (InMemoryCacheService.cache (without key c))
                    = false).
    { unfold without. cbn [InMemoryCacheService.cache].
      rewrite (smem_sremove _ _ _ Hd), String.eqb_refl.
      apply andb_false_r. }
    split; [exact Hgone|]. split; [|split; [|split; [|split]]].
    + intros now. unfold InMemoryCacheService.get. now rewrite Hgone.
    + intros k Hne. unfold without.
      cbn [InMemoryCacheService.cache InMemoryCacheService.access_times].
      now rewrite !sget_sremove_ne.
    + now apply without_agree.
    + now apply without_distinct.
    + discriminate.
  - exists c. split; [reflexivity|]. split; [exact E|].
    split; [|split; [|split; [|split]]]; trivial.
    + intros now. unfold InMemoryCacheService.get. now rewrite E.
    + now intros k _.
Qed.

Lemma delete_in_two_keys :
  exists c',
    InMemoryCacheService.delete "a" two_keys = (Ok tt, c')
    /\ InMemoryCacheService.exists_ "a" c' = false
    /\ (forall now, fst (InMemoryCacheService.get "a" now c') = None)
    /\ (forall k, k <> "a" ->
          sget k (InMemoryCacheService.cache c')
          = sget k (InMemoryCacheService.cache two_keys)
          /\ sget k (InMemoryCacheService.access_times c')
             = sget k (InMemoryCacheService.access_times two_keys))
    /\ keys_agree c' /\ keys_distinct c'
    /\ (InMemoryCacheService.exists_ "a" two_keys = false -> c' = two_keys).
Proof.
  apply (delete_removes_the_key_only nat two_keys "a").
  - exact two_keys_agree.
  - exact two_keys_distinct.
Defined.

(** X12.  [get] changes nothing but one access time: the cached values,
    their order and the capacity are as before; it returns what the cache
    holds under the key, [None] for a key that is not held, in which case
    the cache is unchanged altogether; the access time of every other key
    is as before, and that of a held key is the reading taken. *)
Theorem get_touches_one_access_time_only
        (V : Type) (c : InMemoryCacheService.t V) (key : string) (now : Z) :
  let c' := snd (InMemoryCacheService.get key now c) in
  InMemoryCacheService.cache c' = InMemoryCacheService.cache c
  /\ InMemoryCacheService.max_size c' = InMemoryCacheService.max_size c
  /\ fst (InMemoryCacheService.get key now c)
     = sget key (InMemoryCacheService.cache c)
  /\ (InMemoryCacheService.exists_ key c = false -> c' = c)
  /\ (InMemoryCacheService.exists_ key c = true ->
      sget key (InMemoryCacheService.access_times c') = Some now)
  /\ (forall k, k <> key ->
        sget k (InMemoryCacheService.access_times c')
        = sget k (InMemoryCacheService.access_times c)).
Proof.
  unfold InMemoryCacheService.get, InMemoryCacheService.exists_.
  destruct (smem key (InMemoryCacheService.cache c)) eqn:E;
    cbn [fst snd InMemoryCacheService.cache InMemoryCacheService.max_size
         InMemoryCacheService.access_times].
  - repeat split; try discriminate.
    + intros _. apply sget_sset_eq.
    + intros k Hne. now apply sget_sset_ne.
  - apply smem_false_get in E. rewrite E. repeat split; discriminate.
Qed.

(** X13.  Overwriting evicts nothing: [set] of a key the cache holds
    succeeds even when the cache is full, keeps every key in its place,
    gives the key its new value and leaves the other values alone. *)
Theorem overwriting_a_key_evicts_nothing
        (V : Type) (c : InMemoryCacheService.t V)
        (key : string) (value : V) (now : Z) :
  InMemoryCacheService.exists_ key c = true ->
  exists c',
    InMemoryCacheService.set key value now c = (Ok tt, c')
    /\ PyDict.keys (InMemoryCacheService.cache c')
       = PyDict.keys (InMemoryCacheService.cache c)
    /\ sget key (InMemoryCacheService.cache c') = Some value
    /\ (forall k, k <> key ->
          sget k (InMemoryCacheService.cache c')
          = sget k (InMemoryCacheService.cache c)).
Proof.
  unfold InMemoryCacheService.exists_, InMemoryCacheService.set. intros E.
  rewrite E, andb_false_r. eexists. split; [reflexivity|].
  cbn [InMemoryCacheService.cache]. split; [|split].
  - now rewrite keys_sset, E.
  - apply sget_sset_eq.
  - intros k Hne. now apply sget_sset_ne.
Qed.

Lemma overwriting_in_the_full_two_keys :
  exists c',
    InMemoryCacheService.set "a" 7 40%Z two_keys = (Ok tt, c')
    /\ PyDict.keys (InMemoryCacheService.cache c')
       = PyDict.keys (InMemoryCacheService.cache two_keys)
    /\ sget "a" (InMemoryCacheService.cache c') = Some 7
    /\ (forall k, k <> "a" ->
          sget k (InMemoryCacheService.cache c')
          = sget k (InMemoryCacheService.cache two_keys)).
Proof.
  apply (overwriting_a_key_evicts_nothing nat two_keys "a" 7 40%Z).
  reflexivity.
Defined.

(* ------------------------------------------------------------------ *)
(** ** A cache built with a capacity below one *)

Section TinyCache.
Context {V : Type}.

Lemma tiny_set (bound : Z) c key (value : V) (now : Z) :
  at_most_one bound c ->
  InMemoryCacheService.cache (after_set key value now c) = [(key, value)]
  /\ at_most_one bound (after_set key value now c).
Proof.
  intros (Hk & Hl & Hm & Hb).
  assert (Hc : InMemoryCacheService.cache (after_set key value now c)
               = [(key, value)]).
  { destruct c as [cache times m]. unfold keys_agree in Hk.
    cbn [InMemoryCacheService.cache InMemoryCacheService.access_times
         InMemoryCacheService.max_size] in *.
    unfold after_set, must_evict.
    cbn [InMemoryCacheService.cache InMemoryCacheService.max_size].
    assert (Hfull : (Z.of_nat (List.length cache) >=? m)%Z = true)
      by (apply Z.geb_le; lia).
    rewrite Hfull. cbn [andb].
    destruct cache as [|[k0 v0] [|]]; [| |simpl in Hl; lia].
    - destruct times; [|discriminate]. reflexivity.
    - destruct times as [|[k1 t1] [|]]; try discriminate.
      injection Hk as <-.
      unfold PyDict.mem. cbn [PyDict.get].
      destruct (String.eqb key k0) eqn:E.
      + apply String.eqb_eq in E. subst k0. cbn.
        now rewrite String.eqb_refl.
      + cbn [negb]. unfold evicted, InMemoryCacheService.lru_key, without.
        cbn. now rewrite String.eqb_refl. }
  split; [exact Hc|]. split; [now apply after_set_agree|].
  rewrite Hc, after_set_max_size. simpl. split; [lia|now split].
Qed.

Lemma tiny_step (bound : Z) c (o : InMemoryCacheService.op V) :
  at_most_one bound c ->
  exists c',
    InMemoryCacheService.step c o = (Ok tt, c') /\ at_most_one bound c'.
Proof.
  intros H. pose proof H as (Hk & Hl & Hm & Hb).
  destruct o as [k now|k v now|k|]; cbn [InMemoryCacheService.step].
  - eexists. split; [reflexivity|]. split; [now apply get_agree|].
    unfold InMemoryCacheService.get.
    destruct (smem k (InMemoryCacheService.cache c)); cbn; now split.
  - rewrite (set_agree c k v now Hk). eexists. split; [reflexivity|].
    now apply tiny_set.
  - rewrite (delete_agree c k Hk). eexists. split; [reflexivity|].
    destruct (smem k (InMemoryCacheService.cache c)) eqn:E; [|exact H].
    split; [now apply without_agree|].
    pose proof (length_without c k E). split; [lia|]. cbn. now split.
  - eexists. split; [reflexivity|]. split; [apply clear_agree|].
    cbn. split; [lia|now split].
Qed.

Lemma tiny_run (bound : Z) (ops : list (InMemoryCacheService.op V)) c :
  at_most_one bound c ->
  exists c',
    InMemoryCacheService.run ops c = (Ok tt, c') /\ at_most_one bound c'.
Proof.
  revert c. induction ops as [|o ops IH]; intros c H.
  - exists c. now split.
  - destruct (tiny_step bound c o H) as (c1 & E & H1).
    cbn [InMemoryCacheService.run]. rewrite E. now apply IH.
Qed.

End TinyCache.

(** X14.  A cache built with a capacity of zero or less is a cache of one
    entry: every sequence of operations runs without raising and leaves at
    most one entry, and each [set] leaves exactly the entry it stores, so
    that the number of entries then exceeds the capacity given. *)
Theorem capacity_below_one_holds_one_entry
        (V : Type) (max_size : Z) (ops : list (InMemoryCacheService.op V)) :
  (max_size <= 0)%Z ->
  exists c : InMemoryCacheService.t V,
    InMemoryCacheService.run ops (InMemoryCacheService.new max_size)
    = (Ok tt, c)
    /\ List.length (InMemoryCacheService.cache c) <= 1
    /\ InMemoryCacheService.max_size c = max_size
    /\ (forall key value now,
          exists c',
            InMemoryCacheService.set key value now c = (Ok tt, c')
            /\ InMemoryCacheService.cache c' = [(key, value)]
            /\ (InMemoryCacheService.max_size c'
                < Z.of_nat (List.length (InMemoryCacheService.cache c')))%Z).
Proof.
  intros Hm.
  assert (H0 : at_most_one max_size (@InMemoryCacheService.new V max_size)).
  { split; [reflexivity|]. cbn. split; [lia|now split]. }
  destruct (tiny_run max_size ops _ H0) as (c & E & H).
  exists c. split; [exact E|].
  pose proof H as (Hk & Hl & Hs & _).
  split; [exact Hl|]. split; [exact Hs|].
  intros key value now. exists (after_set key value now c).
  split; [now apply set_agree|].
  destruct (tiny_set max_size c key value now H) as (Hc & _).
  split; [exact Hc|].
  rewrite Hc, after_set_max_size, Hs. simpl. lia.
Qed.

Lemma capacity_zero_holds_one_entry :
  (0 <= 0)%Z
  /\ exists c : InMemoryCacheService.t nat,
       InMemoryCacheService.run
         [InMemoryCacheService.Set_ "a" 1 10%Z;
          InMemoryCacheService.Set_ "b" 2 20%Z]
         (InMemoryCacheService.new 0)
       = (Ok tt, c)
       /\ List.length (InMemoryCacheService.cache c) <= 1
       /\ InMemoryCacheService.max_size c = 0%Z
       /\ (forall key value now,
             exists c',
               InMemoryCacheService.set key value now c = (Ok tt, c')
               /\ InMemoryCacheService.cache c' = [(key, value)]
               /\ (InMemoryCacheService.max_size c'
                   < Z.of_nat
                       (List.length (InMemoryCacheService.cache c')))%Z).
Proof.
  split; [lia|].
  apply (capacity_below_one_holds_one_entry nat 0). lia.
Defined.

(* ------------------------------------------------------------------ *)
(** ** The repository: loading, saving, invalidating *)

Lemma cache_set_runs (ref : nat) (key : string) (value : payload)
      (w : World) :
  caches_ok w ->
  Cache.set ref key value w
  = (Ok tt, after_cache_set ref key value w, [CacheSet ref key]).
Proof.
  intros Hok. unfold Cache.set, after_cache_set. run_monad.
  cbn -[InMemoryCacheService.set].
  destruct (caches w ref) as [c|] eqn:E; [|reflexivity].
  now rewrite (set_agree c key value _ (Hok _ _ E)).
Qed.

Lemma after_cache_set_ok (ref : nat) (key : string) (value : payload)
      (w : World) :
  caches_ok w -> caches_ok (after_cache_set ref key value w).
Proof.
  intros Hok. pose proof (cache_set_preserves ref key value w Hok) as H.
  now rewrite cache_set_runs in H.
Qed.



Ltac run_repository :=
  cbn -[InMemoryCacheService.exists_ InMemoryCacheService.get
        InMemoryCacheService.set AnalysisResult.from_dict].

(** A repository without a copy reads the document, and stores what it
    read. *)
Lemma load_from_document (w : World) (st_mtime : Z) (data : pyval)
      (r : AnalysisResult.t) :
  repository_uncached w = true ->
  caches_ok w ->
  document w = RegularFile st_mtime (JsonData data) ->
  AnalysisResult.from_dict data = Ok r ->
  result_of (Repository.load_analysis_result w) = Ok r
  /\ world_of (Repository.load_analysis_result w)
     = match repo_cache_service (repository w) with
       | Some ref =>
           after_cache_set ref (_cache_key (repository w)) (OfResult r) w
       | None => w
       end.
Proof.
  intros Hu Hok Hdoc Hr. unfold repository_uncached in Hu.
  unfold Repository.load_analysis_result, Repository.load_from_file,
    Repository.read_json, Cache.get, Cache.set, after_cache_set.
  run_monad. run_repository.
  destruct (repo_cache_service (repository w)) as [ref|] eqn:Hrepo;
    [destruct (caches w ref) as [c|] eqn:Hc;
     [apply negb_true_iff in Hu|]|];
    repeat (progress (rewrite ?Hdoc, ?Hr, ?Hrepo, ?Hc, ?Hu); run_repository);
    try (rewrite (set_agree c _ _ _ (Hok _ _ Hc)); run_repository);
    now split.
Qed.





(* ------------------------------------------------------------------ *)
(** ** Documents that cannot be read into the domain model *)

Lemma omap_raises {A B} (f : A -> outcome B) (l : list A) (e : exn) :
  omap f l = Raise e -> exists x, In x l /\ f x = Raise e.
Proof.
  induction l as [|x l IH]; [discriminate|]. simpl.
  destruct (f x) as [y|e'] eqn:Ex.
  - destruct (omap f l) as [ys|e'']; [discriminate|].
    intros [= <-]. destruct (IH eq_refl) as (x' & Hin & Hx').
    exists x'. split; [now right|exact Hx'].
  - intros [= <-]. exists x. split; [now left|exact Ex].
Qed.

(** Going through the cases of a computation that raised, innermost
    test first. *)
Ltac raise_cases H :=
  unfold obind in H;
  repeat (match type of H with
          | context [match ?x with _ => _ end] =>
              lazymatch x with
              | context [match _ with _ => _ end] => fail
              | _ => first [is_var x; destruct x | destruct x eqn:?]
              end
          end;
          cbv beta iota in H;
          try discriminate H);
  try (injection H as <-; reflexivity).

Lemma iterate_raises (v : pyval) (e : exn) :
  iterate v = Raise e -> document_error e = true.
Proof. destruct v; try discriminate; now intros [= <-]. Qed.

Lemma dependency_from_dict_raises (data : pyval) (e : exn) :
  Dependency.from_dict data = Raise e -> document_error e = true.
Proof.
  unfold Dependency.from_dict, subscript, dot_get, DepType.of_value,
    Dependency.construct, Dependency.post_init, lt_zero.
  cbn [Dependency.line Dependency.context].
  intros H. raise_cases H.
Qed.

Lemma file_from_dict_raises (data : pyval) (e : exn) :
  FileAnalysis.from_dict data = Raise e -> document_error e = true.
Proof.
  unfold FileAnalysis.from_dict. intros H. unfold obind in H.
  destruct (dot_get data "dependencies") as [dv|e0] eqn:Edv;
    [|injection H as <-; destruct data; try discriminate Edv;
      now injection Edv as <-].
  destruct (iterate _) as [items|e0] eqn:Ei;
    [|injection H as <-; now apply iterate_raises in Ei].
  destruct (omap Dependency.from_dict items) as [deps|e0] eqn:Ed.
  - unfold subscript, dot_get, FileAnalysis.construct,
      FileAnalysis.post_init in H.
    cbn [FileAnalysis.file_path FileAnalysis.relative_path] in H.
    raise_cases H.
  - injection H as <-. apply omap_raises in Ed as (x & _ & Hx).
    now apply dependency_from_dict_raises in Hx.
Qed.

Lemma lt_zero_raises (v : pyval) (e : exn) :
  lt_zero v = Raise e -> document_error e = true.
Proof. destruct v; try discriminate; now intros [= <-]. Qed.

Lemma metadata_from_dict_raises (data : pyval) (e : exn) :
  AnalysisMetadata.from_dict data = Raise e -> document_error e = true.
Proof.
  unfold AnalysisMetadata.from_dict. intros H. unfold obind in H.
  destruct data; try (now injection H as <-). cbn [dot_get] in H.
  destruct (iterate (or_default (sget "analyzed_folders" d) (PList [])))
    as [af|e0] eqn:Ea;
    [|injection H as <-; now apply iterate_raises in Ea].
  destruct (iterate (or_default (sget "excluded_folders" d) (PList [])))
    as [ef|e0] eqn:Ee;
    [|injection H as <-; now apply iterate_raises in Ee].
  unfold AnalysisMetadata.post_init, obind in H.
  cbn [AnalysisMetadata.analysis_time_seconds
       AnalysisMetadata.total_files_analyzed] in H.
  destruct (lt_zero (or_default (sget "analysis_time_seconds" d) (PFloat 0)))
    as [[|]|e0] eqn:Es;
    [now injection H as <-| |injection H as <-; now apply lt_zero_raises in Es].
  destruct (lt_zero (or_default (sget "total_files_analyzed" d) (PInt 0)))
    as [[|]|e0] eqn:Et;
    [now injection H as <-|discriminate
    |injection H as <-; now apply lt_zero_raises in Et].
Qed.

Lemma result_from_dict_raises (data : pyval) (e : exn) :
  AnalysisResult.from_dict data = Raise e -> document_error e = true.
Proof.
  unfold AnalysisResult.from_dict. intros H. unfold obind in H.
  destruct data; try (now injection H as <-). cbn [dot_get] in H.
  destruct (iterate _) as [items|e0] eqn:Ei;
    [|injection H as <-; now apply iterate_raises in Ei].
  destruct (omap FileAnalysis.from_dict items) as [files|e0] eqn:Ef;
    [|injection H as <-; apply omap_raises in Ef as (x & _ & Hx);
      now apply file_from_dict_raises in Hx].
  destruct (AnalysisMetadata.from_dict _) as [m|e0] eqn:Em;
    [discriminate|].
  injection H as <-. now apply metadata_from_dict_raises in Em.
Qed.

(** X17.  Loading a document the repository has no copy of and cannot
    use.  A document that cannot be opened raises [RepositoryError] from
    the [IOError].  A JSON document [from_dict] rejects raises
    [RepositoryError] from the [KeyError], [ValueError] or [TypeError] of
    the rejection; an [AttributeError] (a document that is no JSON object,
    say) is not among the exceptions the repository handles and is raised
    as it is; [from_dict] raises no other kind.  In every case nothing is
    cached and nothing changed. *)
Theorem load_reports_unusable_documents (w : World) :
  repository_uncached w = true ->
  (document w = NotAFile
   \/ (exists st_mtime, document w = RegularFile st_mtime Unreadable) ->
   result_of (Repository.load_analysis_result w)
   = Raise (RepositoryError "Cannot read analysis file" IOError)
   /\ world_of (Repository.load_analysis_result w) = w)
  /\ (forall st_mtime data e,
        document w = RegularFile st_mtime (JsonData data) ->
        AnalysisResult.from_dict data = Raise e ->
        document_error e = true
        /\ result_of (Repository.load_analysis_result w)
           = Raise (match e with
                    | AttributeError _ => e
                    | _ => RepositoryError "Invalid analysis data format" e
                    end)
        /\ world_of (Repository.load_analysis_result w) = w).
Proof.
  intros Hu. unfold repository_uncached in Hu.
  split.
  - intros Hdoc.
    unfold Repository.load_analysis_result, Repository.load_from_file,
      Repository.read_json, Cache.get.
    run_monad. run_repository.
    destruct (repo_cache_service (repository w)) as [ref|] eqn:Hrepo;
      [destruct (caches w ref) as [c|] eqn:Hc;
       [apply negb_true_iff in Hu|]|];
      destruct Hdoc as [Hdoc|[st_mtime Hdoc]];
      repeat (progress (rewrite ?Hdoc, ?Hrepo, ?Hc, ?Hu); run_repository);
      now split.
  - intros st_mtime data e Hdoc He.
    pose proof (result_from_dict_raises data e He) as Hkind.
    split; [exact Hkind|].
    unfold Repository.load_analysis_result, Repository.load_from_file,
      Repository.read_json, Cache.get.
    run_monad. run_repository.
    destruct (repo_cache_service (repository w)) as [ref|] eqn:Hrepo;
      [destruct (caches w ref) as [c|] eqn:Hc;
       [apply negb_true_iff in Hu|]|];
      repeat (progress (rewrite ?Hdoc, ?He, ?Hrepo, ?Hc, ?Hu);
              run_repository);
      destruct e; try discriminate Hkind; now split.
Qed.

Lemma unusable_documents_in_fresh_worlds :
  (result_of (Repository.load_analysis_result
                (fresh_world (RegularFile 7 (JsonData (PList [])))))
   = Raise (AttributeError "get"))
  /\ (result_of (Repository.load_analysis_result
                   (fresh_world
                      (RegularFile 7 (JsonData (PDict [("files", PInt 1)])))))
      = Raise (RepositoryError "Invalid analysis data format"
                               (TypeError "object is not iterable")))
  /\ (result_of (Repository.load_analysis_result (fresh_world NotAFile))
      = Raise (RepositoryError "Cannot read analysis file" IOError)).
Proof.
  split; [|split].
  - apply (proj2 (load_reports_unusable_documents
                    (fresh_world (RegularFile 7 (JsonData (PList []))))
                    eq_refl)
             7%Z (PList []) (AttributeError "get") eq_refl eq_refl).
  - apply (proj2 (load_reports_unusable_documents
                    (fresh_world
                       (RegularFile 7 (JsonData (PDict [("files", PInt 1)]))))
                    eq_refl)
             7%Z (PDict [("files", PInt 1)])
             (TypeError "object is not iterable") eq_refl eq_refl).
  - apply (proj1 (load_reports_unusable_documents (fresh_world NotAFile)
                                                  eq_refl)).
    now left.
Defined.

(* ------------------------------------------------------------------ *)
(** ** Invalidating the repository's copy *)

Lemma fresh_world_distinct (d : fs_entry) : caches_distinct (fresh_world d).
Proof. intros ref c [= <-]. constructor. Defined.

(** X18.  [invalidate_cache], on caches in order that hold no key twice,
    does not raise and leaves the repository without a copy; the document,
    the service and every other cached entry are as before; the next
    [load_analysis_result] therefore reads the document again. *)
Theorem invalidate_cache_forgets_the_copy (w : World) :
  caches_ok w -> caches_distinct w ->
  let w' := world_of (Repository.invalidate_cache w) in
  result_of (Repository.invalidate_cache w) = Ok tt
  /\ repository_uncached w' = true
  /\ document w' = document w
  /\ service w' = service w
  /\ caches_ok w'
  /\ (forall key,
        key <> _cache_key (repository w) ->
        cached_under key w' = cached_under key w)
  /\ (forall st_mtime data r,
        document w = RegularFile st_mtime (JsonData data) ->
        AnalysisResult.from_dict data = Ok r ->
        result_of (Repository.load_analysis_result w') = Ok r).
Proof.
  intros Hok Hnd w'.
  assert (H : result_of (Repository.invalidate_cache w) = Ok tt
              /\ repository_uncached w' = true
              /\ document w' = document w
              /\ service w' = service w
              /\ repository w' = repository w
              /\ caches_ok w'
              /\ (forall key,
                    key <> _cache_key (repository w) ->
                    cached_under key w' = cached_under key w)).
  { subst w'.
    unfold Repository.invalidate_cache, Cache.delete, repository_uncached,
      cached_under.
    run_monad. cbn -[InMemoryCacheService.delete InMemoryCacheService.exists_].
    destruct (repo_cache_service (repository w)) as [ref|] eqn:Hrepo;
      cbn -[InMemoryCacheService.delete InMemoryCacheService.exists_];
      [|rewrite Hrepo; repeat split; trivial].
    destruct (caches w ref) as [c|] eqn:Hc;
      cbn -[InMemoryCacheService.delete InMemoryCacheService.exists_];
      [|rewrite Hrepo, Hc; repeat split; trivial].
    rewrite (delete_agree c _ (Hok _ _ Hc)).
    cbn -[InMemoryCacheService.exists_].
    rewrite Hrepo, Nat.eqb_refl.
    set (key := _cache_key (repository w)).
    set (c' := if smem key (InMemoryCacheService.cache c)
               then without key c else c).
    assert (Hgone : InMemoryCacheService.exists_ key c' = false).
    { subst c'. unfold InMemoryCacheService.exists_.
      destruct (smem key (InMemoryCacheService.cache c)) eqn:E; [|exact E].
      unfold without. cbn [InMemoryCacheService.cache].
      rewrite (smem_sremove _ _ _ (Hnd _ _ Hc)), String.eqb_refl.
      apply andb_false_r. }
    assert (Hagree : keys_agree c').
    { subst c'. destruct (smem key (InMemoryCacheService.cache c)).
      - apply without_agree. now apply (Hok ref).
      - now apply (Hok ref). }
    split; [reflexivity|]. split; [now rewrite Hgone|].
    split; [reflexivity|]. split; [reflexivity|]. split; [reflexivity|].
    split.
    - apply (preserves_with_cache ref c' Hagree w Hok).
    - intros k Hne.
      destruct (cache_service (service w)) as [ref'|]; [|reflexivity].
      destruct (ref' =? ref) eqn:Eref; [|reflexivity].
      apply Nat.eqb_eq in Eref. subst ref'. rewrite Hc.
      subst c'. destruct (smem key (InMemoryCacheService.cache c));
        [|reflexivity].
      unfold without. cbn [InMemoryCacheService.cache].
      now apply sget_sremove_ne. }
  destruct H as (Hres & Hun & Hdoc & Hsvc & Hrepo & Hok' & Hkeys).
  repeat (split; trivial).
  intros st_mtime data r Hd Hr.
  apply (load_from_document w' st_mtime data r); trivial.
  now rewrite Hdoc.
Qed.

Lemma invalidating_the_saved_copy :
  let w := stale_world (RegularFile 7 (JsonData sparse_document)) in
  result_of (Repository.load_analysis_result w) = Ok lonely_result
  /\ result_of (Repository.load_analysis_result
                  (world_of (Repository.invalidate_cache w)))
     = Ok sparse_result.
Proof.
  intros w. split; [reflexivity|].
  assert (Hok : caches_ok w).
  { intros ref c. subst w. cbn.
    destruct (ref =? 0); intros [= <-]; reflexivity. }
  assert (Hnd : caches_distinct w).
  { intros ref c. subst w. cbn.
    destruct (ref =? 0); intros [= <-]; repeat constructor; cbn; tauto. }
  destruct (invalidate_cache_forgets_the_copy w Hok Hnd)
    as (_ & _ & _ & _ & _ & _ & Hload).
  apply (Hload 7%Z sparse_document). 
  - reflexivity.
  - reflexivity.
Defined.

(* ------------------------------------------------------------------ *)
(** ** The analysis of one file *)

Lemma find_first {A} (p : A -> bool) (l : list A) (x : A) :
  find p l = Some x ->
  exists before after,
    l = before ++ x :: after
    /\ p x = true
    /\ forall y, In y before -> p y = false.
Proof.
  induction l as [|a l IH]; [discriminate|]. simpl.
  destruct (p a) eqn:Ea.
  - intros [= <-]. exists [], l. repeat split; trivial. contradiction.
  - intros H. destruct (IH H) as (before & after & -> & Hx & Hb).
    exists (a :: before), after. repeat split; trivial.
    intros y [<-|Hy]; [exact Ea|now apply Hb].
Qed.

Lemma has_path_false (file_path : string) (f : FileAnalysis.t) :
  has_path file_path f = false
  <-> FileAnalysis.relative_path f <> file_path
      /\ FileAnalysis.file_path f <> file_path.
Proof.
  unfold has_path. rewrite orb_false_iff. now rewrite !String.eqb_neq.
Qed.

Lemma get_file_analysis_current (w : World) (file_path : string)
      (r : AnalysisResult.t) :
  validate_file_path (validation_service (service w)) file_path = true ->
  current_result w = Ok r ->
  result_of (Service.get_file_analysis file_path w)
  = Ok (find (has_path file_path) (AnalysisResult.files r)).
Proof.
  intros Hv Hr.
  unfold current_result, tick in Hr.
  destruct (Service._get_analysis_result (with_ticks (S (ticks w)) w))
    as [[o w1] ev1] eqn:E.
  unfold result_of in Hr; simpl in Hr; subst o.
  unfold Service.get_file_analysis, Service.get_file_analysis_body.
  run_service. rewrite Hv. run_service. rewrite E.
  change (fun file_analysis : FileAnalysis.t =>
            (FileAnalysis.relative_path file_analysis =? file_path)%string
            || (FileAnalysis.file_path file_analysis =? file_path)%string)
    with (has_path file_path).
  destruct (find (has_path file_path) (AnalysisResult.files r));
    [|reflexivity].
  run_service. destruct (metrics_collector (service w1)); reflexivity.
Qed.

(** X19.  [get_file_analysis] for a path the validation accepts, on the
    current result: it returns the first file, in file order, whose
    relative path or whose absolute path is the path asked for, and [None]
    (which is no error) exactly when the result has no such file. *)
Theorem get_file_analysis_finds_the_first_match
        (w : World) (file_path : string) (r : AnalysisResult.t) :
  validate_file_path (validation_service (service w)) file_path = true ->
  current_result w = Ok r ->
  exists found,
    result_of (Service.get_file_analysis file_path w) = Ok found
    /\ (forall f,
          found = Some f ->
          exists before after,
            AnalysisResult.files r = before ++ f :: after
            /\ (FileAnalysis.relative_path f = file_path
                \/ FileAnalysis.file_path f = file_path)
            /\ forall g,
                 In g before ->
                 FileAnalysis.relative_path g <> file_path
                 /\ FileAnalysis.file_path g <> file_path)
    /\ (found = None
        <-> forall g,
              In g (AnalysisResult.files r) ->
              FileAnalysis.relative_path g <> file_path
              /\ FileAnalysis.file_path g <> file_path).
Proof.
  intros Hv Hr.
  exists (find (has_path file_path) (AnalysisResult.files r)).
  split; [now apply get_file_analysis_current|]. split.
  - intros f Hf. apply find_first in Hf as (before & after & Hl & Hp & Hb).
    exists before, after. split; [exact Hl|]. split.
    + unfold has_path in Hp. apply orb_true_iff in Hp.
      now rewrite !String.eqb_eq in Hp.
    + intros g Hg. apply has_path_false. now apply Hb.
  - split.
    + intros Hnone g Hg. apply has_path_false.
      now apply (find_none _ _ Hnone).
    + intros Hall.
      destruct (find (has_path file_path) (AnalysisResult.files r))
        as [f|] eqn:Ef; [|reflexivity].
      apply find_some in Ef as [Hin Hp].
      apply Hall, has_path_false in Hin. congruence.
Qed.

Lemma file_analysis_in_three_files :
  exists found,
    result_of (Service.get_file_analysis "src/B.php" three_files_world)
    = Ok found
    /\ (forall f,
          found = Some f ->
          exists before after,
            AnalysisResult.files three_files = before ++ f :: after
            /\ (FileAnalysis.relative_path f = "src/B.php"
                \/ FileAnalysis.file_path f = "src/B.php")
            /\ forall g,
                 In g before ->
                 FileAnalysis.relative_path g <> "src/B.php"
                 /\ FileAnalysis.file_path g <> "src/B.php")
    /\ (found = None
        <-> forall g,
              In g (AnalysisResult.files three_files) ->
              FileAnalysis.relative_path g <> "src/B.php"
              /\ FileAnalysis.file_path g <> "src/B.php").
Proof.
  apply (get_file_analysis_finds_the_first_match
           three_files_world "src/B.php" three_files); reflexivity.
Defined.

(* ------------------------------------------------------------------ *)
(** ** Operations that wrap every failure *)





(* ------------------------------------------------------------------ *)
(** ** The keys of the cached entries *)

Lemma to_int_is_no_nil (z : Z) :
  Z.to_int z <> Decimal.Pos Decimal.Nil
  /\ Z.to_int z <> Decimal.Neg Decimal.Nil.
Proof.
  destruct z; simpl; split; intros [= H]; try discriminate;
    now apply DecimalPos.Unsigned.to_uint_nonnil in H.
Qed.

Lemma str_of_int_injective (a b : Z) : str_of_int a = str_of_int b -> a = b.
Proof.
  unfold str_of_int. intros H.
  apply (f_equal NilZero.int_of_string) in H.
  destruct (to_int_is_no_nil a), (to_int_is_no_nil b).
  rewrite !NilZero.isi in H by assumption.
  injection H as H. now apply DecimalZ.to_int_inj.
Qed.

Lemma append_injective (prefix a b : string) :
  (prefix ++ a)%string = (prefix ++ b)%string -> a = b.
Proof.
  induction prefix as [|c prefix IH]; [trivial|].
  simpl. intros [= H]. now apply IH.
Qed.

(** X21.  The keys under which the operations cache their answers never
    collide: the hotspots keys of two limits differ, so do the keys of two
    dependency types, and the hotspots keys, the dependency keys, the
    summary key and the key of the repository's own copy (which shares the
    cache with them) are all different from one another. *)
Theorem cache_keys_never_collide :
  (forall limit1 limit2,
      hotspots_key limit1 = hotspots_key limit2 -> limit1 = limit2)
  /\ (forall t1 t2, dependencies_key t1 = dependencies_key t2 -> t1 = t2)
  /\ (forall limit t,
        hotspots_key limit <> dependencies_key t
        /\ hotspots_key limit <> "summary_statistics"
        /\ dependencies_key t <> "summary_statistics")
  /\ (forall file_name cache limit t,
        let key := _cache_key (Repository.new file_name cache) in
        key <> hotspots_key limit
        /\ key <> dependencies_key t
        /\ key <> "summary_statistics").
Proof.
  split; [|split; [|split]].
  - intros l1 l2 H. unfold hotspots_key in H.
    apply append_injective in H. now apply str_of_int_injective.
  - intros t1 t2 H. unfold dependencies_key in H.
    apply append_injective in H. now apply value_injective.
  - intros limit t. unfold hotspots_key, dependencies_key.
    repeat split; cbn; discriminate.
  - intros file_name cache limit t key. subst key.
    unfold hotspots_key, dependencies_key.
    repeat split; cbn; discriminate.
Qed.

(* ------------------------------------------------------------------ *)
(** ** What loading and resolving leave unchanged *)

Lemma load_touches (w : World) :
  repository_touched w (world_of (Repository.load_analysis_result w)).
Proof.
  unfold Repository.load_analysis_result, Repository.load_from_file,
    Repository._create_empty_result, Repository.read_json,
    Repository.as_result, Repository.load_handler, Cache.get, Cache.set,
    world_of.
  run_monad. run_repository.
  destruct (document w) as [| |st_mtime [| |data]] eqn:Hdoc;
    destruct (repo_cache_service (repository w)) as [ref|] eqn:Hrepo;
    run_repository;
    try (destruct (caches w ref) as [c|] eqn:Hc; run_repository);
    try (pose proof (copy_read w ref c Hrepo Hc) as Hread;
         pose proof (fun value => copy_stored w ref c value Hrepo Hc) as Hset;
         unfold InMemoryCacheService.get in Hread |- *;
         unfold InMemoryCacheService.exists_;
         destruct (smem (_cache_key (repository w))
                        (InMemoryCacheService.cache c)) eqn:He;
         [unfold PyDict.mem in He;
          destruct (sget (_cache_key (repository w))
                         (InMemoryCacheService.cache c)) as [p|] eqn:Hs;
          [|discriminate He];
          run_repository; destruct p; exact Hread
         |]);
    repeat (progress (rewrite ?Hdoc, ?Hrepo, ?Hc); run_repository);
    try apply untouched; try apply clock_read;
    (destruct (AnalysisResult.from_dict data) as [r|e];
     repeat (progress (rewrite ?Hdoc, ?Hrepo, ?Hc); run_repository);
     try (destruct e; apply untouched);
     try apply untouched).
  specialize (Hset (OfResult r)).
  destruct (InMemoryCacheService.set (_cache_key (repository w)) (OfResult r)
                                     (clock w (ticks w)) c)
    as [[|e] c'] eqn:Hs; run_repository; [|destruct e]; exact Hset.
Qed.

Lemma sget_sremove_none {V} (k victim : string) (d : list (string * V)) :
  sget k d = None -> sget k (sremove victim d) = None.
Proof.
  induction d as [|[k' v'] d IH]; [trivial|].
  cbn [PyDict.get PyDict.remove].
  destruct (String.eqb k k') eqn:E; [discriminate|]. intros H.
  destruct (String.eqb victim k'); [exact H|].
  cbn [PyDict.get]. rewrite E. now apply IH.
Qed.

Lemma get_keeps_cache {V} (key : string) (now : Z)
      (c : InMemoryCacheService.t V) :
  InMemoryCacheService.cache (snd (InMemoryCacheService.get key now c))
  = InMemoryCacheService.cache c.
Proof.
  unfold InMemoryCacheService.get.
  now destruct (smem key (InMemoryCacheService.cache c)).
Qed.

(** [set] puts no entry under another key than its own, whether it
    evicts, and whether it raises. *)
Lemma set_keeps_absent {V} (key k : string) (value : V) (now : Z)
      (c : InMemoryCacheService.t V) :
  k <> key ->
  sget k (InMemoryCacheService.cache c) = None ->
  sget k (InMemoryCacheService.cache
            (snd (InMemoryCacheService.set key value now c))) = None.
Proof.
  intros Hne Hk.
  unfold InMemoryCacheService.set, InMemoryCacheService._evict_lru,
    InMemoryCacheService.delete.
  destruct ((Z.of_nat (List.length (InMemoryCacheService.cache c))
             >=? InMemoryCacheService.max_size c)%Z
            && negb (smem key (InMemoryCacheService.cache c)));
    [destruct (InMemoryCacheService.lru_key
                 (InMemoryCacheService.access_times c)) as [victim|];
     [destruct (smem victim (InMemoryCacheService.cache c));
      [cbn [InMemoryCacheService.access_times InMemoryCacheService.cache
            InMemoryCacheService.max_size];
       destruct (smem victim (InMemoryCacheService.access_times c))|]|]|];
    cbn [snd InMemoryCacheService.cache];
    rewrite ?(sget_sset_ne _ _ _ _ Hne);
    trivial; now apply sget_sremove_none.
Qed.

Lemma same_setup_refl (w : World) : same_setup w w.
Proof. repeat split; trivial. intros ref c H. now exists c. Qed.

Lemma same_setup_with_cache (w : World) (ref : nat)
      (c c' : InMemoryCacheService.t payload) :
  caches w ref = InMemory c ->
  (forall key,
      key <> _cache_key (repository w) ->
      sget key (InMemoryCacheService.cache c) = None ->
      sget key (InMemoryCacheService.cache c') = None) ->
  same_setup w (with_cache ref (InMemory c') (tick w)).
Proof.
  intros Hc Hkeys. repeat split; trivial.
  - intros ref' c0 H0. cbn. destruct (ref' =? ref); eauto.
  - intros ref' H0. cbn. destruct (ref' =? ref) eqn:E; [|exact H0].
    apply Nat.eqb_eq in E. subst. congruence.
  - intros key Hne. unfold cached_under. cbn.
    destruct (cache_service (service w)) as [ref'|]; [|trivial].
    destruct (ref' =? ref) eqn:E; [|trivial].
    apply Nat.eqb_eq in E. subst. rewrite Hc. now apply Hkeys.
Qed.

Lemma touched_same_setup (w w2 : World) :
  repository_touched w w2 -> same_setup w w2 /\ service w2 = service w.
Proof.
  intros [| |ref c Hrepo Hc|ref c value Hrepo Hc].
  - split; [apply same_setup_refl|reflexivity].
  - split; [|reflexivity]. repeat split; trivial.
    intros ref c H. now exists c.
  - split; [|reflexivity]. apply (same_setup_with_cache w ref c); trivial.
    intros key _. now rewrite get_keeps_cache.
  - split; [|reflexivity]. apply (same_setup_with_cache w ref c); trivial.
    intros key Hne. now apply set_keeps_absent.
Qed.

Lemma reload_runs (w : World) :
  let w2 := world_of (Repository.load_analysis_result w) in
  result_of (Service.reload w) = result_of (Repository.load_analysis_result w)
  /\ world_of (Service.reload w)
     = match result_of (Repository.load_analysis_result w) with
       | Ok r =>
           with_service
             (with_loaded (Some r) (Some (clock w2 (ticks w2))) (service w2))
             (tick w2)
       | Raise _ => w2
       end.
Proof.
  unfold Service.reload, bind, write, now, ret, result_of, world_of.
  destruct (Repository.load_analysis_result w) as [[[r|e] w2] ev];
    now split.
Qed.

Lemma reload_resolves (w : World) : resolved w (world_of (Service.reload w)).
Proof.
  destruct (reload_runs w) as [_ Hw]. rewrite Hw.
  pose proof (load_touches w) as Ht.
  destruct (result_of (Repository.load_analysis_result w)).
  - now apply result_loaded.
  - now apply load_failed.
Qed.

Lemma get_analysis_result_resolves (w : World) :
  resolved w (world_of (Service._get_analysis_result w)).
Proof.
  rewrite get_analysis_result_cases.
  destruct (_analysis_result (service w)) as [held|];
    [|apply reload_resolves].
  destruct (_last_loaded_time (service w)) as [loaded|];
    [|apply reload_resolves].
  destruct (last_modified w) as [modified|]; [|apply result_held].
  destruct (loaded <? modified)%Z; [|apply result_held].
  pose proof (reload_resolves w) as H.
  destruct (Service.reload w) as [[o w'] ev]. exact H.
Qed.

Lemma resolved_same_setup (w w' : World) : resolved w w' -> same_setup w w'.
Proof.
  intros [|w2 r t Ht|w2 Ht].
  - apply same_setup_refl.
  - apply touched_same_setup in Ht as [(Hv & Hcs & Hm & Hr & Hd & Hk & Hn & Hkeys) _].
    repeat split; trivial.
  - now apply touched_same_setup in Ht.
Qed.

(* ------------------------------------------------------------------ *)
(** ** Refreshing *)

Lemma forgotten_holds_nothing (w : World) :
  _analysis_result (service (forgotten w)) = None
  /\ _last_loaded_time (service (forgotten w)) = None
  /\ repository (forgotten w) = repository w
  /\ forall key, cached_under key (forgotten w) = None.
Proof.
  unfold forgotten, cached_under.
  destruct (cache_service (service w)) as [ref|] eqn:Hcs;
    [destruct (caches w ref) as [c|] eqn:Hc|];
    cbn; rewrite ?Hcs, ?Nat.eqb_refl, ?Hc; repeat split; trivial.
Qed.

Lemma forget_then {A} (k : M A) (w : World) :
  exists ev0,
    bind (write (fun w => with_service (with_loaded None None (service w)) w))
         (fun _ =>
            bind (read service)
                 (fun self =>
                    bind match cache_service self with
                         | Some ref => Cache.clear ref
                         | None => ret tt
                         end
                         (fun _ => k))) w
    = (result_of (k (forgotten w)), world_of (k (forgotten w)),
       ev0 ++ events_of (k (forgotten w))).
Proof.
  unfold forgotten, Cache.clear. run_monad. cbn.
  destruct (cache_service (service w)) as [ref|] eqn:Hcs; cbn.
  - destruct (caches w ref) as [c|] eqn:Hc; cbn.
    + match goal with
      | |- context [k ?W] => destruct (k W) as [[o w2] ev]
      end.
      exists [CacheClear ref]. reflexivity.
    + match goal with
      | |- context [k ?W] => destruct (k W) as [[o w2] ev]
      end.
      exists [CacheClear ref]. reflexivity.
  - match goal with
    | |- context [k ?W] => destruct (k W) as [[o w2] ev]
    end.
    exists []. reflexivity.
Qed.

Lemma refresh_runs (w : World) :
  result_of (Service.refresh_analysis w)
  = match result_of (Repository.load_analysis_result (forgotten w)) with
    | Ok _ => Ok tt
    | Raise e => Raise (AnalysisError "Failed to refresh analysis" e)
    end
  /\ world_of (Service.refresh_analysis w)
     = world_of (Service.reload (forgotten w))
  /\ In RepositoryLoad (events_of (Service.refresh_analysis w)).
Proof.
  unfold Service.refresh_analysis, try_except.
  destruct (forget_then
              (bind Service._get_analysis_result (fun _ => ret tt)) w)
    as (ev0 & ->).
  destruct (forgotten_holds_nothing w) as (Hnone & _ & _ & _).
  pose proof (reload_loads (forgotten w)) as Hload.
  destruct (reload_runs (forgotten w)) as [Hres _].
  assert (HK : bind Service._get_analysis_result (fun _ => ret tt)
                    (forgotten w)
               = match Service.reload (forgotten w) with
                 | (Ok r, w2, ev) => (Ok tt, w2, ev ++ [])
                 | (Raise e, w2, ev) => (Raise e, w2, ev)
                 end).
  { unfold bind, ret. rewrite get_analysis_result_cases, Hnone.
    now destruct (Service.reload (forgotten w)) as [[[r|e] w2] ev]. }
  rewrite HK, <- Hres. unfold result_of, world_of, events_of in *.
  destruct (Service.reload (forgotten w)) as [[[r|e] w2] ev];
    cbn [fst snd] in *.
  - repeat split. apply in_or_app. right. apply in_or_app. now left.
  - unfold Service.wrap, Service.metrics. run_monad. cbn.
    destruct (metrics_collector (service w2)); cbn; repeat split;
      apply in_or_app; left; apply in_or_app; now right.
Qed.

(** X22.  [refresh_analysis] always asks the repository to load; whether
    it succeeds or fails, the service's cache afterwards holds no answer
    computed before (at most the repository's copy of the result, when the
    two share the cache); when it succeeds the service holds the result
    the repository loaded, with a load time; when it fails the service
    holds no result: the one held before is not kept. *)
Theorem refresh_analysis_drops_cached_answers (w : World) :
  let w' := world_of (Service.refresh_analysis w) in
  In RepositoryLoad (events_of (Service.refresh_analysis w))
  /\ repository w' = repository w
  /\ answers_dropped w'
  /\ (result_of (Service.refresh_analysis w) = Ok tt ->
      exists r,
        result_of (Repository.load_analysis_result (forgotten w)) = Ok r
        /\ _analysis_result (service w') = Some r
        /\ _last_loaded_time (service w') <> None)
  /\ (forall e,
        result_of (Service.refresh_analysis w) = Raise e ->
        _analysis_result (service w') = None
        /\ _last_loaded_time (service w') = None).
Proof.
  intros w'. destruct (refresh_runs w) as (Hres & Hw & Hev).
  destruct (forgotten_holds_nothing w) as (Hnone & Htime & Hrepo & Hclean).
  pose proof (resolved_same_setup _ _ (reload_resolves (forgotten w)))
    as (_ & _ & _ & Hr & _ & _ & _ & Hkeys).
  destruct (reload_runs (forgotten w)) as [_ Hw2].
  pose proof (touched_same_setup _ _ (load_touches (forgotten w)))
    as [_ Hsvc].
  subst w'. rewrite Hw, Hres. clear Hres Hw.
  split; [exact Hev|]. split; [now rewrite Hr|]. split; [|split].
  - intros key Hne. rewrite Hr, Hrepo in Hne.
    apply Hkeys; [now rewrite Hrepo|apply Hclean].
  - rewrite Hw2.
    destruct (result_of (Repository.load_analysis_result (forgotten w)))
      as [r|e]; [|discriminate].
    intros _. exists r. repeat split. discriminate.
  - intros e. rewrite Hw2.
    destruct (result_of (Repository.load_analysis_result (forgotten w)))
      as [r|e0]; [discriminate|].
    intros _. now rewrite Hsvc.
Qed.

Lemma failed_refresh_keeps_no_result :
  _analysis_result (service (loaded_world 60 (RegularFile 50 InvalidJson)))
  = Some three_files
  /\ _analysis_result
       (service
          (world_of (Service.refresh_analysis
                       (loaded_world 60 (RegularFile 50 InvalidJson)))))
     = None.
Proof.
  split; [reflexivity|].
  destruct (refresh_analysis_drops_cached_answers
              (loaded_world 60 (RegularFile 50 InvalidJson)))
    as (_ & _ & _ & _ & Hfail).
  apply (Hfail (AnalysisError "Failed to refresh analysis"
                  (RepositoryError "Invalid JSON in analysis file"
                                   JSONDecodeError))).
  reflexivity.
Defined.

(* ------------------------------------------------------------------ *)
(** ** Answers served from the cache *)

(** The projections of a changed world. *)
Ltac project :=
  cbn [service caches document repository ticks clock strftime
       with_cache with_ticks with_service with_document with_loaded
       cache_service validation_service metrics_collector
       _analysis_result _last_loaded_time fst snd].

Ltac run_projected := repeat (progress (run_service; project)).

Lemma find_dependency_hotspots_stores (w : World) (limit : Z) (p : payload)
      (ref : nat) (c : InMemoryCacheService.t payload) :
  caches_ok w ->
  validate_limit_parameter (validation_service (service w)) limit = true ->
  cache_service (service w) = Some ref ->
  caches w ref = InMemory c ->
  result_of (Service.find_dependency_hotspots limit w) = Ok p ->
  cached_under (hotspots_key limit)
               (world_of (Service.find_dependency_hotspots limit w))
  = Some p
  /\ validation_service
       (service (world_of (Service.find_dependency_hotspots limit w)))
     = validation_service (service w).
Proof.
  intros Hok Hv Hcs Hc.
  pose proof (get_analysis_result_preserves _ (tick_ok w Hok)) as Hok1.
  pose proof (resolved_same_setup _ _ (get_analysis_result_resolves (tick w)))
    as (Hv1 & Hcs1 & Hm1 & _ & _ & Hkind & _).
  destruct (Hkind ref c Hc) as (c1 & Hc1). clear Hkind.
  unfold tick, world_of in Hok1, Hv1, Hcs1, Hm1, Hc1.
  change (service (with_ticks (S (ticks w)) w)) with (service w) in *.
  rewrite Hcs in Hcs1.
  unfold Service.find_dependency_hotspots, Service.find_dependency_hotspots_body,
    hotspots_key, cached_under.
  run_service. rewrite Hv. run_service. rewrite Hcs. run_service.
  rewrite Hc. run_service.
  unfold InMemoryCacheService.exists_, InMemoryCacheService.get.
  destruct (smem ("hotspots_" ++ str_of_int limit)%string
                 (InMemoryCacheService.cache c)) eqn:He; run_projected.
  - unfold PyDict.mem in He.
    destruct (sget ("hotspots_" ++ str_of_int limit)%string
                   (InMemoryCacheService.cache c)) as [p0|] eqn:Hs;
      [|discriminate He].
    destruct (metrics_collector (service w)) eqn:Hm;
      repeat (progress (rewrite ?Hm; run_service; project));
      intros [= <-]; rewrite Hcs; run_projected; rewrite Nat.eqb_refl;
      now split.
  - destruct (metrics_collector (service w)) eqn:Hm;
      repeat (progress (rewrite ?Hm; run_service; project)).
    all: destruct (Service._get_analysis_result (with_ticks (S (ticks w)) w))
      as [[[r|e] w1] ev1]; cbn [fst snd] in *; run_projected;
      [|destruct (is_ValueError e); run_projected;
        rewrite ?Hm1; run_projected; discriminate].
    all: destruct (AnalysisResult.get_hotspots r limit) as [l|e];
      run_projected;
      [|destruct (is_ValueError e); run_projected;
        rewrite ?Hm1; run_projected; discriminate].
    all: rewrite Hcs1; run_projected; rewrite Hc1; run_projected.
    all: rewrite (set_agree c1 _ _ _ (Hok1 _ _ Hc1)); run_projected.
    all: rewrite Hm1; run_projected.
    all: intros [= <-]; rewrite Hcs1; run_projected; rewrite Nat.eqb_refl.
    all: split; [apply sget_sset_eq|exact Hv1].
Qed.

(** X23.  An answer, once given, is served from the cache.  When the
    service has an in-memory cache and [find_dependency_hotspots] has
    returned hotspots for a limit, the cache holds them under the limit's
    key, and the next call with that limit returns them again whatever the
    document has become in the meantime: the cached answers do not follow
    the document. *)
Theorem hotspots_are_served_again
        (w : World) (limit : Z) (p : payload)
        (ref : nat) (c : InMemoryCacheService.t payload) :
  caches_ok w ->
  validate_limit_parameter (validation_service (service w)) limit = true ->
  cache_service (service w) = Some ref ->
  caches w ref = InMemory c ->
  result_of (Service.find_dependency_hotspots limit w) = Ok p ->
  let w' := world_of (Service.find_dependency_hotspots limit w) in
  cached_under (hotspots_key limit) w' = Some p
  /\ (forall d,
        result_of (Service.find_dependency_hotspots
                     limit (with_document d w'))
        = Ok p).
Proof.
  intros Hok Hv Hcs Hc Hres w'.
  destruct (find_dependency_hotspots_stores w limit p ref c Hok Hv Hcs Hc Hres)
    as (Hheld & Hv').
  fold w' in Hheld, Hv'.
  split; [exact Hheld|].
  intros d. apply find_dependency_hotspots_cached.
  - cbn. now rewrite Hv'.
  - exact Hheld.
Qed.

Lemma hotspots_of_three_files_are_served_again :
  let w' := world_of (Service.find_dependency_hotspots 1 three_files_world) in
  cached_under (hotspots_key 1) w' = Some (OfFiles [file_a])
  /\ (forall d,
        result_of (Service.find_dependency_hotspots
                     1 (with_document d w'))
        = Ok (OfFiles [file_a])).
Proof.
  apply (hotspots_are_served_again
           three_files_world 1 (OfFiles [file_a])
           0 (InMemoryCacheService.new 16)).
  - apply fresh_world_ok.
  - reflexivity.
  - reflexivity.
  - reflexivity.
  - reflexivity.
Defined.

(* ------------------------------------------------------------------ *)
(** ** The metrics collector *)

Lemma sget_sset {V} (k k' : string) (v : V) (d : list (string * V)) :
  sget k (sset k' v d) = if String.eqb k k' then Some v else sget k d.
Proof.
  destruct (String.eqb k k') eqn:E.
  - apply String.eqb_eq in E. subst. apply sget_sset_eq.
  - apply String.eqb_neq in E. now apply sget_sset_ne.
Qed.

Lemma tally_zero (before : option nat) : tally before 0 = before.
Proof. destruct before as [m|]; [|reflexivity]. simpl. f_equal. lia. Qed.

Lemma tally_succ (before : option nat) (n : nat) :
  tally (Some (or_default before 0 + 1)) n = tally before (S n).
Proof.
  destruct before as [m|]; simpl; unfold counted; simpl; f_equal; lia.
Qed.

(** The entry of a dictionary of lists that is created empty when
    missing. *)
Lemma sget_created {V} (k k' : string) (d : list (string * list V)) :
  or_default
    (sget k (if negb (smem k' d) then sset k' [] d else d)) []
  = or_default (sget k d) [].
Proof.
  destruct (smem k' d) eqn:E; [reflexivity|]. cbn [negb].
  rewrite sget_sset. destruct (String.eqb k k') eqn:Ek; [|reflexivity].
  apply String.eqb_eq in Ek. subst.
  apply smem_false_get in E. now rewrite E.
Qed.

Lemma told_hits (key : string) (calls : list metric)
      (self : SimpleMetricsCollector.t) :
  sget key (SimpleMetricsCollector.cache_hits (told calls self))
  = tally (sget key (SimpleMetricsCollector.cache_hits self))
          (hits_of key calls).
Proof.
  revert self. induction calls as [|m calls IH]; intros self.
  - symmetry. apply tally_zero.
  - unfold told in *. cbn [fold_left]. rewrite IH. unfold hits_of.
    destruct m as [o d|k|k|o t]; cbn [tell filter]; trivial.
    cbn [SimpleMetricsCollector.record_cache_hit
         SimpleMetricsCollector.cache_hits].
    rewrite sget_sset. rewrite (String.eqb_sym key k).
    destruct (String.eqb k key) eqn:E; [|reflexivity].
    apply String.eqb_eq in E. subst k. cbn [List.length].
    apply tally_succ.
Qed.

Lemma told_misses (key : string) (calls : list metric)
      (self : SimpleMetricsCollector.t) :
  sget key (SimpleMetricsCollector.cache_misses (told calls self))
  = tally (sget key (SimpleMetricsCollector.cache_misses self))
          (misses_of key calls).
Proof.
  revert self. induction calls as [|m calls IH]; intros self.
  - symmetry. apply tally_zero.
  - unfold told in *. cbn [fold_left]. rewrite IH. unfold misses_of.
    destruct m as [o d|k|k|o t]; cbn [tell filter]; trivial.
    cbn [SimpleMetricsCollector.record_cache_miss
         SimpleMetricsCollector.cache_misses].
    rewrite sget_sset. rewrite (String.eqb_sym key k).
    destruct (String.eqb k key) eqn:E; [|reflexivity].
    apply String.eqb_eq in E. subst k. cbn [List.length].
    apply tally_succ.
Qed.

Lemma told_errors (operation error_type : string) (calls : list metric)
      (self : SimpleMetricsCollector.t) :
  sget error_type
       (or_default
          (sget operation (SimpleMetricsCollector.errors (told calls self)))
          [])
  = tally (sget error_type
                (or_default
                   (sget operation (SimpleMetricsCollector.errors self)) []))
          (errors_of operation error_type calls).
Proof.
  revert self. induction calls as [|m calls IH]; intros self.
  - symmetry. apply tally_zero.
  - unfold told in *. cbn [fold_left]. rewrite IH. unfold errors_of.
    destruct m as [o d|k|k|o t]; cbn [tell filter]; trivial.
    cbn [SimpleMetricsCollector.record_error SimpleMetricsCollector.errors].
    rewrite sget_sset. rewrite (String.eqb_sym operation o).
    destruct (String.eqb o operation) eqn:E.
    + apply String.eqb_eq in E. subst o. cbn [or_default andb].
      rewrite sget_sset, sget_created. rewrite (String.eqb_sym error_type t).
      destruct (String.eqb t error_type) eqn:Et; [|reflexivity].
      apply String.eqb_eq in Et. subst t. cbn [List.length].
      apply tally_succ.
    + cbn [andb]. now rewrite sget_created.
Qed.

Lemma told_times (operation : string) (calls : list metric)
      (self : SimpleMetricsCollector.t) :
  sget operation (SimpleMetricsCollector.operation_times (told calls self))
  = match durations_of operation calls with
    | [] => sget operation (SimpleMetricsCollector.operation_times self)
    | recorded =>
        Some (or_default
                (sget operation (SimpleMetricsCollector.operation_times self))
                []
              ++ recorded)
    end.
Proof.
  revert self. induction calls as [|m calls IH]; intros self; [reflexivity|].
  unfold told in *. cbn [fold_left]. rewrite IH. unfold durations_of.
  destruct m as [o d|k|k|o t]; cbn [tell flat_map app]; trivial.
  cbn [SimpleMetricsCollector.record_analysis_time
       SimpleMetricsCollector.operation_times].
  rewrite sget_sset. rewrite (String.eqb_sym operation o).
  destruct (String.eqb o operation) eqn:E.
  - apply String.eqb_eq in E. subst o. cbn [or_default app].
    rewrite sget_created.
    destruct (flat_map _ calls); [reflexivity|].
    now rewrite <- app_assoc.
  - cbn [app].
    destruct (smem o (SimpleMetricsCollector.operation_times self)) eqn:Em;
      [reflexivity|].
    cbn [negb]. rewrite sget_sset, (String.eqb_sym operation o), E.
    reflexivity.
Qed.

(** X24.  The collector's dictionaries are the tally of the calls made on
    it.  After any sequence of recordings on a new collector: the hits
    (misses) of a key are the number of [record_cache_hit]
    ([record_cache_miss]) calls for it, the count of an error type under an
    operation is the number of [record_error] calls for the two, and the
    times of an operation are the durations recorded for it, in the order
    of the calls; a key, operation or pair never recorded has no entry. *)
Theorem collector_tallies_the_calls (calls : list metric) :
  let self := told calls SimpleMetricsCollector.new in
  (forall key,
      sget key (SimpleMetricsCollector.cache_hits self)
      = counted (hits_of key calls))
  /\ (forall key,
        sget key (SimpleMetricsCollector.cache_misses self)
        = counted (misses_of key calls))
  /\ (forall operation error_type,
        sget error_type
             (or_default
                (sget operation (SimpleMetricsCollector.errors self)) [])
        = counted (errors_of operation error_type calls))
  /\ (forall operation,
        sget operation (SimpleMetricsCollector.operation_times self)
        = match durations_of operation calls with
          | [] => None
          | recorded => Some recorded
          end).
Proof.
  intros self. subst self. split; [|split; [|split]].
  - intros key. now rewrite told_hits.
  - intros key. now rewrite told_misses.
  - intros operation error_type. now rewrite told_errors.
  - intros operation. now rewrite told_times.
Qed.

(* ------------------------------------------------------------------ *)
(** ** The API's validators and the service's validation *)

Lemma lstrip_head (s : string) :
  match PyStr.lstrip s with
  | EmptyString => True
  | String c _ => PyStr.isspace c = false
  end.
Proof.
  induction s as [|c s IH]; [exact I|].
  cbn [PyStr.lstrip]. destruct (PyStr.isspace c) eqn:E; [exact IH|exact E].
Qed.

Lemma rstrip_cons (c : ascii) (r : string) :
  PyStr.isspace c = false ->
  PyStr.rstrip (String c r) = String c (PyStr.rstrip r).
Proof.
  intros H. cbn [PyStr.rstrip].
  destruct (PyStr.rstrip r); [now rewrite H|reflexivity].
Qed.

Lemma rstrip_idempotent (s : string) :
  PyStr.rstrip (PyStr.rstrip s) = PyStr.rstrip s.
Proof.
  induction s as [|c s IH]; [reflexivity|].
  cbn [PyStr.rstrip]. destruct (PyStr.rstrip s) as [|c' r] eqn:E.
  - destruct (PyStr.isspace c) eqn:Ec; [reflexivity|].
    cbn [PyStr.rstrip]. now rewrite Ec.
  - change (PyStr.rstrip (String c (String c' r)))
      with (match PyStr.rstrip (String c' r) with
            | EmptyString =>
                if PyStr.isspace c then EmptyString else String c EmptyString
            | r0 => String c r0
            end).
    now rewrite IH.
Qed.

Lemma strip_idempotent (s : string) :
  PyStr.strip (PyStr.strip s) = PyStr.strip s.
Proof.
  unfold PyStr.strip. pose proof (lstrip_head s) as H.
  destruct (PyStr.lstrip s) as [|c r]; [reflexivity|].
  rewrite (rstrip_cons c r H). cbn [PyStr.lstrip]. rewrite H.
  rewrite (rstrip_cons c _ H). now rewrite rstrip_idempotent.
Qed.

Lemma answer_of_accepted (field name value : string) :
  RequestValidator.answer InputValidator.accepted field name value
  = Ok (PDict [("is_valid", PBool true);
               ("params", PDict [(name, PStr value)])]).
Proof. reflexivity. Qed.

Lemma answer_of_rejected (error field name value : string) :
  RequestValidator.answer (InputValidator.rejected error) field name value
  = Ok (PDict [("is_valid", PBool false); ("error", PStr error);
               ("field", PStr field)]).
Proof. reflexivity. Qed.

Lemma search_query_validation (query : string) :
  InputValidator.validate_search_query (PStr query)
  = if validate_search_query StandardValidationService query
    then InputValidator.accepted
    else InputValidator.rejected "Search query too long (maximum: 100)".
Proof.
  cbn [InputValidator.validate_search_query validate_search_query
       StandardValidationService].
  unfold InputValidator.MIN_SEARCH_QUERY_LENGTH,
    InputValidator.MAX_SEARCH_QUERY_LENGTH,
    StandardValidation.MIN_SEARCH_QUERY_LENGTH,
    StandardValidation.MAX_SEARCH_QUERY_LENGTH.
  generalize (String.length (PyStr.strip query)). intros n.
  change (n <? 0) with false. cbn [Nat.leb andb].
  destruct (Nat.ltb_spec 100 n), (Nat.leb_spec n 100); try lia; reflexivity.
Qed.

(** X25.  The API's validators of search queries and dependency types
    accept exactly the strings the service's standard validation accepts,
    and reject every value that is no string.  The validation of a search
    request never raises; when it accepts, the query it hands on is the
    trimmed query, which the service's validation accepts again. *)
Theorem api_validation_agrees_with_the_service :
  (forall query,
      is_valid (InputValidator.validate_search_query (PStr query))
      = validate_search_query StandardValidationService query)
  /\ (forall dep_type,
        is_valid (InputValidator.validate_dependency_type (PStr dep_type))
        = validate_dependency_type StandardValidationService dep_type)
  /\ (forall v,
        (forall s, v <> PStr s) ->
        is_valid (InputValidator.validate_search_query v) = false
        /\ is_valid (InputValidator.validate_dependency_type v) = false
        /\ is_valid (InputValidator.validate_file_path v) = false)
  /\ (forall args,
        let query := or_default (sget "q" args) "" in
        exists answer,
          RequestValidator.validate_search_request args = Ok answer
          /\ is_valid answer
             = validate_search_query StandardValidationService query
          /\ (is_valid answer = true ->
              answer
              = PDict [("is_valid", PBool true);
                       ("params",
                        PDict [("query", PStr (PyStr.strip query))])]
              /\ validate_search_query StandardValidationService
                                       (PyStr.strip query) = true)).
Proof.
  split; [|split; [|split]].
  - intros query. rewrite search_query_validation.
    now destruct (validate_search_query StandardValidationService query).
  - intros dep_type.
    cbn [InputValidator.validate_dependency_type validate_dependency_type
         StandardValidationService].
    change InputValidator.VALID_DEPENDENCY_TYPES
      with StandardValidation.VALID_DEPENDENCY_TYPES.
    now destruct (existsb (String.eqb dep_type)
                          StandardValidation.VALID_DEPENDENCY_TYPES).
  - intros v Hv. destruct v; try (repeat split; reflexivity).
    now contradiction (Hv s).
  - intros args query. unfold RequestValidator.validate_search_request.
    fold query. rewrite search_query_validation.
    destruct (validate_search_query StandardValidationService query) eqn:E.
    + rewrite answer_of_accepted. eexists. split; [reflexivity|].
      split; [reflexivity|]. intros _. split; [reflexivity|].
      cbn [validate_search_query StandardValidationService] in *.
      now rewrite strip_idempotent.
    + rewrite answer_of_rejected. eexists. split; [reflexivity|].
      split; [reflexivity|]. discriminate.
Qed.

Lemma file_path_validation (file_path : string) :
  is_valid (InputValidator.validate_file_path (PStr file_path))
  = negb (String.length (PyStr.strip file_path) =? 0)
    && (String.length (PyStr.strip file_path) <=? 1000)
    && InputValidator.FILE_PATH_PATTERN_match (PyStr.strip file_path).
Proof.
  cbn [InputValidator.validate_file_path].
  destruct (PyStr.strip file_path) as [|c r]; [reflexivity|].
  change (negb (String.length (String c r) =? 0)) with true. cbn [andb].
  rewrite Nat.leb_antisym.
  destruct (1000 <? String.length (String c r)); [reflexivity|].
  now destruct (InputValidator.FILE_PATH_PATTERN_match (String c r)).
Qed.

(** X26.  The API's validator of file paths accepts a string exactly when
    its trimmed form has between 1 and 1000 characters, all of them
    letters, digits or one of [_ / - . \].  A path it accepts is handed on
    trimmed, and the service's standard validation accepts it unless it
    has exactly 1000 characters: the service's bound is strict, the API's
    is not. *)
Theorem api_file_path_bound_exceeds_the_service_bound (file_path : string) :
  let stripped := PyStr.strip file_path in
  (is_valid (InputValidator.validate_file_path (PStr file_path)) = true
   <-> 1 <= String.length stripped <= 1000
       /\ InputValidator.FILE_PATH_PATTERN_match stripped = true)
  /\ (is_valid (InputValidator.validate_file_path (PStr file_path)) = true ->
      RequestValidator.validate_file_details_request file_path
      = Ok (PDict [("is_valid", PBool true);
                   ("params", PDict [("file_path", PStr stripped)])])
      /\ (validate_file_path StandardValidationService stripped = true
          <-> String.length stripped <> 1000)).
Proof.
  intros stripped.
  assert (Hiff : is_valid (InputValidator.validate_file_path (PStr file_path))
                 = true
                 <-> 1 <= String.length stripped <= 1000
                     /\ InputValidator.FILE_PATH_PATTERN_match stripped = true).
  { rewrite file_path_validation. fold stripped.
    rewrite !andb_true_iff, negb_true_iff, Nat.eqb_neq, Nat.leb_le.
    intuition lia. }
  split; [exact Hiff|].
  intros Hv. split.
  - unfold RequestValidator.validate_file_details_request.
    revert Hv. cbn [InputValidator.validate_file_path]. fold stripped.
    destruct stripped as [|c r] eqn:E; [discriminate|]. rewrite <- E.
    destruct (1000 <? String.length stripped); [discriminate|].
    destruct (negb (InputValidator.FILE_PATH_PATTERN_match stripped));
      [discriminate|].
    intros _. apply answer_of_accepted.
  - apply Hiff in Hv as [Hlen _].
    cbn [validate_file_path StandardValidationService].
    unfold stripped in *. rewrite strip_idempotent.
    rewrite andb_true_iff, !Nat.ltb_lt. lia.
Qed.

Lemma path_of_1000_passes_the_api_only :
  is_valid (InputValidator.validate_file_path (PStr path_of_1000)) = true
  /\ validate_file_path StandardValidationService (PyStr.strip path_of_1000)
     = false.
Proof.
  assert (Hv : is_valid (InputValidator.validate_file_path (PStr path_of_1000))
               = true) by (vm_compute; reflexivity).
  split; [exact Hv|].
  destruct (api_file_path_bound_exceeds_the_service_bound path_of_1000)
    as [_ H].
  destruct (H Hv) as [_ Hiff].
  apply not_true_is_false. intros Ht. apply (proj1 Hiff Ht).
  vm_compute. reflexivity.
Defined.

Example rejection_lists_the_valid_types :
  InputValidator.validate_dependency_type (PStr "new")
  = InputValidator.rejected
      ("Invalid dependency type. Valid types: class_constant, "
       ++ "class_reference, instanceof, instantiation, static_call, "
       ++ "type_hint, use_statement").
Proof. reflexivity. Qed.

(* ------------------------------------------------------------------ *)
(** ** What a cache hit spares *)

(** The course of a cached operation that finds its answer cached: what
    it returns, the calls it makes, the service and the document it
    leaves. *)
Ltac answer_from_cache Hc :=
  unfold cached_under in Hc;
  unfold result_of, events_of, world_of, only_cache_reads;
  run_service;
  repeat (split_world; run_service);
  try discriminate;
  unfold InMemoryCacheService.exists_, InMemoryCacheService.get, PyDict.mem;
  rewrite ?Hc; run_service;
  repeat (split_world; run_service);
  repeat split; repeat constructor.

(** X27.  A cache hit spares the repository.  When the service's cache
    holds an object under the key of a cached operation (and the input is
    accepted), the operation returns that object having made no call but
    the read of the cache and the recording of the hit: the repository is
    asked neither to load nor for the modification time, nothing is stored,
    and the service and the document are left as they were. *)
Theorem cache_hits_spare_the_repository (w : World) (p : payload) :
  (forall limit,
      validate_limit_parameter (validation_service (service w)) limit = true ->
      cached_under (hotspots_key limit) w = Some p ->
      result_of (Service.find_dependency_hotspots limit w) = Ok p
      /\ only_cache_reads (events_of (Service.find_dependency_hotspots limit w))
      /\ service (world_of (Service.find_dependency_hotspots limit w))
         = service w
      /\ document (world_of (Service.find_dependency_hotspots limit w))
         = document w)
  /\ (forall t,
        validate_dependency_type (validation_service (service w))
                                 (DepType.value t) = true ->
        cached_under (dependencies_key t) w = Some p ->
        result_of (Service.get_dependencies_by_type t w) = Ok p
        /\ only_cache_reads (events_of (Service.get_dependencies_by_type t w))
        /\ service (world_of (Service.get_dependencies_by_type t w))
           = service w
        /\ document (world_of (Service.get_dependencies_by_type t w))
           = document w)
  /\ (cached_under "summary_statistics" w = Some p ->
      result_of (Service.get_summary_statistics w) = Ok p
      /\ only_cache_reads (events_of (Service.get_summary_statistics w))
      /\ service (world_of (Service.get_summary_statistics w)) = service w
      /\ document (world_of (Service.get_summary_statistics w)) = document w).
Proof.
  split; [|split].
  - intros limit Hv Hc.
    unfold Service.find_dependency_hotspots,
      Service.find_dependency_hotspots_body, hotspots_key in *.
    run_service. rewrite Hv. answer_from_cache Hc.
  - intros t Hv Hc.
    unfold Service.get_dependencies_by_type,
      Service.get_dependencies_by_type_body, dependencies_key in *.
    run_service. rewrite Hv. answer_from_cache Hc.
  - intros Hc. unfold Service.get_summary_statistics.
    answer_from_cache Hc.
Qed.

Lemma second_call_on_three_files_is_quiet :
  let w' := world_of (Service.find_dependency_hotspots 1 three_files_world) in
  result_of (Service.find_dependency_hotspots 1 w') = Ok (OfFiles [file_a])
  /\ only_cache_reads (events_of (Service.find_dependency_hotspots 1 w'))
  /\ service (world_of (Service.find_dependency_hotspots 1 w')) = service w'
  /\ document (world_of (Service.find_dependency_hotspots 1 w'))
     = document w'.
Proof.
  intros w'.
  apply (proj1 (cache_hits_spare_the_repository w' (OfFiles [file_a])) 1%Z);
    reflexivity.
Defined.

(* ------------------------------------------------------------------ *)
(** ** Operations that cache nothing *)

Lemma resolving_adds_no_answer (w w1 : World) (key : string)
      (o : outcome AnalysisResult.t) (ev1 : list event) :
  Service._get_analysis_result (with_ticks (S (ticks w)) w) = (o, w1, ev1) ->
  key <> _cache_key (repository w) ->
  cached_under key w = None ->
  cached_under key w1 = None
  /\ cached_under key (with_ticks (S (ticks w1)) w1) = None.
Proof.
  intros E Hne Hc.
  pose proof (resolved_same_setup _ _ (get_analysis_result_resolves (tick w)))
    as (_ & _ & _ & _ & _ & _ & _ & Hkeys).
  unfold tick, world_of in Hkeys. rewrite E in Hkeys. cbn [fst snd] in Hkeys.
  specialize (Hkeys key Hne Hc). now split.
Qed.

(** X28.  [search_dependencies] and [get_file_analysis] cache nothing:
    whatever they return or raise, a key under which the service's cache
    held nothing holds nothing afterwards, the key of the repository's own
    copy apart. *)
Theorem search_and_file_lookup_cache_nothing (w : World) (key : string) :
  key <> _cache_key (repository w) ->
  cached_under key w = None ->
  (forall query,
      cached_under key (world_of (Service.search_dependencies query w)) = None)
  /\ (forall file_path,
        cached_under key (world_of (Service.get_file_analysis file_path w))
        = None).
Proof.
  intros Hne Hc. split.
  - intros query.
    unfold Service.search_dependencies, Service.search_dependencies_body,
      world_of.
    run_service.
    destruct (validate_search_query (validation_service (service w)) query);
      run_service; [|exact Hc].
    destruct (Service._get_analysis_result (with_ticks (S (ticks w)) w))
      as [[[r|e] w1] ev1] eqn:E;
      destruct (resolving_adds_no_answer w w1 key _ ev1 E Hne Hc)
        as [H1 H2];
      run_service.
    + destruct (metrics_collector (service w1)); assumption.
    + destruct (is_ValueError e); run_service; [assumption|].
      destruct (metrics_collector (service w1)); assumption.
  - intros file_path.
    unfold Service.get_file_analysis, Service.get_file_analysis_body,
      world_of.
    run_service.
    destruct (validate_file_path (validation_service (service w)) file_path);
      run_service; [|exact Hc].
    destruct (Service._get_analysis_result (with_ticks (S (ticks w)) w))
      as [[[r|e] w1] ev1] eqn:E;
      destruct (resolving_adds_no_answer w w1 key _ ev1 E Hne Hc)
        as [H1 H2];
      run_service.
    + destruct (find _ (AnalysisResult.files r)); run_service;
        [|assumption].
      destruct (metrics_collector (service w1)); assumption.
    + destruct (is_ValueError e); run_service; [assumption|].
      destruct (metrics_collector (service w1)); assumption.
Qed.

Lemma search_on_three_files_caches_nothing :
  (forall query,
      cached_under "hotspots_5"
        (world_of (Service.search_dependencies query three_files_world))
      = None)
  /\ (forall file_path,
        cached_under "hotspots_5"
          (world_of (Service.get_file_analysis file_path three_files_world))
        = None).
Proof.
  apply (search_and_file_lookup_cache_nothing three_files_world "hotspots_5").
  - discriminate.
  - reflexivity.
Defined.
